(** * saireecmponew: accounts (MFA, backup codes, reset tokens, login)
    and pdfapp (document conversion pipeline)

  A shallow embedding of [accounts/models.py], [accounts/views.py],
  [accounts/forms.py] and [pdfapp/views.py], [pdfapp/models.py].

  Conventions.
  - Python [str] values are [string]s; the case functions act on the
    ASCII letters.
  - A [datetime] is a number of microseconds since the epoch ([Z]).
  - The database is reliable: [save()] and [objects.create()] always
    succeed.  Everything outside the repository that can fail (the
    file storage, the converter process, the document parsers, the
    one-time-password library) has its outcome passed in explicitly.
  - Part I holds the definitions, Part II the theorems. *)

From Stdlib Require Import ZArith List String Ascii Bool Lia.
Import ListNotations.
Local Open Scope string_scope.
Local Open Scope Z_scope.

(* ================================================================== *)
(** * Part I: definitions                                               *)
(* ================================================================== *)

(** ** Python string operations used by the source *)
Module PyStr.

Definition ascii_code (c : ascii) : Z := Z.of_N (N_of_ascii c).
Definition chr (n : Z) : ascii := ascii_of_N (Z.to_N n).

(** [c.upper()] and [c.lower()] on one ASCII character. *)
Definition upper_char (c : ascii) : ascii :=
  let n := ascii_code c in
  if (97 <=? n) && (n <=? 122) then chr (n - 32) else c.

Definition lower_char (c : ascii) : ascii :=
  let n := ascii_code c in
  if (65 <=? n) && (n <=? 90) then chr (n + 32) else c.

Fixpoint map_string (f : ascii -> ascii) (s : string) : string :=
  match s with
  | EmptyString => EmptyString
  | String c r => String (f c) (map_string f r)
  end.

(** [s.upper()], [s.lower()] *)
Definition upper (s : string) : string := map_string upper_char s.
Definition lower (s : string) : string := map_string lower_char s.

(** Truth value of a string: [bool(s)], false exactly for [''] . *)
Definition truthy (s : string) : bool :=
  match s with EmptyString => false | String _ _ => true end.

(** [s.split(sep)] for a one-character separator: never the empty list. *)
Fixpoint split (sep : ascii) (s : string) : list string :=
  match s with
  | EmptyString => [EmptyString]
  | String c r =>
      if Ascii.eqb c sep then EmptyString :: split sep r
      else match split sep r with
           | [] => [String c EmptyString]
           | h :: t => String c h :: t
           end
  end.

(** [sep.join(l)] *)
Fixpoint join (sep : string) (l : list string) : string :=
  match l with
  | [] => EmptyString
  | [x] => x
  | x :: r => x ++ sep ++ join sep r
  end.

(** [x in l] for a list of strings. *)
Definition mem (x : string) (l : list string) : bool :=
  existsb (String.eqb x) l.

(** [l.remove(x)]: drops the first occurrence (the source only calls it
    after [x in l], where Python does not raise). *)
Fixpoint remove (x : string) (l : list string) : list string :=
  match l with
  | [] => []
  | y :: r => if String.eqb x y then r else y :: remove x r
  end.

(** [sub in s] for strings. *)
Fixpoint contains (sub s : string) : bool :=
  if String.prefix sub s then true
  else match s with
       | EmptyString => false
       | String _ r => contains sub r
       end.

(** [c in s] for one character. *)
Fixpoint has_char (c : ascii) (s : string) : bool :=
  match s with
  | EmptyString => false
  | String d r => Ascii.eqb d c || has_char c r
  end.

(** Python's whitespace for [str.strip()], ASCII range:
    space, \t \n \v \f \r and the separators 0x1c..0x1f. *)
Definition is_space (c : ascii) : bool :=
  let n := ascii_code c in
  (n =? 32) || ((9 <=? n) && (n <=? 13)) || ((28 <=? n) && (n <=? 31)).

Fixpoint lstrip (s : string) : string :=
  match s with
  | String c r => if is_space c then lstrip r else s
  | EmptyString => EmptyString
  end.

Fixpoint rstrip (s : string) : string :=
  match s with
  | EmptyString => EmptyString
  | String c r =>
      match rstrip r with
      | EmptyString => if is_space c then EmptyString else String c EmptyString
      | r' => String c r'
      end
  end.

Definition strip (s : string) : string := rstrip (lstrip s).

Definition len (s : string) : Z := Z.of_nat (String.length s).

(** The double quote character, and a string of one character. *)
Definition dq : string := String (chr 34) EmptyString.
Definition nl : string := String (chr 10) EmptyString.

(** [str(n)] for a non-negative integer. *)
Fixpoint digits_fuel (fuel : nat) (n : Z) (acc : string) : string :=
  match fuel with
  | O => acc
  | S f =>
      let acc' := String (chr (48 + n mod 10)) acc in
      if n / 10 =? 0 then acc' else digits_fuel f (n / 10) acc'
  end.

Definition str_of_int (n : Z) : string :=
  digits_fuel (S (Z.to_nat (Z.log2 n))) n EmptyString.

End PyStr.

(** ** The one-time-password library behind [verify_mfa_token]

  [pyotp] is not part of the repository.  [pyotp.TOTP(secret)] with its
  defaults is the time-based algorithm of RFC 6238 over the counter-based
  one of RFC 4226: HMAC-SHA-1, six digits, 30-second steps, the key being
  the base32 decoding of the secret.  It is written out here so that
  codes can be computed. *)
Module PyOTP.
Import PyStr.
Local Open Scope list_scope.

(** *** SHA-1 (FIPS 180-4) on 32-bit words held in [Z] *)
Definition w32 (x : Z) : Z := x mod 4294967296.

Definition rotl (n x : Z) : Z :=
  w32 (Z.lor (Z.shiftl x n) (Z.shiftr x (32 - n))).

Fixpoint be_bytes (n : nat) (x : Z) : list Z :=
  match n with
  | O => []
  | S k => (Z.shiftr x (8 * Z.of_nat k)) mod 256 :: be_bytes k x
  end.

Fixpoint be_int (bs : list Z) (acc : Z) : Z :=
  match bs with
  | [] => acc
  | b :: r => be_int r (acc * 256 + b)
  end.

(** Message padding: 0x80, zeros up to 56 mod 64, the bit length on 8
    bytes. *)
Definition sha1_pad (msg : list Z) : list Z :=
  let l := Z.of_nat (List.length msg) in
  let zeros := Z.to_nat ((55 - l) mod 64) in
  msg ++ [128] ++ repeat 0 zeros ++ be_bytes 8 (8 * l).

Fixpoint words_of (n : nat) (bs : list Z) : list Z :=
  match n with
  | O => []
  | S k => be_int (firstn 4 bs) 0 :: words_of k (skipn 4 bs)
  end.

(** Message schedule, newest word first: [rev_w] holds w[t-1], w[t-2], ... *)
Fixpoint schedule (n : nat) (rev_w : list Z) : list Z :=
  match n with
  | O => rev_w
  | S k =>
      let x := Z.lxor (Z.lxor (nth 2 rev_w 0) (nth 7 rev_w 0))
                      (Z.lxor (nth 13 rev_w 0) (nth 15 rev_w 0)) in
      schedule k (rotl 1 x :: rev_w)
  end.

Definition sha1_f (t : nat) (b c d : Z) : Z :=
  if (t <? 20)%nat then Z.lor (Z.land b c) (Z.land (w32 (Z.lnot b)) d)
  else if (t <? 40)%nat then Z.lxor (Z.lxor b c) d
  else if (t <? 60)%nat then
    Z.lor (Z.lor (Z.land b c) (Z.land b d)) (Z.land c d)
  else Z.lxor (Z.lxor b c) d.

Definition sha1_k (t : nat) : Z :=
  if (t <? 20)%nat then 1518500249
  else if (t <? 40)%nat then 1859775393
  else if (t <? 60)%nat then 2400959708
  else 3395469782.

Definition state5 := (Z * Z * Z * Z * Z)%type.

Fixpoint rounds (t : nat) (ws : list Z) (s : state5) : state5 :=
  match ws with
  | [] => s
  | w :: r =>
      let '(a, b, c, d, e) := s in
      let temp := w32 (rotl 5 a + sha1_f t b c d + e + sha1_k t + w) in
      rounds (S t) r (temp, a, rotl 30 b, c, d)
  end.

Definition compress (h : state5) (block : list Z) : state5 :=
  let ws := rev (schedule 64 (rev (words_of 16 block))) in
  let '(h0, h1, h2, h3, h4) := h in
  let '(a, b, c, d, e) := rounds 0 ws h in
  (w32 (h0 + a), w32 (h1 + b), w32 (h2 + c), w32 (h3 + d), w32 (h4 + e)).

Fixpoint blocks (n : nat) (bs : list Z) (h : state5) : state5 :=
  match n with
  | O => h
  | S k => blocks k (skipn 64 bs) (compress h (firstn 64 bs))
  end.

Definition sha1 (msg : list Z) : list Z :=
  let padded := sha1_pad msg in
  let '(h0, h1, h2, h3, h4) :=
    blocks (List.length padded / 64) padded
           (1732584193, 4023233417, 2562383102, 271733878, 3285377520) in
  be_bytes 4 h0 ++ be_bytes 4 h1 ++ be_bytes 4 h2 ++ be_bytes 4 h3
    ++ be_bytes 4 h4.

(** *** HMAC (RFC 2104) with SHA-1 *)
Definition hmac_sha1 (key msg : list Z) : list Z :=
  let key1 := if (64 <? List.length key)%nat then sha1 key else key in
  let key2 := key1 ++ repeat 0 (64 - List.length key1) in
  let ipad := map (fun b => Z.lxor b 54) key2 in
  let opad := map (fun b => Z.lxor b 92) key2 in
  sha1 (opad ++ sha1 (ipad ++ msg)).

(** *** [base64.b32decode(secret, casefold=True)] after pyotp's padding *)
Definition b32_value (c : ascii) : option Z :=
  let n := ascii_code c in
  if (65 <=? n) && (n <=? 90) then Some (n - 65)
  else if (50 <=? n) && (n <=? 55) then Some (n - 24)
  else None.

(** The accumulator of one group of at most eight characters. *)
Fixpoint b32_acc (cs : list ascii) (acc : Z) : option Z :=
  match cs with
  | [] => Some acc
  | c :: r =>
      match b32_value c with
      | Some v => b32_acc r (acc * 32 + v)
      | None => None
      end
  end.

(** Groups of eight characters, five bytes each; the last group may be
    short.  Returns the bytes and the accumulator of the last group. *)
Fixpoint b32_groups (fuel : nat) (cs : list ascii) : option (list Z * Z) :=
  match fuel with
  | O => Some ([], 0)
  | S f =>
      match cs with
      | [] => Some ([], 0)
      | _ =>
          match b32_acc (firstn 8 cs) 0 with
          | None => None
          | Some acc =>
              match skipn 8 cs with
              | [] => Some (be_bytes 5 acc, acc)
              | rest =>
                  match b32_groups f rest with
                  | None => None
                  | Some (bs, last) => Some (be_bytes 5 acc ++ bs, last)
                  end
              end
          end
      end
  end.

Fixpoint rstrip_eq (cs : list ascii) : list ascii :=
  match cs with
  | [] => []
  | c :: r =>
      match rstrip_eq r with
      | [] => if Ascii.eqb c "=" then [] else [c]
      | r' => c :: r'
      end
  end.

(** [OTP.byte_secret()]: pad the secret with [=] to a multiple of eight
    characters and decode; [None] stands for [binascii.Error]. *)
Definition byte_secret (secret : string) : option (list Z) :=
  let s0 := list_ascii_of_string (upper secret) in
  let missing := (List.length s0 mod 8)%nat in
  let s := if (missing =? 0)%nat then s0
           else s0 ++ repeat "="%char (8 - missing) in
  let stripped := rstrip_eq s in
  let padchars := (List.length s - List.length stripped)%nat in
  match b32_groups (List.length stripped) stripped with
  | None => None
  | Some (decoded, acc) =>
      if negb (existsb (Nat.eqb padchars) [0; 1; 3; 4; 6])%nat then None
      else if (0 <? padchars)%nat && negb (Nat.eqb (List.length decoded) 0) then
        let last := be_bytes 5 (Z.shiftl acc (5 * Z.of_nat padchars)) in
        let leftover := ((43 - 5 * padchars) / 8)%nat in
        Some (firstn (List.length decoded - 5) decoded ++ firstn leftover last)
      else Some decoded
  end.

(** *** [OTP.generate_otp(input)] with [digits = 6] *)
Definition truncate (mac : list Z) : Z :=
  let offset := Z.to_nat (Z.land (last mac 0) 15) in
  Z.lor (Z.lor (Z.shiftl (Z.land (nth offset mac 0) 127) 24)
               (Z.shiftl (Z.land (nth (offset + 1) mac 0) 255) 16))
        (Z.lor (Z.shiftl (Z.land (nth (offset + 2) mac 0) 255) 8)
               (Z.land (nth (offset + 3) mac 0) 255)).

Fixpoint zero_pad (n : nat) (s : string) : string :=
  match n with
  | O => s
  | S k => if (String.length s <? n)%nat
           then zero_pad k (String "0" s) else s
  end.

Definition hotp (key : list Z) (counter : Z) : string :=
  let code := truncate (hmac_sha1 key (be_bytes 8 counter)) in
  zero_pad 6 (str_of_int (code mod 1000000)).

(** [generate_otp]: raises ([None]) for a negative input or a secret
    that does not decode. *)
Definition generate_otp (secret : string) (input : Z) : option string :=
  if input <? 0 then None
  else match byte_secret secret with
       | None => None
       | Some key => Some (hotp key input)
       end.

(** [TOTP.timecode(for_time)]: whole seconds divided by the 30-second
    interval, truncated. *)
Definition timecode (for_time : Z) : Z := Z.quot (for_time / 1000000) 30.

(** [TOTP.at(for_time, counter_offset)] *)
Definition totp_at (secret : string) (for_time : Z) (counter_offset : Z)
  : option string :=
  generate_otp secret (timecode for_time + counter_offset).

(** [TOTP.verify(otp, for_time, valid_window)] for [valid_window >= 1]:
    the offsets are tried in increasing order, the first match answers
    [True]; an exception while computing a candidate escapes ([None]). *)
Fixpoint verify_offsets (secret otp : string) (for_time : Z)
         (offsets : list Z) : option bool :=
  match offsets with
  | [] => Some false
  | i :: r =>
      match totp_at secret for_time i with
      | None => None
      | Some c => if String.eqb otp c then Some true
                  else verify_offsets secret otp for_time r
      end
  end.

Definition range (lo : Z) (n : nat) : list Z :=
  map (fun i => lo + Z.of_nat i) (seq 0 n).

Definition totp_verify (secret otp : string) (for_time : Z)
           (valid_window : Z) : option bool :=
  verify_offsets secret otp for_time
    (range (- valid_window) (Z.to_nat (2 * valid_window + 1))).

(** Byte strings written as text, and digests written in hexadecimal,
    for the test vectors. *)
Definition bytes_of_string (s : string) : list Z :=
  map ascii_code (list_ascii_of_string s).

Definition hex_digit (n : Z) : ascii :=
  if n <? 10 then chr (48 + n) else chr (87 + n).

Definition hex_of (bs : list Z) : string :=
  string_of_list_ascii
    (flat_map (fun b => [hex_digit (b / 16); hex_digit (b mod 16)]) bs).

End PyOTP.

(** ** accounts/models.py *)
Module Accounts.
Import PyStr.

(** A [datetime]: microseconds since the epoch. *)
Definition datetime := Z.

(** The datetime [n] seconds after the epoch. *)
Definition seconds (n : Z) : datetime := n * 1000000.

(** [timedelta(hours=h)] *)
Definition timedelta_hours (h : Z) : Z := h * 3600 * 1000000.

(** [CustomUser]: the fields the authentication code reads or writes. *)
Record CustomUser := mkUser {
  user_id : Z;
  email : string;
  first_name : string;
  is_active : bool;
  mfa_enabled : bool;
  mfa_secret : string;
  mfa_backup_codes : string;
  failed_login_attempts : Z
}.

Definition set_mfa_backup_codes (u : CustomUser) (v : string) : CustomUser :=
  mkUser (user_id u) (email u) (first_name u) (is_active u) (mfa_enabled u)
         (mfa_secret u) v (failed_login_attempts u).

(** [verify_mfa_token(token)], with the current time passed in.  [None]
    stands for an exception escaping from the library call. *)
Definition verify_mfa_token (u : CustomUser) (token : string) (now : datetime)
  : option bool :=
  if negb (truthy (mfa_secret u)) then Some false
  else PyOTP.totp_verify (mfa_secret u) token now 1.

(** [secrets.token_hex(n)]: two lower-case hexadecimal digits per random
    byte; the random bytes are passed in. *)
Definition hex_digit (n : Z) : ascii :=
  if n <? 10 then chr (48 + n) else chr (87 + n).

Fixpoint token_hex (random_bytes : list Z) : string :=
  match random_bytes with
  | [] => EmptyString
  | b :: r =>
      String (hex_digit ((b mod 256) / 16))
        (String (hex_digit (b mod 16)) (token_hex r))
  end.

(** [generate_backup_codes(count)]: one draw of [secrets.token_hex(4)] per
    code, [draws] holding the random bytes of each of the [count] calls.
    Returns the codes and the account with the joined codes stored. *)
Definition generate_backup_codes (u : CustomUser) (draws : list (list Z))
  : list string * CustomUser :=
  let codes := map (fun d => upper (token_hex d)) draws in
  (codes, set_mfa_backup_codes u (join "," codes)).

(** [verify_backup_code(code)]: returns the answer and the account as it is
    after the call ([self.save()] on success, untouched otherwise). *)
Definition verify_backup_code (u : CustomUser) (code : string)
  : bool * CustomUser :=
  if negb (truthy (mfa_backup_codes u)) then (false, u)
  else
    let codes := split "," (mfa_backup_codes u) in
    if mem (upper code) codes then
      let codes' := remove (upper code) codes in
      (true, set_mfa_backup_codes u (join "," codes'))
    else (false, u).

(** [get_remaining_backup_codes_count()] *)
Definition get_remaining_backup_codes_count (u : CustomUser) : Z :=
  if negb (truthy (mfa_backup_codes u)) then 0
  else Z.of_nat (List.length (split "," (mfa_backup_codes u))).

(** The stored collection of codes that both methods read: nothing when the
    field is empty, the comma-separated entries otherwise. *)
Definition stored_codes (u : CustomUser) : list string :=
  if truthy (mfa_backup_codes u) then split "," (mfa_backup_codes u) else [].

(** The shape in which [generate_backup_codes] writes the field and
    [verify_backup_code] keeps it: non-empty, upper-case entries. *)
Definition codes_well_formed (u : CustomUser) : Prop :=
  Forall (fun c => c <> EmptyString /\ upper c = c) (stored_codes u).

(** [LoginAttempt] (the timestamp is set by the database). *)
Record LoginAttempt := mkAttempt {
  la_email : string;
  la_ip_address : option string;
  la_user_agent : string;
  la_successful : bool
}.

(** [PasswordResetToken] *)
Record PasswordResetToken := mkToken {
  prt_user : Z;
  prt_token : string;
  created_at : datetime;
  used : bool
}.

(** [PasswordResetToken.objects.create(user=..., token=...)] at time [now]:
    [created_at] is [auto_now_add], [used] defaults to [False]. *)
Definition create_token (user : Z) (token : string) (now : datetime)
  : PasswordResetToken :=
  mkToken user token now false.

Definition mark_used (t : PasswordResetToken) : PasswordResetToken :=
  mkToken (prt_user t) (prt_token t) (created_at t) true.

(** [PasswordResetToken.is_valid()], with [timezone.now()] passed in. *)
Definition is_valid (t : PasswordResetToken) (now : datetime) : bool :=
  if used t then false
  else
    let expiry_time := created_at t + timedelta_hours 24 in
    now <? expiry_time.

(** Sample accounts used in the examples below. *)
Definition blank_user : CustomUser :=
  mkUser 1 "alice@example.org" "Alice" true true "JBSWY3DPEHPK3PXP" EmptyString 0.

Definition user_no_secret : CustomUser :=
  mkUser 2 "bob@example.org" "Bob" true false EmptyString EmptyString 0.

(** Two draws of [token_hex(4)] that happen to return the same bytes. *)
Definition user_equal_draws : CustomUser :=
  snd (generate_backup_codes blank_user
         [[171; 18; 205; 52]; [171; 18; 205; 52]]).

Definition user_two_codes : CustomUser :=
  snd (generate_backup_codes blank_user
         [[171; 18; 205; 52]; [0; 255; 0; 255]]).

End Accounts.

(** ** accounts/forms.py and accounts/views.py: login and MFA verification *)
Module AccountsViews.
Import PyStr Accounts.

(** The session keys the two views touch.  [auth_user_id] is the key
    [django.contrib.auth.login] writes; [expiry] is what
    [session.set_expiry] stored ([None]: the configured default). *)
Record Session := mkSession {
  auth_user_id : option Z;
  mfa_user_id : option Z;
  mfa_remember_me : option bool;
  expiry : option Z
}.

Definition anonymous_session : Session := mkSession None None None None.

Definition is_authenticated (s : Session) : bool :=
  match auth_user_id s with Some _ => true | None => false end.

(** [django.contrib.auth.login(request, user)]: a session that belongs to
    another account is flushed, then the account is recorded. *)
Definition login (s : Session) (user : CustomUser) : Session :=
  let s' := match auth_user_id s with
            | Some uid => if uid =? user_id user then s else anonymous_session
            | None => s
            end in
  mkSession (Some (user_id user)) (mfa_user_id s') (mfa_remember_me s')
            (expiry s').

Definition set_expiry (s : Session) (v : Z) : Session :=
  mkSession (auth_user_id s) (mfa_user_id s) (mfa_remember_me s) (Some v).

(** The parts of a request the views read.  A field absent from the
    submitted form is [None]. *)
Record Request := mkRequest {
  post_username : option string;
  post_password : option string;
  post_remember_me : bool;
  post_token : option string;
  post_use_backup_code : bool;
  get_next : option string;
  http_x_forwarded_for : option string;
  remote_addr : string;
  http_user_agent : option string
}.

Definition get_default (o : option string) (d : string) : string :=
  match o with Some v => v | None => d end.

(** [get_client_ip(request)] *)
Definition get_client_ip (request : Request) : option string :=
  match http_x_forwarded_for request with
  | Some x =>
      if truthy x then Some (hd EmptyString (split "," x))
      else Some (remote_addr request)
  | None => Some (remote_addr request)
  end.

Inductive Response :=
| Redirect (to : string)
| Render (template : string)
| Http404
| ServerError.

(** A message of [django.contrib.messages]. *)
Inductive Level := Success | Info | Error.
Definition Message := (Level * string)%type.

(** *** The login form

    What [CustomLoginForm(request, data=request.POST)] answers to
    [is_valid()], [get_user()] and [cleaned_data]. *)
Inductive LoginFormOutcome :=
| FormValid (user : CustomUser) (remember_me : bool)
| FormInvalid.

(** The form is Django's [AuthenticationForm] with [username] an
    [EmailField]: the submitted value is stripped of surrounding
    white space and validated as an address, the password is stripped,
    and [authenticate] looks the account up by the cleaned value (an
    exact match on [email]), checks the password and that the account
    is active.  The address validator and the password hasher are
    passed in. *)
Definition CustomLoginForm
           (email_validator : string -> bool)
           (check_password : CustomUser -> string -> bool)
           (users : list CustomUser) (request : Request) : LoginFormOutcome :=
  let username := strip (get_default (post_username request) EmptyString) in
  let password := strip (get_default (post_password request) EmptyString) in
  if negb (truthy username) || negb (email_validator username)
     || negb (truthy password)
  then FormInvalid
  else match find (fun u => String.eqb (email u) username) users with
       | Some user =>
           if check_password user password && is_active user
           then FormValid user (post_remember_me request)
           else FormInvalid
       | None => FormInvalid
       end.

(** The database tables and the message queue the views write to. *)
Record World := mkWorld {
  users : list CustomUser;
  login_attempts : list LoginAttempt;
  messages : list Message
}.

Definition add_attempt (w : World) (a : LoginAttempt) : World :=
  mkWorld (users w) (login_attempts w ++ [a]) (messages w).

Definition add_message (w : World) (m : Message) : World :=
  mkWorld (users w) (login_attempts w) (messages w ++ [m]).

(** [user.save()]: the row with this primary key is replaced. *)
Definition save_user (w : World) (u : CustomUser) : World :=
  mkWorld (map (fun v => if user_id v =? user_id u then u else v) (users w))
          (login_attempts w) (messages w).

Definition get_user (w : World) (uid : Z) : option CustomUser :=
  find (fun u => user_id u =? uid) (users w).

(** The session and the world a view leaves behind. *)
Definition session_of (r : Response * Session * World) : Session := snd (fst r).
Definition world_of (r : Response * Session * World) : World := snd r.

(** *** [LoginView.post] *)
Definition LoginView_post (form : LoginFormOutcome) (request : Request)
           (s : Session) (w : World) : Response * Session * World :=
  match form with
  | FormValid user remember_me =>
      let w1 := add_attempt w
                  (mkAttempt (email user) (get_client_ip request)
                     (get_default (http_user_agent request) EmptyString) true) in
      if mfa_enabled user then
        (Redirect "accounts:mfa_verify",
         mkSession (auth_user_id s) (Some (user_id user)) (Some remember_me)
                   (expiry s),
         w1)
      else
        let s1 := login s user in
        let s2 := if negb remember_me then set_expiry s1 0 else s1 in
        let w2 := add_message w1
                    (Success, "Welcome back, " ++ first_name user ++ "!") in
        (Redirect (get_default (get_next request) "accounts:dashboard"), s2, w2)
  | FormInvalid =>
      let email := get_default (post_username request) EmptyString in
      let w1 := add_attempt w
                  (mkAttempt email (get_client_ip request)
                     (get_default (http_user_agent request) EmptyString) false) in
      (Render "accounts/login.html", s,
       add_message w1 (Error, "Invalid email or password."))
  end.

(** *** [MFAVerificationForm]: a required token of exactly six
    characters (after stripping) and an optional check box. *)
Definition MFAVerificationForm (request : Request) : option (string * bool) :=
  let token := strip (get_default (post_token request) EmptyString) in
  if (len token =? 6) && negb (has_char (chr 0) token)
  then Some (token, post_use_backup_code request)
  else None.

(** The verification step of [MFAVerifyView.post]: the answer, the
    world after it ([verify_backup_code] saves the account and an info
    message is queued), or [None] when the library call raises. *)
Definition check_token (user : CustomUser) (token : string) (use_backup : bool)
           (now : datetime) (w : World) : option (bool * CustomUser * World) :=
  if use_backup then
    let '(valid, user') := verify_backup_code user token in
    if valid then
      let w1 := save_user w user' in
      Some (true, user',
            add_message w1
              (Info, "Backup code used. You have "
                     ++ str_of_int (get_remaining_backup_codes_count user')
                     ++ " codes remaining."))
    else Some (false, user', w)
  else
    match verify_mfa_token user token now with
    | Some valid => Some (valid, user, w)
    | None => None
    end.

(** *** [MFAVerifyView.dispatch] followed by [MFAVerifyView.post] *)
Definition MFAVerifyView_post (request : Request) (now : datetime)
           (s : Session) (w : World) : Response * Session * World :=
  match mfa_user_id s with
  | None => (Redirect "accounts:login", s, w)
  | Some uid =>
      match MFAVerificationForm request with
      | None => (Render "accounts/mfa_verify.html", s, w)
      | Some (token, use_backup) =>
          match get_user w uid with
          | None => (Http404, s, w)
          | Some user =>
              match check_token user token use_backup now w with
              | None => (ServerError, s, w)
              | Some (true, user', w1) =>
                  let remember_me :=
                    match mfa_remember_me s with Some b => b | None => false end in
                  let s1 := mkSession (auth_user_id s) None None (expiry s) in
                  let s2 := login s1 user' in
                  let s3 := if negb remember_me then set_expiry s2 0 else s2 in
                  (Redirect "accounts:dashboard", s3,
                   add_message w1
                     (Success, "Welcome back, " ++ first_name user' ++ "!"))
              | Some (false, _, w1) =>
                  (Render "accounts/mfa_verify.html", s,
                   add_message w1
                     (Error, "Invalid verification code. Please try again."))
              end
          end
      end
  end.

(** Whether a submission to [MFAVerifyView.post] verifies: the form is
    valid, the pending account exists and the token or backup code is
    accepted. *)
Definition mfa_verifies (request : Request) (now : datetime)
           (s : Session) (w : World) : bool :=
  match mfa_user_id s with
  | None => false
  | Some uid =>
      match MFAVerificationForm request with
      | None => false
      | Some (token, use_backup) =>
          match get_user w uid with
          | None => false
          | Some user =>
              match check_token user token use_backup now w with
              | Some (true, _, _) => true
              | _ => false
              end
          end
      end
  end.

(** A run of submissions to [MFAVerifyView.post], in order. *)
Fixpoint mfa_posts (reqs : list (Request * datetime)) (s : Session) (w : World)
  : Session * World :=
  match reqs with
  | [] => (s, w)
  | (request, now) :: r =>
      let '(_, s', w') := MFAVerifyView_post request now s w in
      mfa_posts r s' w'
  end.

(** No submission of the run verifies at the moment it is made. *)
Fixpoint none_verifies (reqs : list (Request * datetime)) (s : Session)
         (w : World) : bool :=
  match reqs with
  | [] => true
  | (request, now) :: r =>
      negb (mfa_verifies request now s w)
      && (let '(_, s', w') := MFAVerifyView_post request now s w in
          none_verifies r s' w')
  end.

(** Sample data for the examples below: a login form submission whose
    address has a leading and a trailing blank, and simple stand-ins for
    the address validator and the password hasher. *)
Definition sample_request : Request :=
  mkRequest (Some " alice@example.org ") (Some "correct horse") false
            None false None None "203.0.113.7" (Some "Mozilla/5.0").

Definition sample_email_validator (e : string) : bool := has_char "@" e.

Definition sample_check_password (u : CustomUser) (raw : string) : bool :=
  String.eqb raw "correct horse".

Definition sample_world : World :=
  mkWorld [blank_user; user_no_secret] [] [].

Definition sample_form : LoginFormOutcome :=
  CustomLoginForm sample_email_validator sample_check_password
                  (users sample_world) sample_request.

End AccountsViews.

(** ** pdfapp/models.py and pdfapp/views.py: the conversion pipeline *)
Module Pdfapp.
Import PyStr Accounts.

(** *** [os.path] on POSIX paths *)

(** The part of [p] after its last [/]. *)
Fixpoint basename (p : string) : string :=
  match p with
  | EmptyString => EmptyString
  | String c r => if has_char "/" r then basename r
                  else if Ascii.eqb c "/" then r else p
  end.

(** [os.path.splitext] of a name without directory part: the extension
    starts at the last dot, unless only dots precede it. *)
Fixpoint all_dots (s : string) : bool :=
  match s with
  | EmptyString => true
  | String c r => Ascii.eqb c "." && all_dots r
  end.

Fixpoint splitext_name (seen name : string) : string * string :=
  match name with
  | EmptyString => (seen, EmptyString)
  | String c r =>
      if Ascii.eqb c "." && negb (has_char "." r) && negb (all_dots seen)
      then (seen, name)
      else splitext_name (seen ++ String c EmptyString) r
  end.

Fixpoint dirname_slash (p : string) : string :=
  match p with
  | EmptyString => EmptyString
  | String c r => if has_char "/" p then String c (dirname_slash r)
                  else EmptyString
  end.

(** [os.path.splitext(p)] *)
Definition splitext (p : string) : string * string :=
  let '(root, ext) := splitext_name EmptyString (basename p) in
  (dirname_slash p ++ root, ext).

(** [os.path.join(a, b)] *)
Definition path_join (a b : string) : string :=
  match b with
  | String "/"%char _ => b
  | _ => match a with
         | EmptyString => b
         | _ => if String.eqb (substring (String.length a - 1) 1 a) "/"
                then a ++ b else a ++ "/" ++ b
         end
  end.

(** [s[1:]] *)
Definition drop_first (s : string) : string :=
  match s with EmptyString => EmptyString | String _ r => r end.

(** *** pdfapp/models.py *)

(** A file held by a [FileField]: its storage name and its content. *)
Record StoredFile := mkFile { file_name : string; file_content : string }.

Definition upload_to_pdf_output (filename : string) : string :=
  "pdf/output/" ++ filename.

(** [PDFDocument].  [source_file] is the storage name of the upload,
    empty when no file is attached. *)
Record PDFDocument := mkDoc {
  title : string;
  source_file : string;
  pdf_file : option StoredFile;
  html_file : option StoredFile;
  html_content : string;
  status : string;
  error_message : string;
  view_count : Z;
  processed_at : option datetime
}.

Definition source_extension (d : PDFDocument) : string :=
  if truthy (source_file d)
  then lower (drop_first (snd (splitext (source_file d))))
  else EmptyString.

Definition is_docx (d : PDFDocument) : bool :=
  String.eqb (source_extension d) "docx".

Definition is_pptx (d : PDFDocument) : bool :=
  String.eqb (source_extension d) "pptx".

Definition has_pdf (d : PDFDocument) : bool :=
  match pdf_file d with Some _ => true | None => false end.

Definition has_html (d : PDFDocument) : bool :=
  match html_file d with Some _ => true | None => false end
  || truthy (html_content d).

(** [ConversionLog] rows of one document, oldest first. *)
Record ConversionLog := mkLog { action : string; message : string }.

(** *** What the parsers hand to the HTML converters *)

(** [WD_ALIGN_PARAGRAPH] *)
Inductive Alignment :=
| LEFT | CENTER | RIGHT | JUSTIFY | DISTRIBUTE
| JUSTIFY_MED | JUSTIFY_HI | JUSTIFY_LOW | THAI_JUSTIFY.

(** A run: its text and the tri-state character formats ([None]:
    inherited).  A format applies when its value is true. *)
Record Run := mkRun {
  run_text : string;
  bold : option bool;
  italic : option bool;
  underline : option bool
}.

Definition is_set (o : option bool) : bool :=
  match o with Some true => true | _ => false end.

Record Paragraph := mkParagraph {
  style_name : option string;
  alignment : option Alignment;
  runs : list Run
}.

(** [para.text]: the text of the runs, concatenated. *)
Definition para_text (p : Paragraph) : string :=
  String.concat EmptyString (map run_text (runs p)).

(** A table: rows of cell texts. *)
Definition Table := list (list string).

Record DocxDocument := mkDocx {
  paragraphs : list Paragraph;
  tables : list Table
}.

Record SlideParagraph := mkSlideParagraph { sp_text : string; level : Z }.

Inductive Shape :=
| TextShape (shape_id : Z) (text_frame : list SlideParagraph)
| TableShape (shape_id : Z) (table : Table)
| OtherShape (shape_id : Z).

Record Slide := mkSlide {
  shapes : list Shape;
  title_shape : option Z
}.

Definition Presentation := list Slide.

(** What a call outside the repository did: it returned, or it raised
    an exception whose [str()] is [msg]. *)
Inductive Outcome (A : Type) :=
| Returned (a : A)
| Raised (msg : string).
Arguments Returned {A} a.
Arguments Raised {A} msg.

(** *** [convert_docx_to_pdf]

    How the [soffice] process ended: it exited with a return code and
    an error stream, the PDF being on disk or not; it exceeded the 120
    seconds; or [subprocess.run] raised something else. *)
Inductive SofficeOutcome :=
| Exited (returncode : Z) (stderr : string) (pdf_written : bool)
| TimeoutExpired
| RunFailed (msg : string).

Definition convert_docx_to_pdf (docx_path output_dir : string)
           (run : SofficeOutcome) : option string * option string :=
  match run with
  | Exited returncode stderr pdf_written =>
      if returncode =? 0 then
        let base_name := fst (splitext (basename docx_path)) in
        let pdf_path := path_join output_dir (base_name ++ ".pdf") in
        if pdf_written then (Some pdf_path, None)
        else (None, Some "PDF file not generated")
      else (None, Some stderr)
  | TimeoutExpired => (None, Some "Conversion timed out")
  | RunFailed msg => (None, Some msg)
  end.

Definition convert_pptx_to_pdf (pptx_path output_dir : string)
           (run : SofficeOutcome) : option string * option string :=
  convert_docx_to_pdf pptx_path output_dir run.

(** *** [convert_docx_to_html] *)
Definition docx_css : string := "
        <style>
            body { font-family: 'Calibri', sans-serif; max-width: 800px; margin: 0 auto; padding: 20px; }
            h1 { font-size: 24pt; margin: 20px 0; }
            h2 { font-size: 18pt; margin: 16px 0; }
            h3 { font-size: 14pt; margin: 12px 0; }
            p { margin: 10px 0; line-height: 1.5; }
            .center { text-align: center; }
            .right { text-align: right; }
            .justify { text-align: justify; }
            .bold { font-weight: bold; }
            .italic { font-style: italic; }
            .underline { text-decoration: underline; }
            table { border-collapse: collapse; width: 100%; margin: 10px 0; }
            td, th { border: 1px solid #ddd; padding: 8px; }
            ul, ol { margin: 10px 0; padding-left: 30px; }
        </style>
        ".

Definition html_head (page_title css : string) : list string :=
  [ "<!DOCTYPE html>";
    "<html lang=" ++ dq ++ "en" ++ dq ++ ">";
    "<head>";
    "<meta charset=" ++ dq ++ "UTF-8" ++ dq ++ ">";
    "<meta name=" ++ dq ++ "viewport" ++ dq ++ " content=" ++ dq
      ++ "width=device-width, initial-scale=1.0" ++ dq ++ ">";
    "<title>" ++ page_title ++ "</title>";
    css;
    "</head>";
    "<body>" ].

Definition run_html (r : Run) : list string :=
  let text := run_text r in
  if negb (truthy text) then []
  else
    let text := if is_set (bold r) then "<strong>" ++ text ++ "</strong>"
                else text in
    let text := if is_set (italic r) then "<em>" ++ text ++ "</em>"
                else text in
    let text := if is_set (underline r) then "<u>" ++ text ++ "</u>"
                else text in
    [text].

Definition paragraph_html (para : Paragraph) : string :=
  if negb (truthy (strip (para_text para))) then "<p>&nbsp;</p>"
  else
    let style_name := match style_name para with
                      | Some n => lower n
                      | None => EmptyString
                      end in
    let tag := if contains "heading 1" style_name then "h1"
               else if contains "heading 2" style_name then "h2"
               else if contains "heading 3" style_name then "h3"
               else "p" in
    let classes := match alignment para with
                   | Some CENTER => ["center"]
                   | Some RIGHT => ["right"]
                   | Some JUSTIFY => ["justify"]
                   | _ => []
                   end in
    let content := flat_map run_html (runs para) in
    let class_attr := match classes with
                      | [] => EmptyString
                      | _ => " class=" ++ dq ++ join " " classes ++ dq
                      end in
    "<" ++ tag ++ class_attr ++ ">" ++ join EmptyString content
        ++ "</" ++ tag ++ ">".

Definition row_html (row : list string) : list string :=
  (["<tr>"] ++ map (fun cell => "<td>" ++ cell ++ "</td>")%string row
   ++ ["</tr>"])%list.

Definition table_html (t : Table) : list string :=
  (["<table>"] ++ flat_map row_html t ++ ["</table>"])%list.

(** [opened]: what opening and reading the document gave. *)
Definition convert_docx_to_html (opened : Outcome DocxDocument)
  : option string * option string :=
  match opened with
  | Raised msg => (None, Some msg)
  | Returned doc =>
      let html_parts :=
        (html_head "Converted Document" docx_css
         ++ map paragraph_html (paragraphs doc)
         ++ flat_map table_html (tables doc)
         ++ ["</body>"; "</html>"])%list in
      (Some (join nl html_parts), None)
  end.

(** *** [convert_pptx_to_html] *)
Definition pptx_css : string := "
        <style>
            body { font-family: 'Calibri', sans-serif; max-width: 960px; margin: 0 auto; padding: 20px; background: #f5f5f5; }
            .slide { background: white; margin: 20px 0; padding: 40px; box-shadow: 0 2px 8px rgba(0,0,0,0.1); min-height: 500px; position: relative; }
            .slide-number { position: absolute; bottom: 10px; right: 20px; color: #999; font-size: 12px; }
            .slide-title { font-size: 28pt; font-weight: bold; margin-bottom: 20px; color: #333; }
            .slide-content { font-size: 14pt; line-height: 1.6; }
            .slide-content ul { margin: 15px 0; padding-left: 30px; }
            .slide-content li { margin: 8px 0; }
            table { border-collapse: collapse; width: 100%; margin: 15px 0; }
            td, th { border: 1px solid #ddd; padding: 10px; text-align: left; }
            th { background: #f0f0f0; }
            .center { text-align: center; }
        </style>
        ".

(** The paragraphs of one text frame; [is_title] is cleared by the first
    paragraph that is not blank. *)
Fixpoint frame_html (is_title : bool) (ps : list SlideParagraph)
  : list string :=
  match ps with
  | [] => []
  | p :: r =>
      let text := strip (sp_text p) in
      if negb (truthy text) then frame_html is_title r
      else if is_title then
        ("<div class=" ++ dq ++ "slide-title" ++ dq ++ ">" ++ text ++ "</div>")
          :: frame_html false r
      else if 0 <? level p then
        ("<ul><li>" ++ text ++ "</li></ul>") :: frame_html is_title r
      else
        ("<div class=" ++ dq ++ "slide-content" ++ dq ++ ">" ++ text ++ "</div>")
          :: frame_html is_title r
  end.

Definition shape_html (title_shape : option Z) (sh : Shape) : list string :=
  match sh with
  | TextShape id frame =>
      let is_title := match title_shape with
                      | Some t => t =? id
                      | None => false
                      end in
      frame_html is_title frame
  | TableShape _ t => table_html t
  | OtherShape _ => []
  end.

Definition slide_html (slide_num : Z) (slide : Slide) : list string :=
  ([("<div class=" ++ dq ++ "slide" ++ dq ++ ">")%string;
    ("<div class=" ++ dq ++ "slide-number" ++ dq ++ ">Slide "
       ++ str_of_int slide_num ++ "</div>")%string]
   ++ flat_map (shape_html (title_shape slide)) (shapes slide)
   ++ ["</div>"])%list.

Fixpoint slides_html (slide_num : Z) (slides : list Slide) : list string :=
  match slides with
  | [] => []
  | s :: r => (slide_html slide_num s ++ slides_html (slide_num + 1) r)%list
  end.

Definition convert_pptx_to_html (opened : Outcome Presentation)
  : option string * option string :=
  match opened with
  | Raised msg => (None, Some msg)
  | Returned prs =>
      let html_parts :=
        (html_head "Converted Presentation" pptx_css
         ++ slides_html 1 prs
         ++ ["</body>"; "</html>"])%list in
      (Some (join nl html_parts), None)
  end.

(** *** [process_document]

    Everything outside the repository that one run consults. *)
Record Env := mkEnv {
  media_root : string;              (* the directory of the file storage *)
  now : datetime;                   (* [timezone.now()] *)
  temp_dir : Outcome string;        (* entering [TemporaryDirectory()] *)
  soffice : SofficeOutcome;         (* the converter process *)
  pdf_exists : bool;                (* [os.path.exists(pdf_path)] *)
  pdf_read : Outcome string;        (* [open(pdf_path, 'rb')], [f.read()] *)
  pdf_save : Outcome unit;          (* [document.pdf_file.save(...)] *)
  docx_opened : Outcome DocxDocument;
  pptx_opened : Outcome Presentation;
  html_save : Outcome unit;         (* [document.html_file.save(...)] *)
  temp_cleanup : Outcome unit       (* leaving the [with] block *)
}.

(** The document being processed and its log rows. *)
Definition St := (PDFDocument * list ConversionLog)%type.

(** Statements that may raise and that update the document and its log;
    what was written before an exception stays written. *)
Definition M (A : Type) := St -> Outcome A * St.

Definition ret {A} (a : A) : M A := fun st => (Returned a, st).

Definition bind {A B} (m : M A) (k : A -> M B) : M B :=
  fun st => match m st with
            | (Returned a, st') => k a st'
            | (Raised msg, st') => (Raised msg, st')
            end.

Notation "x <- m ;; k" := (bind m (fun x => k))
  (at level 61, m at next level, right associativity).
Notation "m ;; k" := (bind m (fun _ => k))
  (at level 61, right associativity).

Definition call {A} (o : Outcome A) : M A := fun st => (o, st).

Definition get_document : M PDFDocument := fun st => (Returned (fst st), st).

Definition update (f : PDFDocument -> PDFDocument) : M unit :=
  fun st => (Returned tt, (f (fst st), snd st)).

(** [ConversionLog.objects.create(document=document, action=..., message=...)] *)
Definition log_create (action message : string) : M unit :=
  fun st => (Returned tt, (fst st, (snd st ++ [mkLog action message])%list)).

(** Leaving a [with] block runs the clean-up whether the block raised or
    not; an exception of the clean-up takes over. *)
Definition with_cleanup {A} (cleanup : Outcome unit) (block : M A) : M A :=
  fun st => match cleanup with
            | Returned _ => block st
            | Raised msg => (Raised msg, snd (block st))
            end.

Definition set_status (v : string) (d : PDFDocument) : PDFDocument :=
  mkDoc (title d) (source_file d) (pdf_file d) (html_file d) (html_content d)
        v (error_message d) (view_count d) (processed_at d).

Definition set_error_message (v : string) (d : PDFDocument) : PDFDocument :=
  mkDoc (title d) (source_file d) (pdf_file d) (html_file d) (html_content d)
        (status d) v (view_count d) (processed_at d).

Definition set_processed_at (v : datetime) (d : PDFDocument) : PDFDocument :=
  mkDoc (title d) (source_file d) (pdf_file d) (html_file d) (html_content d)
        (status d) (error_message d) (view_count d) (Some v).

Definition set_pdf_file (f : StoredFile) (d : PDFDocument) : PDFDocument :=
  mkDoc (title d) (source_file d) (Some f) (html_file d) (html_content d)
        (status d) (error_message d) (view_count d) (processed_at d).

Definition set_html_file (f : StoredFile) (d : PDFDocument) : PDFDocument :=
  mkDoc (title d) (source_file d) (pdf_file d) (Some f) (html_content d)
        (status d) (error_message d) (view_count d) (processed_at d).

Definition set_html_content (v : string) (d : PDFDocument) : PDFDocument :=
  mkDoc (title d) (source_file d) (pdf_file d) (html_file d) v
        (status d) (error_message d) (view_count d) (processed_at d).

(** [document.source_file.path]: raises when no file is attached. *)
Definition source_file_path (env : Env) (d : PDFDocument) : Outcome string :=
  if truthy (source_file d)
  then Returned (path_join (media_root env) (source_file d))
  else Raised "The 'source_file' attribute has no file associated with it.".

Definition is_some_truthy (o : option string) : bool :=
  match o with Some v => truthy v | None => false end.

(** The PDF half of the [with] block. *)
Definition pdf_step (env : Env) (source_path temp_dir : string) : M unit :=
  document <- get_document ;;
  let '(pdf_path, error) :=
    if is_docx document
    then convert_docx_to_pdf source_path temp_dir (soffice env)
    else convert_pptx_to_pdf source_path temp_dir (soffice env) in
  if is_some_truthy pdf_path && pdf_exists env then
    content <- call (pdf_read env) ;;
    let pdf_name := fst (splitext (basename source_path)) ++ ".pdf" in
    call (pdf_save env) ;;
    update (set_pdf_file (mkFile (upload_to_pdf_output pdf_name) content)) ;;
    log_create "pdf_success" "PDF conversion successful"
  else if is_some_truthy error then
    log_create "pdf_error"
      ("PDF conversion failed: "
         ++ match error with Some e => e | None => EmptyString end)
  else ret tt.

(** The HTML half of the [with] block. *)
Definition html_step (env : Env) (source_path : string) : M unit :=
  document <- get_document ;;
  let '(html, error) :=
    if is_docx document
    then convert_docx_to_html (docx_opened env)
    else convert_pptx_to_html (pptx_opened env) in
  if is_some_truthy html then
    let content := match html with Some h => h | None => EmptyString end in
    update (set_html_content content) ;;
    let html_name := fst (splitext (basename source_path)) ++ ".html" in
    call (html_save env) ;;
    update (set_html_file (mkFile (upload_to_pdf_output html_name) content)) ;;
    log_create "html_success" "HTML conversion successful"
  else if is_some_truthy error then
    log_create "html_error"
      ("HTML conversion failed: "
         ++ match error with Some e => e | None => EmptyString end)
  else ret tt.

(** The body of the [try] statement. *)
Definition process_body (env : Env) : M bool :=
  document <- get_document ;;
  source_path <- call (source_file_path env document) ;;
  temp_dir <- call (temp_dir env) ;;
  with_cleanup (temp_cleanup env)
    (pdf_step env source_path temp_dir ;;
     html_step env source_path) ;;
  update (set_status "completed") ;;
  update (set_processed_at (now env)) ;;
  log_create "complete" "Document processing completed" ;;
  ret true.

(** The two statements before the [try]: the status becomes
    'processing' and the 'start' row is written. *)
Definition started (st : St) : St :=
  (set_status "processing" (fst st),
   (snd st ++ [mkLog "start" "Starting document conversion"])%list).

(** [process_document(document)]: the returned flag, the document and
    its log rows afterwards. *)
Definition process_document (env : Env) (st : St) : bool * St :=
  match process_body env (started st) with
  | (Returned b, st2) => (b, st2)
  | (Raised e, st2) =>
      (false,
       (set_error_message e (set_status "failed" (fst st2)),
        (snd st2 ++ [mkLog "error" ("Processing failed: " ++ e)])%list))
  end.

(** [reprocess_document]: the pipeline is run again on the stored
    document; the view then reports by the status. *)
Definition reprocess_document (env : Env) (st : St)
  : AccountsViews.Message * St :=
  let '(_, st') := process_document env st in
  if String.eqb (status (fst st')) "completed"
  then ((AccountsViews.Success, "Document reprocessed successfully!"), st')
  else ((AccountsViews.Error,
         "Reprocessing failed: " ++ error_message (fst st')), st').

(** The log rows a run appended. *)
Definition new_logs (before after : St) : list ConversionLog :=
  skipn (List.length (snd before)) (snd after).

Definition actions (logs : list ConversionLog) : list string :=
  map action logs.

(** The calls of the orchestration itself (not of the two converters)
    that a run may make all return: a source file is attached, and the
    temporary directory, the read of the produced PDF and the two
    storage writes do not raise. *)
Definition returns {A} (o : Outcome A) : bool :=
  match o with Returned _ => true | Raised _ => false end.

Definition orchestration_calls_return (env : Env) (d : PDFDocument) : bool :=
  truthy (source_file d) && returns (temp_dir env) && returns (pdf_read env)
  && returns (pdf_save env) && returns (html_save env)
  && returns (temp_cleanup env).

(** What the converter chosen by the source extension returned. *)
Definition pdf_result (env : Env) (sp td : string) (d : PDFDocument)
  : option string * option string :=
  if is_docx d then convert_docx_to_pdf sp td (soffice env)
  else convert_pptx_to_pdf sp td (soffice env).

Definition html_result (env : Env) (d : PDFDocument)
  : option string * option string :=
  if is_docx d then convert_docx_to_html (docx_opened env)
  else convert_pptx_to_html (pptx_opened env).

Definition text_of (o : option string) : string :=
  match o with Some e => e | None => EmptyString end.

(** Whether each half of the pipeline has something to store. *)
Definition pdf_converted (env : Env) (d : PDFDocument) : bool :=
  match source_file_path env d, temp_dir env with
  | Returned source_path, Returned dir =>
      is_some_truthy (fst (pdf_result env source_path dir d))
      && pdf_exists env
  | _, _ => false
  end.

Definition html_converted (env : Env) (d : PDFDocument) : bool :=
  is_some_truthy (fst (html_result env d)).

(** *** Sample documents and environments for the examples *)

(** One paragraph styled "Heading 1" holding one bold run "Title". *)
Definition heading_docx (al : option Alignment) (i u : option bool)
  : DocxDocument :=
  mkDocx [mkParagraph (Some "Heading 1") al [mkRun "Title" (Some true) i u]] [].

Definition uploaded : PDFDocument :=
  mkDoc "Report" "pdf/source/report.docx" None None EmptyString "pending"
        EmptyString 0 None.

(** Both conversions work. *)
Definition env_ok : Env :=
  mkEnv "/srv/media" (seconds 1793842590) (Returned "/tmp/tmpk3x") 
        (Exited 0 EmptyString true) true (Returned "%PDF-1.7") (Returned tt)
        (Returned (heading_docx None None None)) (Raised "not a presentation")
        (Returned tt) (Returned tt).

Definition with_soffice (env : Env) (run : SofficeOutcome) : Env :=
  mkEnv (media_root env) (now env) (temp_dir env) run (pdf_exists env)
        (pdf_read env) (pdf_save env) (docx_opened env) (pptx_opened env)
        (html_save env) (temp_cleanup env).

Definition with_docx (env : Env) (o : Outcome DocxDocument) : Env :=
  mkEnv (media_root env) (now env) (temp_dir env) (soffice env)
        (pdf_exists env) (pdf_read env) (pdf_save env) o (pptx_opened env)
        (html_save env) (temp_cleanup env).

Definition with_temp_dir (env : Env) (o : Outcome string) : Env :=
  mkEnv (media_root env) (now env) o (soffice env)
        (pdf_exists env) (pdf_read env) (pdf_save env) (docx_opened env)
        (pptx_opened env) (html_save env) (temp_cleanup env).

(** The converter exits with status 1 and writes nothing to its error
    stream. *)
Definition env_silent_pdf_failure : Env :=
  with_soffice env_ok (Exited 1 EmptyString false).

(** The converter runs into the time limit. *)
Definition env_pdf_timeout : Env := with_soffice env_ok TimeoutExpired.

Definition env_both_fail : Env :=
  with_docx env_pdf_timeout (Raised "File is not a zip file").

(** The names of the log rows of the two conversion steps. *)
Definition step_actions : list string :=
  ["pdf_success"; "pdf_error"; "html_success"; "html_error"].

(** The parser rejects the file. *)
Definition env_html_failure : Env :=
  with_docx env_ok (Raised "File is not a zip file").

(** The temporary directory cannot be created. *)
Definition env_no_temp_dir : Env :=
  with_temp_dir env_ok (Raised "[Errno 28] No space left on device").

End Pdfapp.

(** ** accounts/views.py: MFA setup and removal, password reset *)
Module AccountsMore.
Import PyStr Accounts AccountsViews.

Definition set_mfa_enabled (u : CustomUser) (v : bool) : CustomUser :=
  mkUser (user_id u) (email u) (first_name u) (is_active u) v
         (mfa_secret u) (mfa_backup_codes u) (failed_login_attempts u).

Definition set_mfa_secret (u : CustomUser) (v : string) : CustomUser :=
  mkUser (user_id u) (email u) (first_name u) (is_active u) (mfa_enabled u)
         v (mfa_backup_codes u) (failed_login_attempts u).

(** [request.user] as [LoginRequiredMixin] sees it: the active account the
    session is signed in as, if any. *)
Definition request_user (s : Session) (w : World) : option CustomUser :=
  match auth_user_id s with
  | Some uid =>
      match get_user w uid with
      | Some u => if is_active u then Some u else None
      | None => None
      end
  | None => None
  end.

(** [MFASetupForm]: a required token of exactly six characters. *)
Definition MFASetupForm (request : Request) : option string :=
  let token := strip (get_default (post_token request) EmptyString) in
  if (len token =? 6) && negb (has_char (chr 0) token)
  then Some token else None.

(** [MFASetupView.get]: a secret is generated and saved only when the
    account has none.  [fresh_secret] is what [pyotp.random_base32()]
    returns; the secret shown on the page is returned as well. *)
Definition MFASetupView_get (fresh_secret : string) (s : Session) (w : World)
  : Response * string * World :=
  match request_user s w with
  | None => (Redirect "accounts:login", EmptyString, w)
  | Some user =>
      if negb (truthy (mfa_secret user)) then
        let user' := set_mfa_secret user fresh_secret in
        (Render "accounts/mfa_setup.html", mfa_secret user', save_user w user')
      else (Render "accounts/mfa_setup.html", mfa_secret user, w)
  end.

(** The ten draws of [secrets.token_hex(4)] of one call of
    [generate_backup_codes()]; [rng i] is what the i-th draw returns. *)
Definition ten_draws (rng : nat -> list Z) : list (list Z) :=
  map rng (seq 0 10).

(** [MFASetupView.post].  Returns the response, the backup codes put on
    the page, and the world. *)
Definition MFASetupView_post (rng : nat -> list Z) (request : Request)
           (now : datetime) (s : Session) (w : World)
  : Response * list string * World :=
  match request_user s w with
  | None => (Redirect "accounts:login", [], w)
  | Some user =>
      match MFASetupForm request with
      | None => (Render "accounts/mfa_setup.html", [], w)
      | Some token =>
          match verify_mfa_token user token now with
          | None => (ServerError, [], w)
          | Some true =>
              let '(backup_codes, user') :=
                generate_backup_codes (set_mfa_enabled user true)
                                      (ten_draws rng) in
              (Render "accounts/mfa_backup_codes.html", backup_codes,
               add_message (save_user w user')
                 (Success, "MFA has been enabled successfully!"))
          | Some false =>
              (Render "accounts/mfa_setup.html", [],
               add_message w
                 (Error, "Invalid verification code. Please try again."))
          end
      end
  end.

(** [MFADisableView.post] *)
Definition MFADisableView_post (s : Session) (w : World) : Response * World :=
  match request_user s w with
  | None => (Redirect "accounts:login", w)
  | Some user =>
      let user' :=
        set_mfa_backup_codes
          (set_mfa_secret (set_mfa_enabled user false) EmptyString)
          EmptyString in
      (Redirect "accounts:profile",
       add_message (save_user w user') (Success, "MFA has been disabled."))
  end.

(** One submission to the login or to the MFA verification view. *)
Inductive AuthStep :=
| LoginStep (form : LoginFormOutcome) (request : Request)
| MfaStep (request : Request) (now : datetime).

Definition auth_step (st : AuthStep) (s : Session) (w : World)
  : Session * World :=
  match st with
  | LoginStep form request =>
      let r := LoginView_post form request s w in (session_of r, world_of r)
  | MfaStep request now =>
      let r := MFAVerifyView_post request now s w in (session_of r, world_of r)
  end.

Fixpoint auth_steps (sts : list AuthStep) (s : Session) (w : World)
  : Session * World :=
  match sts with
  | [] => (s, w)
  | st :: r => let '(s', w') := auth_step st s w in auth_steps r s' w'
  end.


(** *** Password reset *)

Record Mail := mkMail {
  mail_subject : string;
  mail_body : string;
  mail_from : string;
  mail_to : list string
}.

(** The tables of the reset flow.  [rw_passwords] holds, per account id,
    the password last given to [set_password] and [password_changed_at]. *)
Record ResetWorld := mkResetWorld {
  rw_users : list CustomUser;
  rw_passwords : list (Z * (string * datetime));
  rw_tokens : list PasswordResetToken;
  rw_outbox : list Mail;
  rw_messages : list Message
}.

Definition rw_add_message (w : ResetWorld) (m : Message) : ResetWorld :=
  mkResetWorld (rw_users w) (rw_passwords w) (rw_tokens w) (rw_outbox w)
               (rw_messages w ++ [m]).

Definition rw_add_token (w : ResetWorld) (t : PasswordResetToken) : ResetWorld :=
  mkResetWorld (rw_users w) (rw_passwords w) (rw_tokens w ++ [t]) (rw_outbox w)
               (rw_messages w).

Definition rw_add_mail (w : ResetWorld) (m : Mail) : ResetWorld :=
  mkResetWorld (rw_users w) (rw_passwords w) (rw_tokens w) (rw_outbox w ++ [m])
               (rw_messages w).

(** [reset_token.save()]: the row with this (unique) token is replaced. *)
Definition rw_save_token (w : ResetWorld) (t : PasswordResetToken) : ResetWorld :=
  mkResetWorld (rw_users w) (rw_passwords w)
    (map (fun x => if String.eqb (prt_token x) (prt_token t) then t else x)
         (rw_tokens w))
    (rw_outbox w) (rw_messages w).

Definition rw_set_password (w : ResetWorld) (uid : Z) (password : string)
           (now : datetime) : ResetWorld :=
  mkResetWorld (rw_users w)
    ((uid, (password, now))
       :: filter (fun p => negb (fst p =? uid)) (rw_passwords w))
    (rw_tokens w) (rw_outbox w) (rw_messages w).

Definition password_of (w : ResetWorld) (uid : Z) : option (string * datetime) :=
  match find (fun p => fst p =? uid) (rw_passwords w) with
  | Some p => Some (snd p)
  | None => None
  end.

Definition get_token (w : ResetWorld) (token : string)
  : option PasswordResetToken :=
  find (fun t => String.eqb (prt_token t) token) (rw_tokens w).

Definition reset_sent_message : Message :=
  (Success,
   "If an account exists with that email, you will receive a password reset link.").

(** The body of the mail, as the f-string builds it. *)
Definition reset_mail_body (first_name reset_url : string) : string :=
  nl ++ "Hello " ++ first_name ++ "," ++ nl ++ nl
  ++ "You have requested to reset your password. Click the link below to reset:"
  ++ nl ++ nl ++ reset_url ++ nl ++ nl
  ++ "This link will expire in 24 hours." ++ nl ++ nl
  ++ "If you did not request this reset, please ignore this email."
  ++ nl ++ nl ++ "Best regards," ++ nl ++ "SaiReeCMPO Team" ++ nl
  ++ "                ".

(** What one reset request reads besides the tables: the submitted
    address, the origin [build_absolute_uri] prepends, the token
    [generate_token()] returns, and whether the mail went out
    ([fail_silently=True] hides a failure). *)
Record ResetRequest := mkResetRequest {
  rr_email : option string;
  rr_origin : string;
  rr_fresh_token : string;
  rr_delivered : bool
}.

(** [PasswordResetRequestView.post].  The form's [EmailField] strips the
    value and applies the address validator, which is passed in.  A
    token that already exists violates the unique constraint: the
    [IntegrityError] is not caught. *)
Definition PasswordResetRequestView_post (email_validator : string -> bool)
           (request : ResetRequest) (now : datetime) (w : ResetWorld)
  : Response * ResetWorld :=
  let email := strip (get_default (rr_email request) EmptyString) in
  if negb (truthy email) || negb (email_validator email) then
    (Render "accounts/password_reset.html", w)
  else
    match find (fun u => String.eqb (Accounts.email u) email) (rw_users w) with
    | Some user =>
        let token := rr_fresh_token request in
        match get_token w token with
        | Some _ => (ServerError, w)
        | None =>
            let w1 := rw_add_token w (create_token (user_id user) token now) in
            let reset_url :=
              rr_origin request ++ "/accounts/password/reset/" ++ token ++ "/" in
            let w2 :=
              if rr_delivered request then
                rw_add_mail w1
                  (mkMail "Password Reset Request"
                          (reset_mail_body (first_name user) reset_url)
                          "webmaster@localhost" [email])
              else w1 in
            (Render "accounts/password_reset.html",
             rw_add_message w2 reset_sent_message)
        end
    | None =>
        (Render "accounts/password_reset.html",
         rw_add_message w reset_sent_message)
    end.

(** [PasswordResetConfirmView.dispatch]: the token row, or the redirect
    that ends the request. *)
Definition reset_dispatch (token : string) (now : datetime) (w : ResetWorld)
  : PasswordResetToken + Response * ResetWorld :=
  match get_token w token with
  | Some t =>
      if is_valid t now then inl t
      else inr (Redirect "accounts:password_reset",
                rw_add_message w
                  (Error, "This password reset link has expired or been used."))
  | None =>
      inr (Redirect "accounts:password_reset",
           rw_add_message w (Error, "Invalid password reset link."))
  end.

Definition PasswordResetConfirmView_get (token : string) (now : datetime)
           (w : ResetWorld) : Response * ResetWorld :=
  match reset_dispatch token now w with
  | inl _ => (Render "accounts/password_reset_confirm.html", w)
  | inr r => r
  end.

(** [CustomPasswordResetForm] is Django's [SetPasswordForm]: both fields
    are required, they must be equal, and the configured password
    validators (passed in) must accept the password for the account. *)
Definition CustomPasswordResetForm
           (password_validators : CustomUser -> string -> bool)
           (user : CustomUser) (new_password1 new_password2 : option string)
  : option string :=
  match new_password1, new_password2 with
  | Some p1, Some p2 =>
      if truthy p1 && truthy p2 && String.eqb p1 p2
         && password_validators user p2
      then Some p1 else None
  | _, _ => None
  end.

(** [PasswordResetConfirmView.post] *)
Definition PasswordResetConfirmView_post
           (password_validators : CustomUser -> string -> bool)
           (token : string) (new_password1 new_password2 : option string)
           (now : datetime) (w : ResetWorld) : Response * ResetWorld :=
  match reset_dispatch token now w with
  | inr r => r
  | inl reset_token =>
      match find (fun u => user_id u =? prt_user reset_token) (rw_users w) with
      | None => (ServerError, w)
      | Some user =>
          match CustomPasswordResetForm password_validators user
                  new_password1 new_password2 with
          | None => (Render "accounts/password_reset_confirm.html", w)
          | Some password =>
              let w1 := rw_set_password w (user_id user) password now in
              let w2 := rw_save_token w1 (mark_used reset_token) in
              (Redirect "accounts:login",
               rw_add_message w2
                 (Success,
                  "Your password has been reset successfully. You can now login."))
          end
      end
  end.

(** Sample data for the examples. *)
Definition sample_rng (i : nat) : list Z :=
  [Z.of_nat i; 18; 205; 52].

Definition signed_in_alice : Session :=
  mkSession (Some 1) None None None.

Definition sample_reset_world : ResetWorld :=
  mkResetWorld [blank_user; user_no_secret] [(1, ("old password", 0))] [] [] [].

Definition sample_reset_request : ResetRequest :=
  mkResetRequest (Some "alice@example.org") "https://office.example"
                 "q3VnR0xw" true.

Definition sample_password_validators (u : CustomUser) (p : string) : bool :=
  8 <=? len p.

Definition sample_mfa_world : World := mkWorld [user_two_codes; user_no_secret] [] [].



Definition forwarded_request : Request :=
  mkRequest None None false None false None
            (Some "198.51.100.4, 10.0.0.1") "10.0.0.9" None.


(** A request carrying the code of step 59794753 for the sample secret. *)
Definition setup_request : Request :=
  mkRequest None None false (Some "111659") false None None "203.0.113.7" None.

Definition unknown_reset_request : ResetRequest :=
  mkResetRequest (Some "nobody@example.org") "https://office.example"
                 "p9QmT1zs" true.

(** The sample world after Alice asked for a reset link at time 0. *)
Definition world_with_link : ResetWorld :=
  snd (PasswordResetRequestView_post sample_email_validator
         sample_reset_request 0 sample_reset_world).

Definition second_reset_request : ResetRequest :=
  mkResetRequest (Some "alice@example.org") "https://office.example"
                 "p9QmT1zs" true.

End AccountsMore.

(** ** pdfapp/views.py: the views around the pipeline *)
Module PdfappViews.
Import PyStr Accounts Pdfapp.

(** A [PDFDocument] row with its key, its owner and its log rows. *)
Record Row := mkRow {
  pk : Z;
  owner : Z;
  document : PDFDocument;
  logs : list ConversionLog
}.

(** [get_object_or_404(PDFDocument, pk=pk, user=request.user)] and the
    owner-filtered querysets of the class-based views. *)
Definition get_object_or_404 (rows : list Row) (k user : Z) : option Row :=
  find (fun r => (pk r =? k) && (owner r =? user)) rows.

(** [document.save()]: the row with this key is replaced. *)
Definition save_row (rows : list Row) (r : Row) : list Row :=
  map (fun x => if pk x =? pk r then r else x) rows.

(** What a view answers. *)
Inductive HttpResult :=
| Ok200 (content_type : string) (disposition : option string) (body : string)
| NotFound (reason : string)
| RedirectTo (url : string).

Definition quoted (s : string) : string := dq ++ s ++ dq.

(** [view_pdf].  [user] is the signed-in account, [None] when the visitor
    is anonymous ([login_required] then redirects); [readable] tells
    whether the storage can open the file. *)
Definition view_pdf (user : option Z) (k : Z) (rows : list Row)
           (readable : bool) : HttpResult :=
  match user with
  | None => RedirectTo "accounts:login"
  | Some u =>
      match get_object_or_404 rows k u with
      | None => NotFound EmptyString
      | Some r =>
          match pdf_file (document r) with
          | None => NotFound "PDF not available"
          | Some f =>
              if readable then
                Ok200 "application/pdf"
                      (Some ("inline; filename=" ++ quoted (basename (file_name f))))
                      (file_content f)
              else NotFound "File not found"
          end
      end
  end.

(** [view_html] *)
Definition view_html (user : option Z) (k : Z) (rows : list Row)
           (readable : bool) : HttpResult :=
  match user with
  | None => RedirectTo "accounts:login"
  | Some u =>
      match get_object_or_404 rows k u with
      | None => NotFound EmptyString
      | Some r =>
          if truthy (html_content (document r)) then
            Ok200 "text/html" None (html_content (document r))
          else
            match html_file (document r) with
            | Some f =>
                if readable then Ok200 "text/html" None (file_content f)
                else NotFound "HTML not available"
            | None => NotFound "HTML not available"
            end
      end
  end.

(** [export_html] *)
Definition export_html (user : option Z) (k : Z) (rows : list Row)
           (readable : bool) : HttpResult :=
  match user with
  | None => RedirectTo "accounts:login"
  | Some u =>
      match get_object_or_404 rows k u with
      | None => NotFound EmptyString
      | Some r =>
          if truthy (html_content (document r)) then
            let filename :=
              fst (splitext (basename (source_file (document r)))) ++ ".html" in
            Ok200 "text/html"
                  (Some ("attachment; filename=" ++ quoted filename))
                  (html_content (document r))
          else
            match html_file (document r) with
            | Some f =>
                if readable then
                  Ok200 "text/html"
                        (Some ("attachment; filename="
                                 ++ quoted (basename (file_name f))))
                        (file_content f)
                else NotFound "HTML not available"
            | None => NotFound "HTML not available"
            end
      end
  end.

(** The view [reprocess_document]: the answer, the message queued, and
    the table afterwards. *)
Definition reprocess_view (env : Env) (user : option Z) (k : Z)
           (rows : list Row)
  : HttpResult * option AccountsViews.Message * list Row :=
  match user with
  | None => (RedirectTo "accounts:login", None, rows)
  | Some u =>
      match get_object_or_404 rows k u with
      | None => (NotFound EmptyString, None, rows)
      | Some r =>
          let '(msg, (d', logs')) :=
            reprocess_document env (document r, logs r) in
          (RedirectTo "pdfapp:detail", Some msg,
           save_row rows (mkRow (pk r) (owner r) d' logs'))
      end
  end.

Definition set_view_count (v : Z) (d : PDFDocument) : PDFDocument :=
  mkDoc (title d) (source_file d) (pdf_file d) (html_file d) (html_content d)
        (status d) (error_message d) v (processed_at d).

(** [PDFDocumentDetailView.get_object]: the row is looked up among the
    visitor's own documents and its view counter is raised and saved. *)
Definition detail_get_object (user : option Z) (k : Z) (rows : list Row)
  : option Row * list Row :=
  match user with
  | None => (None, rows)
  | Some u =>
      match get_object_or_404 rows k u with
      | None => (None, rows)
      | Some r =>
          let r' := mkRow (pk r) (owner r)
                      (set_view_count (view_count (document r) + 1) (document r))
                      (logs r) in
          (Some r', save_row rows r')
      end
  end.


(** The part of [PDFDocumentCreateView.form_valid] after the row is
    saved: the pipeline runs and the notice is chosen by the status.
    The notice is its level and its text. *)
Definition form_valid_notice (env : Env) (st : St) : (string * string) * St :=
  let '(_, st') := process_document env st in
  if String.eqb (status (fst st')) "completed"
  then (("success", "Document converted successfully!"), st')
  else (("warning",
         "Conversion completed with issues: " ++ error_message (fst st')), st').

(** Sample rows. *)
Definition sample_rows : list Row :=
  [mkRow 7 1 uploaded []; mkRow 8 2 uploaded []].

(** Whether the PDF step could report an error text. *)
Definition pdf_error_text (env : Env) (d : PDFDocument) : bool :=
  match source_file_path env d, temp_dir env with
  | Returned source_path, Returned dir =>
      is_some_truthy (snd (pdf_result env source_path dir d))
  | _, _ => false
  end.

Definition html_error_text (env : Env) (d : PDFDocument) : bool :=
  is_some_truthy (snd (html_result env d)).

(** [x] occurs in [s] as a piece of text. *)
Definition occurs (x s : string) : Prop :=
  exists before after, s = before ++ x ++ after.

Definition two_slides : Presentation :=
  [mkSlide [TextShape 1 [mkSlideParagraph "Plan" 0]] (Some 1);
   mkSlide [TextShape 2 [mkSlideParagraph "<b>Costs</b>" 1]] None].

Definition docx_with_markup : DocxDocument :=
  mkDocx [mkParagraph None None
            [mkRun "<script>alert(1)</script>" None None None]]
         [[["<img src=x>"]]].

End PdfappViews.

(* ================================================================== *)
(** * Part II: theorems                                                 *)
(* ================================================================== *)

(** ** Facts about the string operations *)
Module PyStrFacts.
Import PyStr.

Example split_example :
  split "," "AB12CD34,00FF00FF" = ["AB12CD34"; "00FF00FF"].
Proof. reflexivity. Qed.

Example strip_example : strip "  a b  " = "a b".
Proof. reflexivity. Qed.

Example str_of_int_example : str_of_int 120 = "120" /\ str_of_int 0 = "0" /\ str_of_int 7 = "7".
Proof. repeat split; reflexivity. Qed.

Lemma split_not_nil (sep : ascii) (s : string) : split sep s <> [].
Proof.
  destruct s as [|c r]; simpl; [discriminate|].
  destruct (Ascii.eqb c sep); [discriminate|].
  destruct (split sep r); discriminate.
Qed.

(** Joining what [split] produced gives the string back. *)
Lemma join_split (sep : ascii) (s : string) :
  join (String sep EmptyString) (split sep s) = s.
Proof.
  induction s as [|c r IH]; [reflexivity|].
  simpl. destruct (Ascii.eqb_spec c sep) as [->|Hne].
  - pose proof (split_not_nil sep r) as Hnn.
    destruct (split sep r) as [|h t]; [congruence|].
    change (join (String sep EmptyString) (EmptyString :: h :: t))
      with (String sep (join (String sep EmptyString) (h :: t))).
    now rewrite IH.
  - pose proof (split_not_nil sep r) as Hnn.
    destruct (split sep r) as [|h t]; [congruence|].
    destruct t as [|h' t'].
    + simpl in *. now rewrite IH.
    + change (join (String sep EmptyString) (String c h :: h' :: t'))
        with (String c (join (String sep EmptyString) (h :: h' :: t'))).
      now rewrite IH.
Qed.

(** The entries [split] returns do not contain the separator. *)
Lemma split_sep_free (sep : ascii) (s : string) :
  Forall (fun x => has_char sep x = false) (split sep s).
Proof.
  induction s as [|c r IH]; simpl.
  - constructor; [reflexivity | constructor].
  - destruct (Ascii.eqb_spec c sep) as [->|Hne].
    + constructor; [reflexivity | exact IH].
    + destruct (split sep r) as [|h t]; simpl.
      * constructor; [|constructor]. simpl.
        destruct (Ascii.eqb_spec c sep); [contradiction | reflexivity].
      * inversion IH; subst. constructor; [|assumption]. simpl.
        destruct (Ascii.eqb_spec c sep); [contradiction | assumption].
Qed.

Lemma split_sep_free_one (sep : ascii) (x : string) :
  has_char sep x = false -> split sep x = [x].
Proof.
  induction x as [|c r IH]; simpl; [reflexivity|].
  intros H. apply orb_false_iff in H as [Hc Hr].
  rewrite Hc, (IH Hr). reflexivity.
Qed.

Lemma split_app_sep (sep : ascii) (x rest : string) :
  has_char sep x = false ->
  split sep (x ++ String sep rest) = x :: split sep rest.
Proof.
  induction x as [|c r IH]; simpl.
  - intros _. now rewrite Ascii.eqb_refl.
  - intros H. apply orb_false_iff in H as [Hc Hr].
    rewrite Hc, (IH Hr). reflexivity.
Qed.

(** Splitting a joined list of separator-free entries gives the list
    back, provided the list is not empty. *)
Lemma split_join (sep : ascii) (l : list string) :
  l <> [] ->
  Forall (fun x => has_char sep x = false) l ->
  split sep (join (String sep EmptyString) l) = l.
Proof.
  induction l as [|x r IH]; [congruence|].
  intros _ Hall. inversion Hall as [|? ? Hx Hr]; subst.
  destruct r as [|y r'].
  - simpl. now apply split_sep_free_one.
  - change (join (String sep EmptyString) (x :: y :: r'))
      with (x ++ String sep (join (String sep EmptyString) (y :: r'))).
    rewrite split_app_sep by assumption.
    rewrite IH; [reflexivity | discriminate | assumption].
Qed.

Lemma truthy_false (s : string) : truthy s = false <-> s = EmptyString.
Proof. destruct s; simpl; split; congruence. Qed.

Lemma truthy_app (a b : string) : truthy a = true -> truthy (a ++ b) = true.
Proof. destruct a; simpl; congruence. Qed.

(** A joined list of non-empty entries is empty only for the empty list. *)
Lemma truthy_join (sep : string) (l : list string) :
  Forall (fun x => x <> EmptyString) l ->
  truthy (join sep l) = negb (match l with [] => true | _ => false end).
Proof.
  intros Hall. destruct l as [|x r]; [reflexivity|].
  inversion Hall as [|? ? Hx _]; subst.
  assert (truthy x = true) by (destruct x; [congruence | reflexivity]).
  destruct r; simpl; [assumption | now apply truthy_app].
Qed.

Lemma mem_In (x : string) (l : list string) : mem x l = true <-> In x l.
Proof.
  unfold mem. rewrite existsb_exists. split.
  - intros [y [Hy He]]. apply String.eqb_eq in He. now subst.
  - intros H. exists x. split; [assumption | apply String.eqb_refl].
Qed.

Lemma remove_In_subset (x y : string) (l : list string) :
  In y (remove x l) -> In y l.
Proof.
  induction l as [|z r IH]; simpl; [tauto|].
  destruct (String.eqb x z); simpl; tauto.
Qed.

Lemma remove_Forall (P : string -> Prop) (x : string) (l : list string) :
  Forall P l -> Forall P (remove x l).
Proof.
  intros H. apply Forall_forall. intros y Hy.
  eapply Forall_forall in H; [exact H|]. eapply remove_In_subset; eauto.
Qed.

(** [remove] drops exactly one occurrence of a present entry. *)
Lemma remove_count_occ (x : string) (l : list string) :
  In x l ->
  forall y,
    count_occ string_dec l y =
    (count_occ string_dec (remove x l) y + (if string_dec x y then 1 else 0))%nat.
Proof.
  induction l as [|z r IH]; simpl; [tauto|].
  intros Hin y. destruct (String.eqb_spec x z) as [->|Hne].
  - destruct (string_dec z y); lia.
  - destruct Hin as [Hz|Hin]; [congruence|].
    simpl. rewrite (IH Hin y).
    destruct (string_dec z y); destruct (string_dec x y); try lia; congruence.
Qed.

Lemma remove_length (x : string) (l : list string) :
  In x l -> List.length l = S (List.length (remove x l)).
Proof.
  induction l as [|z r IH]; simpl; [tauto|].
  intros Hin. destruct (String.eqb_spec x z) as [->|Hne]; [reflexivity|].
  destruct Hin as [Hz|Hin]; [congruence|]. simpl. now rewrite <- IH.
Qed.

Lemma remove_absent (x : string) (l : list string) :
  ~ In x l -> remove x l = l.
Proof.
  induction l as [|z r IH]; simpl; [reflexivity|].
  intros H. destruct (String.eqb_spec x z) as [->|Hne]; [tauto|].
  rewrite IH; tauto.
Qed.

Lemma upper_char_idem (c : ascii) : upper_char (upper_char c) = upper_char c.
Proof.
  destruct c as [[] [] [] [] [] [] [] []]; reflexivity.
Qed.

Lemma upper_idem (s : string) : upper (upper s) = upper s.
Proof.
  induction s as [|c r IH]; simpl; [reflexivity|].
  unfold upper in *. simpl. now rewrite upper_char_idem, IH.
Qed.

End PyStrFacts.

(** ** The one-time-password library *)
Module PyOTPFacts.
Import PyStr PyOTP.

(** FIPS 180 test vectors. *)
Example sha1_abc :
  hex_of (sha1 (bytes_of_string "abc"))
  = "a9993e364706816aba3e25717850c26c9cd0d89d".
Proof. vm_compute. reflexivity. Qed.

Example sha1_two_blocks :
  hex_of (sha1 (bytes_of_string
    "abcdbcdecdefdefgefghfghighijhijkijkljklmklmnlmnomnopnopq"))
  = "84983e441c3bd26ebaae4aa1f95129e5e54670f1".
Proof. vm_compute. reflexivity. Qed.

(** RFC 4226, appendix D: the codes of counters 0 to 9. *)
Example hotp_rfc4226 :
  map (hotp (bytes_of_string "12345678901234567890"))
      [0; 1; 2; 3; 4; 5; 6; 7; 8; 9]
  = ["755224"; "287082"; "359152"; "969429"; "338314";
     "254676"; "287922"; "162583"; "399871"; "520489"].
Proof. vm_compute. reflexivity. Qed.

(** RFC 6238, appendix B (SHA-1 rows, last six digits). *)
Example totp_rfc6238 :
  generate_otp "GEZDGNBVGY3TQOJQGEZDGNBVGY3TQOJQ" (timecode (59 * 1000000))
    = Some "287082"
  /\ generate_otp "GEZDGNBVGY3TQOJQGEZDGNBVGY3TQOJQ"
       (timecode (1111111109 * 1000000)) = Some "081804"
  /\ generate_otp "GEZDGNBVGY3TQOJQGEZDGNBVGY3TQOJQ"
       (timecode (2000000000 * 1000000)) = Some "279037".
Proof. vm_compute. repeat split. Qed.

Example byte_secret_examples :
  byte_secret "JBSWY3DPEHPK3PXP" = Some [72; 101; 108; 108; 111; 33; 222; 173; 190; 239]
  /\ byte_secret "MZXW6YTB" = Some (bytes_of_string "fooba")
  /\ byte_secret "MZXW6YQ" = Some (bytes_of_string "foob")
  /\ byte_secret "MZXW6" = Some (bytes_of_string "foo")
  /\ byte_secret "mzxq" = Some (bytes_of_string "fo")
  /\ byte_secret "MY" = Some (bytes_of_string "f")
  /\ byte_secret "M" = None
  /\ byte_secret "MZX" = None
  /\ byte_secret "MZXW6YTBOI" = Some (bytes_of_string "foobar")
  /\ byte_secret "M1" = None
  /\ byte_secret "MZXW6===" = Some (bytes_of_string "foo")
  /\ byte_secret "A=AAAAAA" = None
  /\ byte_secret "AAAAAAAAA" = None.
Proof. vm_compute. repeat split. Qed.

(** *** The window of [totp_verify] *)

Lemma generate_otp_Some (secret : string) (k : Z) (code : string) :
  generate_otp secret k = Some code ->
  0 <= k /\ exists key, byte_secret secret = Some key /\ code = hotp key k.
Proof.
  unfold generate_otp. destruct (Z.ltb_spec k 0); [discriminate|].
  destruct (byte_secret secret) as [key|]; [|discriminate].
  intros [= <-]. split; [assumption|]. now exists key.
Qed.

Lemma generate_otp_key (secret : string) (key : list Z) (k : Z) :
  byte_secret secret = Some key -> 0 <= k ->
  generate_otp secret k = Some (hotp key k).
Proof.
  intros Hk Hpos. unfold generate_otp. rewrite Hk.
  destruct (Z.ltb_spec k 0); [lia | reflexivity].
Qed.

(** With a decodable secret and a time step of at least 1 the three
    candidates are computed and compared in turn. *)
Lemma totp_verify_window (secret : string) (key : list Z) (otp : string)
      (now : Z) :
  byte_secret secret = Some key ->
  1 <= timecode now ->
  totp_verify secret otp now 1 =
  Some (String.eqb otp (hotp key (timecode now - 1))
        || String.eqb otp (hotp key (timecode now))
        || String.eqb otp (hotp key (timecode now + 1))).
Proof.
  intros Hk Ht. unfold totp_verify.
  change (range (- (1)) (Z.to_nat (2 * 1 + 1))) with [-1; 0; 1].
  unfold verify_offsets, totp_at.
  rewrite !(generate_otp_key secret key) by (assumption || lia).
  replace (timecode now + -1) with (timecode now - 1) by lia.
  replace (timecode now + 0) with (timecode now) by lia.
  destruct (String.eqb otp (hotp key (timecode now - 1))); [reflexivity|].
  destruct (String.eqb otp (hotp key (timecode now))); [reflexivity|].
  destruct (String.eqb otp (hotp key (timecode now + 1))); reflexivity.
Qed.

End PyOTPFacts.

(** ** accounts/models.py: reset tokens and backup codes *)
Module AccountsFacts.
Import PyStr PyStrFacts PyOTP PyOTPFacts Accounts.

(** C3. [is_valid()] is true exactly when the token is not used and the
    current time is strictly before [created_at] + 24 hours; so a token
    is valid at its creation and 23h59m later, not valid 24h00m01s
    later, and not valid at any time once it is marked used. *)
Theorem C3_is_valid_spec :
  forall (t : PasswordResetToken) (now : datetime)
         (user : Z) (tok : string) (created : datetime),
    (is_valid t now = true <->
       used t = false /\ now < created_at t + timedelta_hours 24)
    /\ is_valid (create_token user tok created) created = true
    /\ is_valid (create_token user tok created)
                (created + seconds (23 * 3600 + 59 * 60)) = true
    /\ is_valid (create_token user tok created)
                (created + seconds (24 * 3600 + 1)) = false
    /\ is_valid t (created_at t + seconds (24 * 3600 + 1)) = false
    /\ is_valid (mark_used t) now = false.
Proof.
  intros t now user tok created.
  unfold is_valid, create_token, timedelta_hours, seconds; simpl.
  repeat split.
  - destruct (used t); [discriminate | reflexivity].
  - destruct (used t); [discriminate |]. apply Z.ltb_lt in H. lia.
  - intros [Hu Hlt]. rewrite Hu. apply Z.ltb_lt. lia.
  - apply Z.ltb_lt. lia.
  - apply Z.ltb_lt. lia.
  - apply Z.ltb_ge. lia.
  - destruct (used t); [reflexivity |]. apply Z.ltb_ge. lia.
Qed.

(** *** Backup codes *)

Lemma stored_codes_sep_free (u : CustomUser) :
  Forall (fun x => has_char "," x = false) (stored_codes u).
Proof.
  unfold stored_codes. destruct (truthy (mfa_backup_codes u)).
  - apply split_sep_free.
  - constructor.
Qed.

(** Both branches of [verify_backup_code] in terms of [stored_codes]. *)
Lemma verify_backup_code_unfold (u : CustomUser) (code : string) :
  verify_backup_code u code =
  if mem (upper code) (stored_codes u)
  then (true, set_mfa_backup_codes u
                (join "," (remove (upper code) (stored_codes u))))
  else (false, u).
Proof.
  unfold verify_backup_code, stored_codes.
  destruct (truthy (mfa_backup_codes u)); reflexivity.
Qed.

Lemma count_unfold (u : CustomUser) :
  get_remaining_backup_codes_count u = Z.of_nat (List.length (stored_codes u)).
Proof.
  unfold get_remaining_backup_codes_count, stored_codes.
  destruct (truthy (mfa_backup_codes u)); reflexivity.
Qed.

(** Reading back a field written from a list of non-empty, comma-free
    entries gives that list. *)
Lemma stored_codes_join (u : CustomUser) (l : list string) :
  Forall (fun x => x <> EmptyString) l ->
  Forall (fun x => has_char "," x = false) l ->
  stored_codes (set_mfa_backup_codes u (join "," l)) = l.
Proof.
  intros Hne Hsf. unfold stored_codes; simpl.
  rewrite (truthy_join "," l Hne).
  destruct l as [|x r]; [reflexivity|].
  simpl negb. cbv iota.
  apply (split_join "," (x :: r)); [discriminate | assumption].
Qed.

Lemma well_formed_nonempty (u : CustomUser) :
  codes_well_formed u -> Forall (fun x => x <> EmptyString) (stored_codes u).
Proof. apply Forall_impl. tauto. Qed.

(** C4 (amended). For an account whose stored codes are non-empty and
    upper-case, as [generate_backup_codes] writes them:
    the remaining count is the number of stored codes; a submitted code
    is accepted exactly when it equals a stored code up to case; an
    accepted code has exactly one of its occurrences removed, the count
    drops by one and the stored codes stay well formed; a rejected code
    (in particular any code when nothing is stored) leaves the account
    unchanged; and a code stored once is rejected the second time. *)
Theorem C4_backup_codes_spec :
  forall (u : CustomUser) (code : string),
    codes_well_formed u ->
    let r := verify_backup_code u code in
    let codes := stored_codes u in
    get_remaining_backup_codes_count u = Z.of_nat (List.length codes)
    /\ (fst r = true <-> exists x, In x codes /\ upper x = upper code)
    /\ (fst r = true ->
          stored_codes (snd r) = remove (upper code) codes
          /\ (forall y,
                 count_occ string_dec codes y =
                 (count_occ string_dec (stored_codes (snd r)) y
                  + (if string_dec (upper code) y then 1 else 0))%nat)
          /\ get_remaining_backup_codes_count (snd r)
               = get_remaining_backup_codes_count u - 1
          /\ codes_well_formed (snd r))
    /\ (fst r = false -> snd r = u)
    /\ (codes = [] -> r = (false, u))
    /\ (count_occ string_dec codes (upper code) = 1%nat ->
          fst r = true /\ verify_backup_code (snd r) code = (false, snd r)).
Proof.
  intros u code Hwf r codes.
  assert (Hcount : get_remaining_backup_codes_count u
                   = Z.of_nat (List.length codes)) by apply count_unfold.
  assert (Hacc : fst r = true <-> In (upper code) codes).
  { subst r codes. rewrite verify_backup_code_unfold, <- mem_In.
    destruct (mem (upper code) (stored_codes u)); simpl; tauto. }
  assert (Hsucc : In (upper code) codes ->
            stored_codes (snd r) = remove (upper code) codes).
  { intros Hin. apply mem_In in Hin. subst r codes.
    rewrite verify_backup_code_unfold, Hin. simpl.
    apply stored_codes_join.
    - apply remove_Forall, well_formed_nonempty, Hwf.
    - apply remove_Forall, stored_codes_sep_free. }
  split; [exact Hcount|]. split; [|split; [|split; [|split]]].
  - rewrite Hacc. split.
    + intros Hin. exists (upper code). split; [assumption | apply upper_idem].
    + intros [x [Hx Hup]].
      unfold codes_well_formed in Hwf.
      rewrite Forall_forall in Hwf. destruct (Hwf x Hx) as [_ Hxu].
      rewrite <- Hup, Hxu. exact Hx.
  - intros Hr. apply Hacc in Hr. pose proof (Hsucc Hr) as Hs.
    split; [exact Hs|]. split; [|split].
    + intros y. rewrite Hs. now apply remove_count_occ.
    + rewrite (count_unfold (snd r)), Hcount, Hs.
      rewrite (remove_length (upper code) codes Hr). lia.
    + unfold codes_well_formed. rewrite Hs. now apply remove_Forall.
  - subst r. rewrite verify_backup_code_unfold.
    destruct (mem (upper code) (stored_codes u)); simpl; congruence.
  - intros Hnil. subst r codes. rewrite verify_backup_code_unfold, Hnil.
    reflexivity.
  - intros Hone.
    assert (Hin : In (upper code) codes).
    { apply (count_occ_In string_dec). lia. }
    split; [now apply Hacc|].
    rewrite (verify_backup_code_unfold (snd r)), (Hsucc Hin).
    pose proof (remove_count_occ (upper code) codes Hin (upper code)) as Hc.
    destruct (string_dec (upper code) (upper code)); [|congruence].
    destruct (mem (upper code) (remove (upper code) codes)) eqn:Hm;
      [|reflexivity].
    apply mem_In, (count_occ_In string_dec) in Hm. lia.
Qed.

Lemma C4_backup_codes_witness :
  codes_well_formed user_two_codes
  /\ get_remaining_backup_codes_count user_two_codes = 2
  /\ fst (verify_backup_code user_two_codes "ab12cd34") = true
  /\ verify_backup_code (snd (verify_backup_code user_two_codes "ab12cd34"))
                        "ab12cd34"
      = (false, snd (verify_backup_code user_two_codes "ab12cd34")).
Proof.
  assert (Hwf : codes_well_formed user_two_codes).
  { repeat constructor; discriminate. }
  pose proof (C4_backup_codes_spec user_two_codes "ab12cd34" Hwf) as H.
  cbv zeta in H.
  destruct H as [Hc [_ [_ [_ [_ Honce]]]]].
  split; [exact Hwf|]. split; [exact Hc|].
  apply Honce. reflexivity.
Defined.

(** C4, as stated, fails in three places: a code that was drawn twice is
    accepted twice; a stored lower-case entry is never matched, whatever
    the case of the submitted code; and with an empty entry in the field
    a successful consumption can lower the count by two. *)
Lemma C4_counterexample :
  ~ (forall u code,
       fst (verify_backup_code u code) = true ->
       fst (verify_backup_code (snd (verify_backup_code u code)) code) = false)
  /\ ~ (forall u code,
          (exists x, In x (stored_codes u) /\ upper x = upper code) ->
          fst (verify_backup_code u code) = true)
  /\ ~ (forall u code,
          fst (verify_backup_code u code) = true ->
          get_remaining_backup_codes_count (snd (verify_backup_code u code))
          = get_remaining_backup_codes_count u - 1).
Proof.
  split; [|split].
  - intros H. specialize (H user_equal_draws "AB12CD34" eq_refl).
    discriminate H.
  - intros H.
    specialize (H (set_mfa_backup_codes blank_user "ab12cd34") "ab12cd34").
    assert (Hex : exists x,
               In x (stored_codes (set_mfa_backup_codes blank_user "ab12cd34"))
               /\ upper x = upper "ab12cd34").
    { exists "ab12cd34". split; [left|]; reflexivity. }
    specialize (H Hex). discriminate H.
  - intros H.
    specialize (H (set_mfa_backup_codes blank_user ",AB12CD34") "AB12CD34"
                  eq_refl).
    discriminate H.
Qed.

(** *** What [generate_backup_codes] writes is well formed *)

Lemma hex_digit_upper_not_comma (n : Z) :
  0 <= n < 16 -> Ascii.eqb (upper_char (hex_digit n)) "," = false.
Proof.
  intros H.
  assert (Hall : forallb
                   (fun k => negb (Ascii.eqb (upper_char (hex_digit (Z.of_nat k))) ","))
                   (seq 0 16) = true) by (vm_compute; reflexivity).
  rewrite forallb_forall in Hall.
  specialize (Hall (Z.to_nat n)).
  rewrite Z2Nat.id in Hall by lia.
  apply negb_true_iff, Hall, in_seq. lia.
Qed.

Lemma token_hex_upper_sep_free (d : list Z) :
  has_char "," (upper (token_hex d)) = false.
Proof.
  induction d as [|b r IH]; [reflexivity|].
  unfold upper in *. simpl.
  rewrite !hex_digit_upper_not_comma, IH; [reflexivity | |].
  - apply Z.mod_pos_bound. lia.
  - pose proof (Z.mod_pos_bound b 256 ltac:(lia)).
    split; [apply Z.div_pos; lia | apply Z.div_lt_upper_bound; lia].
Qed.

Lemma token_hex_upper_nonempty (d : list Z) :
  d <> [] -> upper (token_hex d) <> EmptyString.
Proof. destruct d; [congruence | discriminate]. Qed.

(** After [generate_backup_codes] with non-empty draws the stored codes
    are the returned codes, and they are well formed. *)
Lemma generate_backup_codes_well_formed (u : CustomUser) (draws : list (list Z)) :
  Forall (fun d => d <> []) draws ->
  stored_codes (snd (generate_backup_codes u draws))
    = fst (generate_backup_codes u draws)
  /\ codes_well_formed (snd (generate_backup_codes u draws)).
Proof.
  intros Hd. unfold generate_backup_codes. cbn [fst snd].
  assert (Hne : Forall (fun x => x <> EmptyString)
                  (map (fun d => upper (token_hex d)) draws)).
  { apply Forall_map. eapply Forall_impl; [|exact Hd].
    intros d. apply token_hex_upper_nonempty. }
  assert (Hsf : Forall (fun x => has_char "," x = false)
                  (map (fun d => upper (token_hex d)) draws)).
  { apply Forall_map, Forall_forall. intros d _.
    apply token_hex_upper_sep_free. }
  assert (Hst := stored_codes_join u _ Hne Hsf).
  split; [exact Hst|].
  unfold codes_well_formed. rewrite Hst.
  apply Forall_map, Forall_forall. intros d Hin. split.
  - rewrite Forall_forall in Hd. apply token_hex_upper_nonempty. auto.
  - apply upper_idem.
Qed.

(** *** Time-based codes *)

(** C10. With an empty [mfa_secret], [verify_mfa_token] answers false
    for every token at every time. *)
Theorem C10_verify_mfa_token_empty_secret :
  forall (u : CustomUser) (token : string) (now : datetime),
    mfa_secret u = EmptyString ->
    verify_mfa_token u token now = Some false.
Proof.
  intros u token now H. unfold verify_mfa_token. now rewrite H.
Qed.

Lemma C10_verify_mfa_token_empty_secret_witness :
  mfa_secret user_no_secret = EmptyString
  /\ verify_mfa_token user_no_secret "123456" (seconds 1793842590) = Some false.
Proof.
  split; [reflexivity|].
  apply (C10_verify_mfa_token_empty_secret user_no_secret "123456"
           (seconds 1793842590)).
  reflexivity.
Defined.

(** C7 (amended). For an account with a non-empty secret, a code
    generated for step [k], and a current time whose step is at least 1:
    the code is accepted when the current step is [k-1], [k] or [k+1];
    and at any current step it is accepted exactly when it equals the
    code of the step before, the current step or the step after, and
    rejected otherwise. *)
Theorem C7_verify_mfa_token_window :
  forall (u : CustomUser) (k : Z) (code : string) (now : datetime),
    mfa_secret u <> EmptyString ->
    generate_otp (mfa_secret u) k = Some code ->
    1 <= timecode now ->
    (k - 1 <= timecode now <= k + 1 ->
       verify_mfa_token u code now = Some true)
    /\ (verify_mfa_token u code now = Some true <->
          exists i, -1 <= i <= 1
                    /\ generate_otp (mfa_secret u) (timecode now + i) = Some code)
    /\ (verify_mfa_token u code now = Some false <->
          forall i, -1 <= i <= 1 ->
                    generate_otp (mfa_secret u) (timecode now + i) <> Some code).
Proof.
  intros u k code now Hsec Hgen Hnow.
  destruct (generate_otp_Some _ _ _ Hgen) as [Hk [key [Hkey Hcode]]].
  assert (Hv : verify_mfa_token u code now =
               Some (String.eqb code (hotp key (timecode now - 1))
                     || String.eqb code (hotp key (timecode now))
                     || String.eqb code (hotp key (timecode now + 1)))).
  { unfold verify_mfa_token.
    destruct (mfa_secret u) as [|c r] eqn:Hs; [congruence|].
    cbn [truthy negb]. now apply totp_verify_window. }
  assert (Hcand : forall i, -1 <= i <= 1 ->
            generate_otp (mfa_secret u) (timecode now + i)
            = Some (hotp key (timecode now + i))).
  { intros i Hi. apply generate_otp_key; [assumption | lia]. }
  assert (Hiff :
    String.eqb code (hotp key (timecode now - 1))
    || String.eqb code (hotp key (timecode now))
    || String.eqb code (hotp key (timecode now + 1)) = true
    <-> exists i, -1 <= i <= 1
                  /\ generate_otp (mfa_secret u) (timecode now + i) = Some code).
  { rewrite !orb_true_iff, !String.eqb_eq. split.
    - intros [[H|H]|H].
      + exists (-1). split; [lia|]. rewrite Hcand by lia.
        replace (timecode now + -1) with (timecode now - 1) by lia.
        now rewrite <- H.
      + exists 0. split; [lia|]. rewrite Hcand by lia.
        replace (timecode now + 0) with (timecode now) by lia.
        now rewrite <- H.
      + exists 1. split; [lia|]. rewrite Hcand by lia. now rewrite <- H.
    - intros [i [Hi Hg]]. rewrite Hcand in Hg by lia. injection Hg as Hg.
      assert (Hcase : i = -1 \/ i = 0 \/ i = 1) by lia.
      destruct Hcase as [-> | [-> | ->]].
      + left; left. rewrite <- Hg. f_equal; lia.
      + left; right. rewrite <- Hg. f_equal; lia.
      + right. now rewrite <- Hg. }
  split; [|split].
  - intros Hwin. rewrite Hv. f_equal. apply Hiff.
    exists (k - timecode now). split; [lia|].
    replace (timecode now + (k - timecode now)) with k by lia. exact Hgen.
  - rewrite Hv. rewrite <- Hiff. split; [intros Hb; now injection Hb|].
    intros ->. reflexivity.
  - rewrite Hv. split.
    + intros [= Hf] i Hi Hg.
      assert (Hex : exists i, -1 <= i <= 1 /\
                generate_otp (mfa_secret u) (timecode now + i) = Some code)
        by (exists i; auto).
      apply Hiff in Hex. congruence.
    + intros Hall. f_equal.
      apply not_true_is_false. intros Hb.
      apply Hiff in Hb. destruct Hb as [i [Hi Hg]].
      exact (Hall i Hi Hg).
Qed.

(** The code of step 59794753 (2026-11-04), checked one step later. *)
Lemma C7_verify_mfa_token_window_witness :
  mfa_secret blank_user <> EmptyString
  /\ generate_otp (mfa_secret blank_user) 59794753 = Some "111659"
  /\ verify_mfa_token blank_user "111659" (seconds (59794754 * 30 + 7))
      = Some true.
Proof.
  assert (Hs : mfa_secret blank_user <> EmptyString) by discriminate.
  assert (Hg : generate_otp (mfa_secret blank_user) 59794753 = Some "111659")
    by (vm_compute; reflexivity).
  assert (Ht : 1 <= timecode (seconds (59794754 * 30 + 7)))
    by (vm_compute; discriminate).
  split; [exact Hs|]. split; [exact Hg|].
  apply (proj1 (C7_verify_mfa_token_window blank_user 59794753 "111659"
                  (seconds (59794754 * 30 + 7)) Hs Hg Ht)).
  vm_compute. split; discriminate.
Defined.

(** C7, as stated, fails outside the window: six-digit codes repeat.
    With the secret JBSWY3DPEHPK3PXP the code of step 59794753 is also
    the code of step 59794967, 214 steps (107 minutes) later, and is
    accepted there.  It also fails at time step 0, where the library is
    asked for the code of step -1 and raises. *)
Lemma C7_counterexample :
  ~ (forall (u : CustomUser) (k : Z) (code : string) (now : datetime),
       mfa_secret u <> EmptyString ->
       generate_otp (mfa_secret u) k = Some code ->
       ~ (k - 1 <= timecode now <= k + 1) ->
       verify_mfa_token u code now = Some false)
  /\ ~ (forall (u : CustomUser) (k : Z) (code : string) (now : datetime),
          mfa_secret u <> EmptyString ->
          generate_otp (mfa_secret u) k = Some code ->
          k - 1 <= timecode now <= k + 1 ->
          verify_mfa_token u code now = Some true).
Proof.
  split.
  - intros H.
    specialize (H blank_user 59794753 "111659" (seconds (59794967 * 30))).
    assert (Hv : verify_mfa_token blank_user "111659" (seconds (59794967 * 30))
                 = Some true) by (vm_compute; reflexivity).
    rewrite Hv in H.
    assert (Hf : Some true = Some false); [|discriminate Hf].
    apply H.
    + discriminate.
    + vm_compute; reflexivity.
    + vm_compute. intros [_ Hle]. apply Hle. reflexivity.
  - intros H.
    specialize (H blank_user 1 "996554" (seconds 10)).
    assert (Hv : verify_mfa_token blank_user "996554" (seconds 10) = None)
      by (vm_compute; reflexivity).
    rewrite Hv in H.
    assert (Hf : None = Some true); [|discriminate Hf].
    apply H.
    + discriminate.
    + vm_compute; reflexivity.
    + vm_compute. split; discriminate.
Qed.

End AccountsFacts.

(** ** accounts/views.py: login attempts and MFA verification *)
Module AccountsViewsFacts.
Import PyStr Accounts AccountsViews.

Lemma CustomLoginForm_valid ev cp us request user remember_me :
  CustomLoginForm ev cp us request = FormValid user remember_me ->
  email user = strip (get_default (post_username request) EmptyString)
  /\ In user us.
Proof.
  unfold CustomLoginForm.
  destruct (_ || _ || _); [discriminate|].
  destruct (find _ us) as [u|] eqn:Hf; [|discriminate].
  destruct (_ && _); [|discriminate].
  intros [= <- _]. apply find_some in Hf as [Hin He].
  apply String.eqb_eq in He. auto.
Qed.

(** C2 (amended). Every run of [LoginView.post] appends exactly one
    [LoginAttempt].  When the form does not validate, the record has
    [successful = False] and the submitted, unvalidated address (the
    empty string when the field is absent).  When it validates, the
    record has [successful = True] and the address stored on the
    authenticated account, which is the submitted string stripped of
    surrounding white space. *)
Theorem C2_login_attempt_recorded :
  forall ev cp (request : Request) (s : Session) (w : World),
    let form := CustomLoginForm ev cp (users w) request in
    let w' := world_of (LoginView_post form request s w) in
    exists a,
      login_attempts w' = (login_attempts w ++ [a])%list
      /\ la_ip_address a = get_client_ip request
      /\ match form with
         | FormValid user _ =>
             la_successful a = true
             /\ la_email a = email user
             /\ la_email a
                = strip (get_default (post_username request) EmptyString)
         | FormInvalid =>
             la_successful a = false
             /\ la_email a = get_default (post_username request) EmptyString
         end.
Proof.
  intros ev cp request s w form w'. subst w'.
  destruct form as [user remember_me|] eqn:Hform.
  - apply CustomLoginForm_valid in Hform as [Hemail _].
    unfold LoginView_post, world_of.
    destruct (mfa_enabled user); cbn;
      eexists; (split; [reflexivity|]); cbn; auto.
  - unfold world_of. cbn. eexists. split; [reflexivity|]. cbn. auto.
Qed.

(** C2, as stated, fails for a successful login whose submitted address
    has surrounding blanks: the record carries the account's stored
    address, not the submitted string. *)
Lemma C2_counterexample :
  ~ (forall ev cp (request : Request) (s : Session) (w : World) a,
       In a (login_attempts
               (world_of (LoginView_post
                            (CustomLoginForm ev cp (users w) request)
                            request s w))) ->
       ~ In a (login_attempts w) ->
       la_email a = get_default (post_username request) EmptyString).
Proof.
  intros H.
  specialize (H sample_email_validator sample_check_password sample_request
                anonymous_session sample_world
                (mkAttempt "alice@example.org" (Some "203.0.113.7")
                           "Mozilla/5.0" true)).
  assert (Hne : "alice@example.org" = " alice@example.org ");
    [|discriminate Hne].
  apply H.
  - vm_compute. left. reflexivity.
  - intros [].
Qed.

(** *** Pending MFA verification *)

(** A submission that does not verify leaves the session as it was. *)
Lemma mfa_post_not_verified request now s w :
  mfa_verifies request now s w = false ->
  session_of (MFAVerifyView_post request now s w) = s.
Proof.
  unfold mfa_verifies, MFAVerifyView_post, session_of.
  destruct (mfa_user_id s) as [uid|]; [|reflexivity].
  destruct (MFAVerificationForm request) as [[token ub]|]; [|reflexivity].
  destruct (get_user w uid) as [user|]; [|reflexivity].
  destruct (check_token user token ub now w) as [[[[] user'] w1]|];
    [discriminate | reflexivity | reflexivity].
Qed.

Lemma mfa_posts_none_verifies reqs :
  forall s w, none_verifies reqs s w = true -> fst (mfa_posts reqs s w) = s.
Proof.
  induction reqs as [|[request now] r IH]; intros s w; [reflexivity|].
  simpl. intros H. apply andb_true_iff in H as [Hn Hr].
  apply negb_true_iff in Hn.
  pose proof (mfa_post_not_verified request now s w Hn) as Hs.
  destruct (MFAVerifyView_post request now s w) as [[resp s'] w'].
  unfold session_of in Hs. simpl in Hs. subst s'. now apply IH.
Qed.

Lemma get_user_id w uid user : get_user w uid = Some user -> user_id user = uid.
Proof.
  unfold get_user. intros H. apply find_some in H as [_ H].
  now apply Z.eqb_eq in H.
Qed.

Lemma check_token_user user token ub now w valid user' w1 :
  check_token user token ub now w = Some (valid, user', w1) ->
  user_id user' = user_id user.
Proof.
  unfold check_token. destruct ub.
  - unfold verify_backup_code.
    destruct (negb (truthy (mfa_backup_codes user))); cbn.
    + now intros [= _ <- _].
    + destruct (mem _ _); cbn; now intros [= _ <- _].
  - destruct (verify_mfa_token user token now); [|discriminate].
    now intros [= _ <- _].
Qed.

(** A submission that verifies signs the pending account in and clears
    the pending keys. *)
Lemma mfa_post_verified request now s w uid :
  mfa_user_id s = Some uid ->
  mfa_verifies request now s w = true ->
  let s' := session_of (MFAVerifyView_post request now s w) in
  auth_user_id s' = Some uid
  /\ mfa_user_id s' = None
  /\ mfa_remember_me s' = None
  /\ (mfa_remember_me s <> Some true -> expiry s' = Some 0).
Proof.
  unfold mfa_verifies, MFAVerifyView_post, session_of. intros ->.
  destruct (MFAVerificationForm request) as [[token ub]|]; [|discriminate].
  destruct (get_user w uid) as [user|] eqn:Hu; [|discriminate].
  destruct (check_token user token ub now w) as [[[[] user'] w1]|] eqn:Hc;
    try discriminate.
  intros _. apply get_user_id in Hu. apply check_token_user in Hc.
  cbn -[login]. rewrite <- Hu, <- Hc.
  destruct (mfa_remember_me s) as [[]|]; cbn -[Z.eqb];
    repeat split; try congruence;
    destruct (auth_user_id s) as [v|]; try reflexivity;
    destruct (v =? user_id user'); reflexivity.
Qed.

(** C6. When the credentials verify: for an account without MFA
    [LoginView.post] signs the account in; for an account with MFA it
    stores the account id and the remember-me flag in the session and
    leaves the signed-in account of the session as it was; from there,
    submissions to [MFAVerifyView.post] that do not verify change
    nothing in the session, and the first one that verifies signs the
    account in, clears the pending keys and honours the stored flag. *)
Theorem C6_login_mfa_gate :
  forall (user : CustomUser) (remember_me : bool) (request : Request)
         (s : Session) (w : World),
    let r := LoginView_post (FormValid user remember_me) request s w in
    (mfa_enabled user = false ->
       auth_user_id (session_of r) = Some (user_id user))
    /\ (mfa_enabled user = true ->
          mfa_user_id (session_of r) = Some (user_id user)
          /\ mfa_remember_me (session_of r) = Some remember_me
          /\ auth_user_id (session_of r) = auth_user_id s
          /\ forall reqs,
               none_verifies reqs (session_of r) (world_of r) = true ->
               let after := mfa_posts reqs (session_of r) (world_of r) in
               fst after = session_of r
               /\ forall request' now,
                    mfa_verifies request' now (fst after) (snd after) = true ->
                    let s' := session_of (MFAVerifyView_post request' now
                                            (fst after) (snd after)) in
                    auth_user_id s' = Some (user_id user)
                    /\ mfa_user_id s' = None
                    /\ mfa_remember_me s' = None
                    /\ (remember_me = false -> expiry s' = Some 0)).
Proof.
  intros user remember_me request s w r. subst r.
  unfold LoginView_post, session_of, world_of.
  split.
  - intros ->. destruct remember_me; reflexivity.
  - intros ->. cbn [fst snd]. repeat split.
    + now apply mfa_posts_none_verifies.
    + rewrite (mfa_posts_none_verifies _ _ _ H) in *.
      eapply (mfa_post_verified request' now); [reflexivity | exact H0].
    + rewrite (mfa_posts_none_verifies _ _ _ H) in *.
      eapply (mfa_post_verified request' now); [reflexivity | exact H0].
    + rewrite (mfa_posts_none_verifies _ _ _ H) in *.
      eapply (mfa_post_verified request' now); [reflexivity | exact H0].
    + intros ->. rewrite (mfa_posts_none_verifies _ _ _ H) in *.
      eapply (mfa_post_verified request' now);
        [reflexivity | exact H0 | discriminate].
Qed.

Lemma C6_login_mfa_gate_witness :
  mfa_enabled blank_user = true
  /\ mfa_enabled user_no_secret = false
  /\ auth_user_id
       (session_of (LoginView_post (FormValid user_no_secret false)
                      sample_request anonymous_session sample_world))
     = Some (user_id user_no_secret)
  /\ auth_user_id
       (session_of (LoginView_post (FormValid blank_user true)
                      sample_request anonymous_session sample_world))
     = None
  /\ mfa_user_id
       (session_of (LoginView_post (FormValid blank_user true)
                      sample_request anonymous_session sample_world))
     = Some (user_id blank_user).
Proof.
  pose proof (C6_login_mfa_gate user_no_secret false sample_request
                anonymous_session sample_world) as [Hoff _].
  pose proof (C6_login_mfa_gate blank_user true sample_request
                anonymous_session sample_world) as [_ Hon].
  specialize (Hoff eq_refl). specialize (Hon eq_refl).
  destruct Hon as [Hid [_ [Hauth _]]].
  repeat split; assumption.
Defined.

End AccountsViewsFacts.

(** ** pdfapp/views.py: the conversion pipeline *)
Module PdfappFacts.
Import PyStr Accounts Pdfapp.

Example path_examples :
  basename "/srv/media/pdf/source/report.final.docx" = "report.final.docx"
  /\ splitext "report.final.docx" = ("report.final", ".docx")
  /\ splitext "x/.hidden" = ("x/.hidden", EmptyString)
  /\ path_join "/tmp/tmpk3x" "report.pdf" = "/tmp/tmpk3x/report.pdf"
  /\ is_docx uploaded = true.
Proof. repeat split; reflexivity. Qed.

(** *** The HTML of a heading *)

(** C8. For a document of exactly one paragraph styled "Heading 1"
    whose single run is bold with text "Title", [convert_docx_to_html]
    returns HTML, without error, that contains an [h1] element wrapping
    [<strong>Title</strong>].  The content of the element is exactly
    [<strong>Title</strong>] unless the run is also italic or
    underlined, which adds [em] and [u] around it; the element has no
    attribute unless the paragraph is centred, right-aligned or
    justified, and then only the class of that alignment. *)
Theorem C8_heading_bold_title :
  forall (al : option Alignment) (i u : option bool),
  exists html attrs before after,
    convert_docx_to_html (Returned (heading_docx al i u)) = (Some html, None)
    /\ html = before ++ "<h1" ++ attrs ++ ">"
               ++ (if is_set u then "<u>" else EmptyString)
               ++ (if is_set i then "<em>" else EmptyString)
               ++ "<strong>Title</strong>"
               ++ (if is_set i then "</em>" else EmptyString)
               ++ (if is_set u then "</u>" else EmptyString)
               ++ "</h1>" ++ after
    /\ attrs = match al with
               | Some CENTER => " class=" ++ dq ++ "center" ++ dq
               | Some RIGHT => " class=" ++ dq ++ "right" ++ dq
               | Some JUSTIFY => " class=" ++ dq ++ "justify" ++ dq
               | _ => EmptyString
               end.
Proof.
  intros al i u.
  exists (join nl (html_head "Converted Document" docx_css) ++ nl
          ++ paragraph_html (mkParagraph (Some "Heading 1") al
                               [mkRun "Title" (Some true) i u])
          ++ nl ++ "</body>" ++ nl ++ "</html>").
  exists (match al with
          | Some CENTER => " class=" ++ dq ++ "center" ++ dq
          | Some RIGHT => " class=" ++ dq ++ "right" ++ dq
          | Some JUSTIFY => " class=" ++ dq ++ "justify" ++ dq
          | _ => EmptyString
          end).
  exists (join nl (html_head "Converted Document" docx_css) ++ nl).
  exists (nl ++ "</body>" ++ nl ++ "</html>").
  destruct i as [[]|]; destruct u as [[]|]; destruct al as [[]|];
    (split; [vm_compute; reflexivity | split; vm_compute; reflexivity]).
Qed.

Lemma C8_heading_bold_title_witness :
  exists html before after,
    convert_docx_to_html (Returned (heading_docx None None None))
      = (Some html, None)
    /\ html = before ++ "<h1><strong>Title</strong></h1>" ++ after.
Proof.
  destruct (C8_heading_bold_title None None None)
    as [html [attrs [before [after [Hc [Hh Ha]]]]]].
  exists html, before, after. split; [exact Hc|].
  rewrite Ha in Hh. exact Hh.
Defined.

(** *** The two halves of the pipeline, case by case *)

Lemma pdf_step_cases env sp td st :
  pdf_step env sp td st =
  if is_some_truthy (fst (pdf_result env sp td (fst st))) && pdf_exists env then
    match pdf_read env, pdf_save env with
    | Raised m, _ => (Raised m, st)
    | Returned _, Raised m => (Raised m, st)
    | Returned content, Returned _ =>
        (Returned tt,
         (set_pdf_file
            (mkFile (upload_to_pdf_output
                       (fst (splitext (basename sp)) ++ ".pdf")) content)
            (fst st),
          (snd st ++ [mkLog "pdf_success" "PDF conversion successful"])%list))
    end
  else if is_some_truthy (snd (pdf_result env sp td (fst st))) then
    (Returned tt,
     (fst st,
      (snd st ++ [mkLog "pdf_error"
                    ("PDF conversion failed: "
                       ++ text_of (snd (pdf_result env sp td (fst st))))])%list))
  else (Returned tt, st).
Proof.
  unfold pdf_step, pdf_result, bind, get_document, call, update, log_create,
    ret, text_of.
  destruct st as [d logs]. cbn [fst snd].
  destruct (if is_docx d then _ else _) as [pdf_path error]. cbn [fst snd].
  destruct (is_some_truthy pdf_path && pdf_exists env).
  - destruct (pdf_read env); [|reflexivity].
    destruct (pdf_save env); reflexivity.
  - destruct (is_some_truthy error); reflexivity.
Qed.

Lemma html_step_cases env sp st :
  html_step env sp st =
  if is_some_truthy (fst (html_result env (fst st))) then
    let content := text_of (fst (html_result env (fst st))) in
    match html_save env with
    | Raised m => (Raised m, (set_html_content content (fst st), snd st))
    | Returned _ =>
        (Returned tt,
         (set_html_file
            (mkFile (upload_to_pdf_output
                       (fst (splitext (basename sp)) ++ ".html")) content)
            (set_html_content content (fst st)),
          (snd st ++ [mkLog "html_success" "HTML conversion successful"])%list))
    end
  else if is_some_truthy (snd (html_result env (fst st))) then
    (Returned tt,
     (fst st,
      (snd st ++ [mkLog "html_error"
                    ("HTML conversion failed: "
                       ++ text_of (snd (html_result env (fst st))))])%list))
  else (Returned tt, st).
Proof.
  unfold html_step, html_result, bind, get_document, call, update, log_create,
    ret, text_of.
  destruct st as [d logs]. cbn [fst snd].
  destruct (if is_docx d then _ else _) as [html error]. cbn [fst snd].
  destruct (is_some_truthy html).
  - destruct (html_save env); reflexivity.
  - destruct (is_some_truthy error); reflexivity.
Qed.

Lemma html_result_source env d1 d2 :
  source_file d1 = source_file d2 -> html_result env d1 = html_result env d2.
Proof.
  unfold html_result, is_docx, source_extension. now intros ->.
Qed.

Lemma pdf_result_source env sp td d1 d2 :
  source_file d1 = source_file d2 ->
  pdf_result env sp td d1 = pdf_result env sp td d2.
Proof.
  unfold pdf_result, is_docx, source_extension. now intros ->.
Qed.

Lemma is_some_truthy_text (o : option string) :
  is_some_truthy o = true -> text_of o <> EmptyString.
Proof. destruct o as [[|c r]|]; simpl; congruence. Qed.

(** Splits a run of [process_document] into its cases: every outcome
    the run consults is taken apart, innermost first. *)
Ltac no_inner_case t :=
  lazymatch t with
  | context [match _ with _ => _ end] => fail
  | _ => idtac
  end.

Ltac innermost_case :=
  match goal with
  | |- context [match ?scrutinee with _ => _ end] =>
      no_inner_case scrutinee; destruct scrutinee eqn:?
  end.

Ltac pipeline_cases :=
  unfold process_document, process_body, started, bind, with_cleanup, call,
    get_document, update, log_create, ret;
  cbn [fst snd];
  repeat (rewrite ?pdf_step_cases, ?html_step_cases; cbn [fst snd];
          innermost_case; cbn [fst snd]).

(** *** Terminal status *)

(** C1. A run of [process_document] ends with status 'completed' or
    'failed'.  It is 'failed' exactly when the body of the [try]
    raised, and 'completed' exactly when the run returned [True].
    When the calls of the orchestration itself return, the status is
    'completed' whatever the converter process and the parsers did.
    'completed' occurs with no PDF, with no HTML, with both and with
    neither. *)
Theorem C1_terminal_status :
  forall (env : Env) (st : St),
    let r := process_document env st in
    let d' := fst (snd r) in
    (status d' = "completed" \/ status d' = "failed")
    /\ (status d' = "failed" <->
          exists e st2, process_body env (started st) = (Raised e, st2))
    /\ (status d' = "completed" <-> fst r = true)
    /\ (orchestration_calls_return env (fst st) = true ->
          status d' = "completed")
    /\ (let d1 := fst (snd (process_document env_pdf_timeout (uploaded, []))) in
        status d1 = "completed" /\ has_pdf d1 = false /\ has_html d1 = true)
    /\ (let d2 := fst (snd (process_document env_html_failure (uploaded, []))) in
        status d2 = "completed" /\ has_pdf d2 = true /\ has_html d2 = false)
    /\ (let d3 := fst (snd (process_document env_ok (uploaded, []))) in
        status d3 = "completed" /\ has_pdf d3 = true /\ has_html d3 = true)
    /\ (let d4 := fst (snd (process_document env_both_fail (uploaded, []))) in
        status d4 = "completed" /\ has_pdf d4 = false /\ has_html d4 = false).
Proof.
  intros env [d logs] r d'. subst d' r.
  split; [|split; [|split; [|split]]].
  - pipeline_cases; cbn; auto.
  - unfold process_document.
    destruct (process_body env (started (d, logs))) as [[b|e] st2] eqn:Hb.
    + split; [|intros [e [st3 He]]; discriminate].
      revert Hb. clear. intros Hb Hs. exfalso. revert Hb Hs.
      pipeline_cases; intros Hb; inversion Hb; subst; cbn; discriminate.
    + split; [intros _; eauto | reflexivity].
  - unfold process_document.
    destruct (process_body env (started (d, logs))) as [[b|e] st2] eqn:Hb.
    + revert Hb.
      pipeline_cases; intros Hb; inversion Hb; subst; cbn; tauto.
    + cbn. split; discriminate.
  - unfold orchestration_calls_return, returns. cbn [fst].
    intros H. repeat (apply andb_true_iff in H as [H ?]).
    pipeline_cases; cbn; try reflexivity; exfalso;
      unfold source_file_path in *; cbn [source_file set_status] in *;
      repeat match goal with
             | E : ?x = _, E' : context [?x] |- _ => rewrite E in E'
             end;
      discriminate.
  - repeat split; vm_compute; reflexivity.
Qed.

(** *** The log rows of a run *)

Ltac normalize_logs :=
  repeat rewrite <- app_assoc; cbn [app].

(** Brings the recorded case equations to bear on each other. *)
Ltac use_equations :=
  repeat match goal with
         | E : context [html_result ?env (set_html_content ?c ?d)] |- _ =>
             rewrite (html_result_source env (set_html_content c d) d) in E
               by reflexivity
         | E : context [html_result ?env (set_pdf_file ?f ?d)] |- _ =>
             rewrite (html_result_source env (set_pdf_file f d) d) in E
               by reflexivity
         | E : context [html_result ?env (set_status ?v ?d)] |- _ =>
             rewrite (html_result_source env (set_status v d) d) in E
               by reflexivity
         | E : context [pdf_result ?env ?sp ?td (set_status ?v ?d)] |- _ =>
             rewrite (pdf_result_source env sp td (set_status v d) d) in E
               by reflexivity
         end;
  repeat match goal with
         | E : ?x = _, E' : context [?x] |- _ => rewrite E in E'
         end.

(** Every run appends the 'start' row first and exactly one closing row
    ('complete' or 'error') last; between them come at most the rows of
    the two conversion steps. *)
Lemma process_document_logs_shape (env : Env) (st : St) :
  let r := process_document env st in
  exists l middle terminal,
    snd (snd r) = (snd st ++ l)%list
    /\ actions l = ("start" :: middle ++ [terminal])%list
    /\ (terminal = "complete" /\ fst r = true
        \/ terminal = "error" /\ fst r = false)
    /\ Forall (fun a => In a step_actions) middle.
Proof.
  destruct st as [d logs]. cbn zeta.
  pipeline_cases;
    (eexists; cbn [fst snd]; normalize_logs;
     match goal with
     | |- exists m t, (_ ++ ?l)%list = _ /\ _ =>
         exists (removelast (tl (actions l))), (last (actions l) EmptyString)
     end;
     split; [reflexivity|];
     cbn [actions map action tl removelast last app];
     split; [reflexivity|]; split; [tauto|];
     unfold step_actions;
     repeat (apply Forall_cons; [cbn [In]; tauto|]);
     apply Forall_nil).
Qed.

(** A failed conversion step whose error text is not empty is logged. *)
Lemma failure_with_text_is_logged (env : Env) (st : St) :
  orchestration_calls_return env (fst st) = true ->
  let logs' := actions (snd (snd (process_document env st))) in
  (pdf_converted env (fst st) = false ->
   forall sp td,
     source_file_path env (fst st) = Returned sp ->
     temp_dir env = Returned td ->
     is_some_truthy (snd (pdf_result env sp td (fst st))) = true ->
     In "pdf_error" logs')
  /\ (html_converted env (fst st) = false ->
      is_some_truthy (snd (html_result env (fst st))) = true ->
      In "html_error" logs').
Proof.
  destruct st as [d logs]. cbn [fst]. intros Hret.
  unfold orchestration_calls_return, returns in Hret.
  repeat (apply andb_true_iff in Hret as [Hret ?]).
  cbn zeta. unfold pdf_converted, html_converted.
  split.
  - intros Hpc sp td Hsp Htd Herr. rewrite Hsp, Htd in Hpc.
    change (source_file_path env d)
      with (source_file_path env (set_status "processing" d)) in Hsp.
    pipeline_cases;
      unfold actions; rewrite !map_app; cbn [map action];
      rewrite ?in_app_iff; cbn [In]; try tauto;
      exfalso; use_equations; try discriminate; try congruence;
      unfold source_file_path in *; cbn [source_file set_status] in *;
      use_equations; discriminate.
  - intros Hhc Herr.
    pipeline_cases;
      unfold actions; rewrite !map_app; cbn [map action];
      rewrite ?in_app_iff; cbn [In]; try tauto;
      exfalso; use_equations; try discriminate; try congruence;
      unfold source_file_path in *; cbn [source_file set_status] in *;
      use_equations; discriminate.
Qed.

(** C5. The claim fails on the code for a conversion error whose text
    is empty.  When the converter exits with status 1 and an empty
    error stream, [convert_docx_to_pdf] reports the failure as
    [(None, '')]; the run completes, no PDF is attached, and the log
    has the rows 'start', 'html_success' and 'complete' only: the PDF
    failure has no row. *)
Theorem C5_empty_error_text_not_logged :
  let r := process_document env_silent_pdf_failure (uploaded, []) in
  convert_docx_to_pdf "/srv/media/pdf/source/report.docx" "/tmp/tmpk3x"
                      (soffice env_silent_pdf_failure)
    = (None, Some EmptyString)
  /\ fst r = true
  /\ status (fst (snd r)) = "completed"
  /\ pdf_file (fst (snd r)) = None
  /\ actions (snd (snd r)) = ["start"; "html_success"; "complete"]
  /\ ~ In "pdf_error" (actions (snd (snd r))).
Proof.
  vm_compute. repeat split.
  intros [H|[H|[H|[]]]]; discriminate H.
Qed.

(** *** What a run leaves untouched *)

(** C9. [process_document] leaves [pdf_file] as it was when the PDF
    step has nothing to store, and [html_content] and [html_file] as
    they were when the HTML step has nothing to store; it never empties
    an artifact field; and a run that completes leaves [error_message]
    as it was.  So after an upload that converts, a reprocessing that
    fails and a reprocessing whose PDF step times out, the document is
    'completed', the last run logged 'pdf_error', the PDF of the first
    run is still attached and the error message of the second run is
    still there. *)
Theorem C9_process_document_frame :
  forall (env : Env) (st : St),
    let d := fst st in
    let d' := fst (snd (process_document env st)) in
    (pdf_converted env d = false -> pdf_file d' = pdf_file d)
    /\ (html_converted env d = false ->
          html_content d' = html_content d /\ html_file d' = html_file d)
    /\ (pdf_file d <> None -> pdf_file d' <> None)
    /\ (html_file d <> None -> html_file d' <> None)
    /\ (html_content d <> EmptyString -> html_content d' <> EmptyString)
    /\ (status d' = "completed" -> error_message d' = error_message d)
    /\ (let st1 := snd (process_document env_ok (uploaded, [])) in
        let st2 := snd (reprocess_document env_no_temp_dir st1) in
        let st3 := snd (reprocess_document env_pdf_timeout st2) in
        status (fst st2) = "failed"
        /\ status (fst st3) = "completed"
        /\ actions (new_logs st2 st3)
           = ["start"; "pdf_error"; "html_success"; "complete"]
        /\ pdf_file (fst st1) <> None
        /\ pdf_file (fst st3) = pdf_file (fst st1)
        /\ error_message (fst st3) = "[Errno 28] No space left on device").
Proof.
  intros env [d logs] d0 d'. subst d0 d'. cbn [fst].
  unfold pdf_converted, html_converted.
  change (source_file_path env d)
    with (source_file_path env (set_status "processing" d)).
  split; [|split; [|split; [|split; [|split; [|split]]]]].
  - pipeline_cases; cbn; try reflexivity;
      intros Hc; exfalso; use_equations; discriminate.
  - pipeline_cases; cbn; try (split; reflexivity);
      intros Hc; exfalso; use_equations; discriminate.
  - pipeline_cases; cbn; auto; discriminate.
  - pipeline_cases; cbn; auto; discriminate.
  - pipeline_cases; cbn; auto; intros _; now apply is_some_truthy_text.
  - pipeline_cases; cbn; auto; discriminate.
  - vm_compute. repeat split; discriminate.
Qed.

Lemma C1_terminal_status_witness :
  orchestration_calls_return env_both_fail uploaded = true
  /\ status (fst (snd (process_document env_both_fail (uploaded, []))))
      = "completed".
Proof.
  split; [reflexivity|].
  apply (proj1 (proj2 (proj2 (proj2
           (C1_terminal_status env_both_fail (uploaded, [])))))).
  reflexivity.
Defined.

Lemma C9_process_document_frame_witness :
  pdf_converted env_pdf_timeout
    (fst (snd (process_document env_ok (uploaded, [])))) = false
  /\ pdf_file (fst (snd (process_document env_pdf_timeout
                           (snd (process_document env_ok (uploaded, []))))))
      = pdf_file (fst (snd (process_document env_ok (uploaded, [])))).
Proof.
  assert (H : pdf_converted env_pdf_timeout
                (fst (snd (process_document env_ok (uploaded, [])))) = false)
    by (vm_compute; reflexivity).
  split; [exact H|].
  exact (proj1 (C9_process_document_frame env_pdf_timeout
                  (snd (process_document env_ok (uploaded, [])))) H).
Defined.

End PdfappFacts.

(** ** accounts: backup codes, client address, reset tokens, account fields *)
Module AccountsMoreFacts.
Import PyStr PyStrFacts PyOTP Accounts AccountsFacts AccountsViews
       AccountsViewsFacts AccountsMore.

(** *** Generated backup codes *)

Lemma upper_lower_upper_char (c : ascii) :
  upper_char (lower_char (upper_char c)) = upper_char c.
Proof. destruct c as [[] [] [] [] [] [] [] []]; reflexivity. Qed.

Lemma upper_lower_upper (s : string) : upper (lower (upper s)) = upper s.
Proof.
  induction s as [|c r IH]; [reflexivity|].
  unfold upper, lower in *. simpl. now rewrite upper_lower_upper_char, IH.
Qed.

Lemma map_string_length (f : ascii -> ascii) (s : string) :
  String.length (map_string f s) = String.length s.
Proof. induction s as [|c r IH]; simpl; congruence. Qed.

Lemma token_hex_length (d : list Z) :
  String.length (token_hex d) = (2 * List.length d)%nat.
Proof. induction d as [|b r IH]; simpl; [reflexivity | rewrite IH; lia]. Qed.

(** X1. What [generate_backup_codes] stores can be read back and used:
    with one non-empty draw per code, the stored codes are the returned
    codes, the remaining count is the number of draws, and each
    returned code is accepted by [verify_backup_code], written in upper
    or in lower case. *)
Theorem X1_generated_codes_verify :
  forall (u : CustomUser) (draws : list (list Z)),
    Forall (fun d => d <> []) draws ->
    let codes := fst (generate_backup_codes u draws) in
    let u' := snd (generate_backup_codes u draws) in
    stored_codes u' = codes
    /\ get_remaining_backup_codes_count u' = Z.of_nat (List.length draws)
    /\ forall c, In c codes ->
         fst (verify_backup_code u' c) = true
         /\ fst (verify_backup_code u' (lower c)) = true.
Proof.
  intros u draws Hd codes u'.
  destruct (generate_backup_codes_well_formed u draws Hd) as [Hst Hwf].
  fold u' in Hst, Hwf. fold codes in Hst.
  split; [exact Hst|]. split.
  - rewrite count_unfold, Hst. subst codes. unfold generate_backup_codes.
    cbn [fst]. now rewrite length_map.
  - intros c Hc.
    assert (Hup : upper c = c).
    { unfold codes_well_formed in Hwf. rewrite Hst, Forall_forall in Hwf.
      now apply Hwf. }
    rewrite !verify_backup_code_unfold, Hst.
    assert (Hul : upper (lower c) = c).
    { rewrite <- Hup at 1. rewrite upper_lower_upper. exact Hup. }
    rewrite Hup, Hul.
    assert (Hm : mem c codes = true) by now apply mem_In.
    rewrite Hm. split; reflexivity.
Qed.

Lemma X1_generated_codes_verify_witness :
  Forall (fun d : list Z => d <> []) (ten_draws sample_rng)
  /\ get_remaining_backup_codes_count
       (snd (generate_backup_codes blank_user (ten_draws sample_rng))) = 10.
Proof.
  assert (H : Forall (fun d : list Z => d <> []) (ten_draws sample_rng))
    by (repeat constructor; discriminate).
  split; [exact H|].
  exact (proj1 (proj2 (X1_generated_codes_verify blank_user
                         (ten_draws sample_rng) H))).
Defined.

(** Codes drawn from four random bytes have eight characters. *)
Lemma generated_codes_length (u : CustomUser) (draws : list (list Z)) :
  Forall (fun d => List.length d = 4%nat) draws ->
  Forall (fun c => String.length c = 8%nat)
         (stored_codes (snd (generate_backup_codes u draws))).
Proof.
  intros Hd.
  assert (Hne : Forall (fun d : list Z => d <> []) draws).
  { eapply Forall_impl; [|exact Hd]. intros [|] H; [discriminate H | discriminate]. }
  destruct (generate_backup_codes_well_formed u draws Hne) as [Hst _].
  rewrite Hst. unfold generate_backup_codes. cbn [fst].
  apply Forall_map. eapply Forall_impl; [|exact Hd].
  intros d Hl. cbv beta. unfold upper.
  rewrite map_string_length, token_hex_length, Hl. reflexivity.
Qed.




(** *** Reset tokens over time *)



(** *** The recorded client address *)

Lemma split_head (sep : ascii) (s : string) :
  exists h t, split sep s = h :: t
              /\ has_char sep h = false
              /\ (s = h \/ exists rest, s = h ++ String sep rest).
Proof.
  pose proof (split_not_nil sep s) as Hnn.
  pose proof (split_sep_free sep s) as Hsf.
  pose proof (join_split sep s) as Hj.
  destruct (split sep s) as [|h t]; [congruence|].
  exists h, t. split; [reflexivity|].
  inversion Hsf as [|? ? Hh Ht]. split; [assumption|].
  destruct t as [|h' t'].
  - left. simpl in Hj. congruence.
  - right. exists (join (String sep EmptyString) (h' :: t')).
    change (join (String sep EmptyString) (h :: h' :: t'))
      with (h ++ String sep (join (String sep EmptyString) (h' :: t'))) in Hj.
    congruence.
Qed.

(** X4. With a non-empty [X-Forwarded-For] header, [get_client_ip]
    returns the text before the header's first comma (the whole header
    when it has none) and takes no account of [REMOTE_ADDR]; without the
    header, or with an empty one, it returns [REMOTE_ADDR]. *)
Theorem X4_get_client_ip :
  forall (request : Request),
    (forall x, http_x_forwarded_for request = Some x -> x <> EmptyString ->
       exists ip, get_client_ip request = Some ip
                  /\ has_char "," ip = false
                  /\ (x = ip \/ exists rest, x = ip ++ "," ++ rest))
    /\ (http_x_forwarded_for request = None
        \/ http_x_forwarded_for request = Some EmptyString ->
        get_client_ip request = Some (remote_addr request)).
Proof.
  intros request. unfold get_client_ip. split.
  - intros x Hx Hne. rewrite Hx.
    destruct x as [|c r]; [congruence|]. cbn [truthy].
    destruct (split_head "," (String c r)) as [h [t [Hs [Hf Hd]]]].
    rewrite Hs. cbn [hd]. exists h. auto.
  - intros [-> | ->]; reflexivity.
Qed.

Lemma X4_get_client_ip_witness :
  exists ip, get_client_ip forwarded_request = Some ip
             /\ has_char "," ip = false.
Proof.
  destruct (proj1 (X4_get_client_ip forwarded_request)
              "198.51.100.4, 10.0.0.1" eq_refl ltac:(discriminate))
    as [ip [Hip [Hc _]]].
  exists ip. split; assumption.
Defined.

(** *** What the login and MFA views leave alone *)


Lemma get_user_In (w : World) (uid : Z) (u : CustomUser) :
  get_user w uid = Some u -> In u (users w) /\ user_id u = uid.
Proof.
  unfold get_user. intros H. apply find_some in H as [Hin He].
  apply Z.eqb_eq in He. auto.
Qed.







(** *** Switching MFA off and on *)

Lemma get_user_save_user (w : World) (uid : Z) (u u' : CustomUser) :
  get_user w uid = Some u -> user_id u' = uid ->
  get_user (save_user w u') uid = Some u'.
Proof.
  unfold get_user, save_user. cbn [users]. intros H <-.
  induction (users w) as [|v r IH]; [discriminate|].
  cbn [map find] in *.
  destruct (Z.eqb_spec (user_id v) (user_id u')) as [He|Hne].
  - now rewrite Z.eqb_refl.
  - destruct (Z.eqb_spec (user_id v) (user_id u')); [contradiction|].
    now apply IH.
Qed.

Lemma get_user_add_message (w : World) (m : Message) (uid : Z) :
  get_user (add_message w m) uid = get_user w uid.
Proof. reflexivity. Qed.

Lemma request_user_Some (s : Session) (w : World) (u : CustomUser) :
  request_user s w = Some u -> get_user w (user_id u) = Some u.
Proof.
  unfold request_user. destruct (auth_user_id s) as [uid|]; [|discriminate].
  destruct (get_user w uid) as [v|] eqn:Hv; [|discriminate].
  destruct (is_active v); [|discriminate]. intros [= <-].
  now rewrite (proj2 (get_user_In _ _ _ Hv)).
Qed.

(** X6. After [MFADisableView.post] the stored account has MFA off, an
    empty secret and no backup codes: no token and no backup code
    verifies any more, and a login with valid credentials signs the
    account in at once. *)
Theorem X6_mfa_disable :
  forall (s : Session) (w : World) (user : CustomUser),
    request_user s w = Some user ->
    exists user',
      get_user (snd (MFADisableView_post s w)) (user_id user) = Some user'
      /\ user_id user' = user_id user
      /\ mfa_enabled user' = false
      /\ (forall token now, verify_mfa_token user' token now = Some false)
      /\ (forall code, verify_backup_code user' code = (false, user'))
      /\ get_remaining_backup_codes_count user' = 0
      /\ (forall remember request s0 w0,
            auth_user_id (session_of (LoginView_post (FormValid user' remember)
                                                     request s0 w0))
            = Some (user_id user)).
Proof.
  intros s w user Hu. unfold MFADisableView_post. rewrite Hu. cbn [snd].
  eexists. split.
  - rewrite get_user_add_message.
    apply (get_user_save_user w (user_id user) user);
      [now apply (request_user_Some s) | reflexivity].
  - repeat split; try reflexivity.
    intros remember request s0 w0. unfold LoginView_post, session_of.
    cbn. destruct remember; reflexivity.
Qed.

Lemma X6_mfa_disable_witness :
  request_user signed_in_alice sample_mfa_world = Some user_two_codes
  /\ exists user',
       get_user (snd (MFADisableView_post signed_in_alice sample_mfa_world)) 1
         = Some user'
       /\ mfa_enabled user' = false.
Proof.
  split; [reflexivity|].
  destruct (X6_mfa_disable signed_in_alice sample_mfa_world user_two_codes
              eq_refl) as [user' [Hg [_ [He _]]]].
  exists user'. split; assumption.
Defined.

(** X7. [MFASetupView.post] changes an account only for a signed-in
    visitor whose six-character token verifies against the stored,
    non-empty secret; then the stored account has MFA on with the same
    secret, and its backup codes are exactly the ten codes put on the
    page. *)
Theorem X7_mfa_setup_post :
  forall (rng : nat -> list Z) (request : Request) (now : datetime)
         (s : Session) (w : World),
    (forall i, rng i <> []) ->
    let r := MFASetupView_post rng request now s w in
    (users (snd r) <> users w ->
       exists user token,
         request_user s w = Some user
         /\ MFASetupForm request = Some token
         /\ verify_mfa_token user token now = Some true
         /\ mfa_secret user <> EmptyString)
    /\ (forall user token,
          request_user s w = Some user ->
          MFASetupForm request = Some token ->
          verify_mfa_token user token now = Some true ->
          exists user',
            get_user (snd r) (user_id user) = Some user'
            /\ mfa_enabled user' = true
            /\ mfa_secret user' = mfa_secret user
            /\ stored_codes user' = snd (fst r)
            /\ List.length (snd (fst r)) = 10%nat
            /\ codes_well_formed user').
Proof.
  intros rng request now s w Hrng r. subst r. unfold MFASetupView_post.
  assert (Hd : Forall (fun d : list Z => d <> []) (ten_draws rng)).
  { unfold ten_draws. apply Forall_map, Forall_forall. intros i _. apply Hrng. }
  split.
  - destruct (request_user s w) as [user|] eqn:Hu; [|cbn; congruence].
    destruct (MFASetupForm request) as [token|] eqn:Hf; [|cbn; congruence].
    destruct (verify_mfa_token user token now) as [[]|] eqn:Hv;
      try (cbn; congruence).
    intros _. exists user, token.
    repeat (split; [first [reflexivity | assumption]|]).
    intros Hs. unfold verify_mfa_token in Hv. rewrite Hs in Hv. discriminate.
  - intros user token Hu Hf Hv. rewrite Hu, Hf, Hv.
    pose proof (generate_backup_codes_well_formed (set_mfa_enabled user true)
                  (ten_draws rng) Hd) as [Hst Hwf].
    assert (Hlen : List.length
                     (fst (generate_backup_codes (set_mfa_enabled user true)
                                                 (ten_draws rng))) = 10%nat).
    { unfold generate_backup_codes, ten_draws. cbn [fst].
      now rewrite !length_map, length_seq. }
    assert (Hkeep :
      let u' := snd (generate_backup_codes (set_mfa_enabled user true)
                                           (ten_draws rng)) in
      user_id u' = user_id user /\ mfa_enabled u' = true
      /\ mfa_secret u' = mfa_secret user)
      by (repeat split; reflexivity).
    destruct (generate_backup_codes (set_mfa_enabled user true) (ten_draws rng))
      as [codes user'].
    cbn [fst snd] in *. destruct Hkeep as [Hid [Hen Hsec]].
    exists user'. split; [|split; [|split; [|split; [|split]]]]; try assumption.
    rewrite get_user_add_message.
    apply (get_user_save_user w (user_id user) user);
      [now apply (request_user_Some s) | exact Hid].
Qed.

Lemma X7_mfa_setup_post_witness :
  (forall i, sample_rng i <> [])
  /\ exists user',
       get_user (snd (MFASetupView_post sample_rng setup_request
                        (seconds (59794753 * 30)) signed_in_alice
                        sample_mfa_world)) 1 = Some user'
       /\ get_remaining_backup_codes_count user' = 10.
Proof.
  assert (H : forall i, sample_rng i <> []) by (intros i; discriminate).
  split; [exact H|].
  destruct (proj2 (X7_mfa_setup_post sample_rng setup_request
                     (seconds (59794753 * 30)) signed_in_alice
                     sample_mfa_world H)
              user_two_codes "111659" eq_refl eq_refl
              ltac:(vm_compute; reflexivity))
    as [user' [Hg [_ [_ [Hst [Hl _]]]]]].
  exists user'. split; [exact Hg|].
  rewrite count_unfold, Hst, Hl. reflexivity.
Defined.

(** *** Password reset *)

Lemma get_token_add_token (w : ResetWorld) (t : PasswordResetToken) (k : string) :
  get_token (rw_add_token w t) k =
  match get_token w k with
  | Some x => Some x
  | None => if String.eqb (prt_token t) k then Some t else None
  end.
Proof.
  unfold get_token, rw_add_token. cbn [rw_tokens].
  induction (rw_tokens w) as [|x r IH]; cbn [app find].
  - destruct (String.eqb (prt_token t) k); reflexivity.
  - destruct (String.eqb (prt_token x) k); [reflexivity | exact IH].
Qed.

Lemma get_token_save_token (w : ResetWorld) (t : PasswordResetToken) (k : string) :
  get_token (rw_save_token w t) k =
  if String.eqb (prt_token t) k
  then match get_token w k with Some _ => Some t | None => None end
  else get_token w k.
Proof.
  unfold get_token, rw_save_token. cbn [rw_tokens].
  induction (rw_tokens w) as [|x r IH]; cbn [map find].
  - destruct (String.eqb (prt_token t) k); reflexivity.
  - destruct (String.eqb_spec (prt_token x) (prt_token t)) as [Ext|Hxt].
    + destruct (String.eqb_spec (prt_token t) k) as [Etk|Htk].
      * rewrite Ext, Etk, String.eqb_refl. reflexivity.
      * rewrite Ext. destruct (String.eqb_spec (prt_token t) k); [contradiction|].
        exact IH.
    + destruct (String.eqb_spec (prt_token x) k) as [Exk|Hxk].
      * destruct (String.eqb_spec (prt_token t) k); [congruence | reflexivity].
      * exact IH.
Qed.

Lemma get_token_token (w : ResetWorld) (k : string) (t : PasswordResetToken) :
  get_token w k = Some t -> prt_token t = k.
Proof.
  unfold get_token. intros H. apply find_some in H as [_ H].
  now apply String.eqb_eq.
Qed.

(** X8. The answer to a reset request tells nothing about whether the
    address belongs to an account: the page rendered and the message
    queued depend on the submitted address alone.  Passwords and
    accounts are not touched, and a mail goes out only to the address of
    an existing account. *)
Theorem X8_reset_request_reveals_nothing :
  forall (ev : string -> bool) (request : ResetRequest) (now : datetime)
         (w : ResetWorld),
    get_token w (rr_fresh_token request) = None ->
    let addr := strip (get_default (rr_email request) EmptyString) in
    let r := PasswordResetRequestView_post ev request now w in
    fst r = Render "accounts/password_reset.html"
    /\ rw_messages (snd r)
       = (rw_messages w
            ++ (if truthy addr && ev addr then [reset_sent_message] else []))%list
    /\ rw_passwords (snd r) = rw_passwords w
    /\ rw_users (snd r) = rw_users w
    /\ (rw_outbox (snd r) = rw_outbox w
        \/ exists user m,
             In user (rw_users w) /\ email user = addr
             /\ mail_to m = [addr]
             /\ rw_outbox (snd r) = (rw_outbox w ++ [m])%list).
Proof.
  intros ev request now w Hfresh addr r. subst r.
  unfold PasswordResetRequestView_post. fold addr.
  destruct (truthy addr); cbn [negb orb andb];
    [|repeat split; [now rewrite app_nil_r | now left]].
  destruct (ev addr); cbn [negb];
    [|repeat split; [now rewrite app_nil_r | now left]].
  destruct (find _ (rw_users w)) as [user|] eqn:Hu;
    [|repeat split; now left].
  rewrite Hfresh. apply find_some in Hu as [Hin He].
  apply String.eqb_eq in He.
  destruct (rr_delivered request); cbn; repeat split.
  - right. eexists user, _. repeat split; [assumption | assumption | reflexivity].
  - now left.
Qed.

Lemma X8_reset_request_reveals_nothing_witness :
  get_token sample_reset_world (rr_fresh_token sample_reset_request) = None
  /\ rw_messages
       (snd (PasswordResetRequestView_post sample_email_validator
               sample_reset_request 0 sample_reset_world))
     = [reset_sent_message]
  /\ rw_messages
       (snd (PasswordResetRequestView_post sample_email_validator
               unknown_reset_request 0 sample_reset_world))
     = [reset_sent_message].
Proof.
  split; [reflexivity|]. split.
  - exact (proj1 (proj2 (X8_reset_request_reveals_nothing
                           sample_email_validator sample_reset_request 0
                           sample_reset_world eq_refl))).
  - exact (proj1 (proj2 (X8_reset_request_reveals_nothing
                           sample_email_validator unknown_reset_request 0
                           sample_reset_world eq_refl))).
Defined.

Lemma password_of_set_password (w : ResetWorld) uid p now :
  password_of (rw_set_password w uid p now) uid = Some (p, now).
Proof.
  unfold password_of, rw_set_password. cbn. now rewrite Z.eqb_refl.
Qed.

(** X9. A password changes through [PasswordResetConfirmView.post] only
    with a token that exists, is unused and is younger than 24 hours,
    and with two equal passwords; the change is for the account the
    token belongs to, and the token is stored as used afterwards.  The
    accounts themselves are never changed. *)
Theorem X9_password_changes_need_a_valid_token :
  forall (pv : CustomUser -> string -> bool) (token : string)
         (p1 p2 : option string) (now : datetime) (w : ResetWorld),
    let r := PasswordResetConfirmView_post pv token p1 p2 now w in
    (rw_passwords (snd r) <> rw_passwords w ->
       exists t p,
         get_token w token = Some t
         /\ used t = false
         /\ now < created_at t + timedelta_hours 24
         /\ p1 = Some p /\ p2 = Some p
         /\ password_of (snd r) (prt_user t) = Some (p, now)
         /\ get_token (snd r) token = Some (mark_used t))
    /\ rw_users (snd r) = rw_users w.
Proof.
  intros pv token p1 p2 now w r. subst r.
  unfold PasswordResetConfirmView_post, reset_dispatch.
  destruct (get_token w token) as [t|] eqn:Ht; [|split; [cbn; congruence | reflexivity]].
  destruct (is_valid t now) eqn:Hv; [|split; [cbn; congruence | reflexivity]].
  destruct (find _ (rw_users w)) as [user|] eqn:Hu;
    [|split; [cbn; congruence | reflexivity]].
  destruct (CustomPasswordResetForm pv user p1 p2) as [p|] eqn:Hf;
    [|split; [cbn; congruence | reflexivity]].
  split; [|reflexivity]. intros _.
  apply find_some in Hu as [_ Hid]. apply Z.eqb_eq in Hid.
  unfold CustomPasswordResetForm in Hf.
  destruct p1 as [q1|]; [|discriminate]. destruct p2 as [q2|]; [|discriminate].
  destruct (truthy q1 && truthy q2 && String.eqb q1 q2 && pv user q2) eqn:Hc;
    [|discriminate].
  injection Hf as <-.
  apply andb_true_iff in Hc as [Hc _]. apply andb_true_iff in Hc as [_ Heq].
  apply String.eqb_eq in Heq. subst q2.
  unfold is_valid in Hv. destruct (used t) eqn:Hused; [discriminate|].
  apply Z.ltb_lt in Hv.
  exists t, q1. repeat split; try assumption.
  - cbn [snd]. rewrite <- Hid.
    unfold password_of. cbn. now rewrite Z.eqb_refl.
  - cbn [snd].
    change (get_token (rw_add_message ?a ?b) token) with (get_token a token).
    rewrite get_token_save_token. cbn [mark_used prt_token].
    rewrite (get_token_token _ _ _ Ht), String.eqb_refl.
    change (get_token (rw_set_password w (user_id user) q1 now) token)
      with (get_token w token).
    now rewrite Ht.
Qed.

Lemma X9_password_changes_need_a_valid_token_witness :
  rw_passwords (snd (PasswordResetConfirmView_post sample_password_validators
                       "q3VnR0xw" (Some "a new password") (Some "a new password")
                       (seconds 3600) world_with_link))
    <> rw_passwords world_with_link
  /\ exists t, get_token world_with_link "q3VnR0xw" = Some t /\ used t = false.
Proof.
  assert (H : rw_passwords
                (snd (PasswordResetConfirmView_post sample_password_validators
                        "q3VnR0xw" (Some "a new password")
                        (Some "a new password") (seconds 3600) world_with_link))
              <> rw_passwords world_with_link)
    by (vm_compute; discriminate).
  split; [exact H|].
  destruct (proj1 (X9_password_changes_need_a_valid_token
                     sample_password_validators "q3VnR0xw"
                     (Some "a new password") (Some "a new password")
                     (seconds 3600) world_with_link) H)
    as [t [p [Ht [Hu _]]]].
  exists t. split; assumption.
Defined.

(** X10. A reset link works once, from the request to the new password:
    for an existing account, a request at [t0] followed by a
    confirmation less than 24 hours later with an acceptable password
    sets that password and redirects to the login page; every later
    submission with the same link, at any time and with any passwords,
    is redirected to the request page and changes no password. *)
Theorem X10_reset_link_works_once :
  forall (ev : string -> bool) (pv : CustomUser -> string -> bool)
         (request : ResetRequest) (t0 t1 : datetime) (w : ResetWorld)
         (user : CustomUser) (p : string),
    let addr := strip (get_default (rr_email request) EmptyString) in
    truthy addr = true -> ev addr = true ->
    find (fun u => String.eqb (email u) addr) (rw_users w) = Some user ->
    find (fun u => user_id u =? user_id user) (rw_users w) = Some user ->
    get_token w (rr_fresh_token request) = None ->
    t0 <= t1 < t0 + timedelta_hours 24 ->
    CustomPasswordResetForm pv user (Some p) (Some p) = Some p ->
    let w1 := snd (PasswordResetRequestView_post ev request t0 w) in
    let r2 := PasswordResetConfirmView_post pv (rr_fresh_token request)
                (Some p) (Some p) t1 w1 in
    fst r2 = Redirect "accounts:login"
    /\ password_of (snd r2) (user_id user) = Some (p, t1)
    /\ forall t2 p1 p2,
         let r3 := PasswordResetConfirmView_post pv (rr_fresh_token request)
                     p1 p2 t2 (snd r2) in
         fst r3 = Redirect "accounts:password_reset"
         /\ rw_passwords (snd r3) = rw_passwords (snd r2).
Proof.
  intros ev pv request t0 t1 w user p addr Ht He Hu Hpk Hfresh Htime Hform w1 r2.
  set (tok := rr_fresh_token request) in *.
  set (link := create_token (user_id user) tok t0).
  assert (Hw1 : get_token w1 tok = Some link /\ rw_users w1 = rw_users w).
  { subst w1. unfold PasswordResetRequestView_post. fold addr. fold tok.
    rewrite Ht, He, Hu, Hfresh. cbn [negb orb snd].
    split; [|destruct (rr_delivered request); reflexivity].
    change (get_token (rw_add_message ?a ?b) tok) with (get_token a tok).
    assert (Hadd : get_token (rw_add_token w link) tok = Some link).
    { rewrite get_token_add_token, Hfresh. subst link. cbn [create_token prt_token].
      now rewrite String.eqb_refl. }
    destruct (rr_delivered request); exact Hadd. }
  destruct Hw1 as [Hlink Husers].
  assert (Hvalid : is_valid link t1 = true).
  { subst link. unfold is_valid, create_token. cbn [used created_at].
    apply Z.ltb_lt. lia. }
  assert (Hr2 : r2 = (Redirect "accounts:login",
                      rw_add_message
                        (rw_save_token
                           (rw_set_password w1 (user_id user) p t1)
                           (mark_used link))
                        (Success,
                         "Your password has been reset successfully. You can now login."))).
  { subst r2. unfold PasswordResetConfirmView_post, reset_dispatch.
    rewrite Hlink, Hvalid, Husers.
    change (prt_user link) with (user_id user). rewrite Hpk, Hform. reflexivity. }
  rewrite Hr2. cbn [fst snd]. split; [reflexivity|]. split.
  - unfold password_of. cbn. now rewrite Z.eqb_refl.
  - intros t2 p1 p2. unfold PasswordResetConfirmView_post, reset_dispatch.
    change (get_token (rw_add_message ?a ?b) tok) with (get_token a tok).
    rewrite get_token_save_token.
    change (prt_token (mark_used link)) with tok. rewrite String.eqb_refl.
    change (get_token (rw_set_password w1 (user_id user) p t1) tok)
      with (get_token w1 tok).
    rewrite Hlink. cbn. split; reflexivity.
Qed.

Lemma X10_reset_link_works_once_witness :
  CustomPasswordResetForm sample_password_validators blank_user
    (Some "a new password") (Some "a new password") = Some "a new password"
  /\ fst (PasswordResetConfirmView_post sample_password_validators "q3VnR0xw"
            (Some "a new password") (Some "a new password") (seconds 3600)
            world_with_link)
     = Redirect "accounts:login".
Proof.
  assert (Hf : CustomPasswordResetForm sample_password_validators blank_user
                 (Some "a new password") (Some "a new password")
               = Some "a new password") by reflexivity.
  split; [exact Hf|].
  refine (proj1 (X10_reset_link_works_once sample_email_validator
                   sample_password_validators sample_reset_request 0
                   (seconds 3600) sample_reset_world blank_user
                   "a new password" eq_refl eq_refl eq_refl eq_refl eq_refl
                   _ Hf)).
  vm_compute. split; [discriminate | reflexivity].
Defined.

(** X11. Reset links do not invalidate each other: neither a new
    request nor the use (or refused use) of one link changes the stored
    row of any other link, so an older link of the same account stays
    exactly as valid as it was. *)
Theorem X11_other_reset_links_are_kept :
  forall (ev : string -> bool) (pv : CustomUser -> string -> bool)
         (request : ResetRequest) (token : string) (p1 p2 : option string)
         (now : datetime) (w : ResetWorld) (other : string),
    other <> token ->
    other <> rr_fresh_token request ->
    get_token (snd (PasswordResetConfirmView_post pv token p1 p2 now w)) other
      = get_token w other
    /\ get_token (snd (PasswordResetRequestView_post ev request now w)) other
       = get_token w other.
Proof.
  intros ev pv request token p1 p2 now w other Hne Hfresh. split.
  - unfold PasswordResetConfirmView_post, reset_dispatch.
    destruct (get_token w token) as [t|] eqn:Ht; [|reflexivity].
    destruct (is_valid t now); [|reflexivity].
    destruct (find _ (rw_users w)) as [user|]; [|reflexivity].
    destruct (CustomPasswordResetForm pv user p1 p2) as [p|]; [|reflexivity].
    cbn [snd].
    change (get_token (rw_add_message ?a ?b) other) with (get_token a other).
    rewrite get_token_save_token. cbn [mark_used prt_token].
    rewrite (get_token_token _ _ _ Ht).
    destruct (String.eqb_spec token other); [congruence | reflexivity].
  - unfold PasswordResetRequestView_post.
    destruct (_ || _); [reflexivity|].
    destruct (find _ (rw_users w)) as [user|]; [|reflexivity].
    destruct (get_token w (rr_fresh_token request)); [reflexivity|].
    assert (Hadd : forall t0,
              get_token (rw_add_token w (create_token (user_id user)
                                           (rr_fresh_token request) t0)) other
              = get_token w other).
    { intros t0. rewrite get_token_add_token. cbn [create_token prt_token].
      destruct (get_token w other); [reflexivity|].
      destruct (String.eqb_spec (rr_fresh_token request) other);
        [congruence | reflexivity]. }
    destruct (rr_delivered request); cbn [snd]; apply Hadd.
Qed.

Lemma X11_other_reset_links_are_kept_witness :
  get_token (snd (PasswordResetRequestView_post sample_email_validator
                    second_reset_request (seconds 60) world_with_link))
            "q3VnR0xw"
    = get_token world_with_link "q3VnR0xw"
  /\ get_token world_with_link "q3VnR0xw"
     = Some (create_token 1 "q3VnR0xw" 0).
Proof.
  split; [|reflexivity].
  exact (proj2 (X11_other_reset_links_are_kept sample_email_validator
                  sample_password_validators second_reset_request
                  "unused" None None (seconds 60) world_with_link "q3VnR0xw"
                  ltac:(discriminate) ltac:(discriminate))).
Defined.


(** *** Sessions come from credentials *)

Lemma login_auth (s : Session) (u : CustomUser) :
  auth_user_id (login s u) = Some (user_id u).
Proof. reflexivity. Qed.

Lemma login_pending (s : Session) (u : CustomUser) (p : Z) :
  mfa_user_id (login s u) = Some p -> mfa_user_id s = Some p.
Proof.
  unfold login. cbn [mfa_user_id].
  destruct (auth_user_id s) as [v|]; [|auto].
  destruct (v =? user_id u); [auto | discriminate].
Qed.

(** One step keeps two properties of the session: [Ca] of the account
    signed in and [Cp] of the account pending MFA. *)
Lemma auth_step_invariant (Ca Cp : Z -> Prop) (st : AuthStep) (s : Session)
      (w : World) :
  (forall a, auth_user_id s = Some a -> Ca a) ->
  (forall p, mfa_user_id s = Some p -> Cp p) ->
  (forall u r req, st = LoginStep (FormValid u r) req ->
     if mfa_enabled u then Cp (user_id u) else Ca (user_id u)) ->
  (forall req now, st = MfaStep req now -> forall p, Cp p -> Ca p) ->
  (forall a, auth_user_id (fst (auth_step st s w)) = Some a -> Ca a)
  /\ (forall p, mfa_user_id (fst (auth_step st s w)) = Some p -> Cp p).
Proof.
  intros Ha Hp Hst Hmfa.
  assert (Hkeep : (forall a, auth_user_id s = Some a -> Ca a)
                  /\ (forall p, mfa_user_id s = Some p -> Cp p))
    by (split; assumption).
  destruct st as [form request|request now];
    unfold auth_step, session_of; cbn [fst snd].
  - unfold LoginView_post. destruct form as [u r|]; [|exact Hkeep].
    specialize (Hst u r request eq_refl).
    destruct (mfa_enabled u); cbn [fst snd].
    + cbn. split; [exact Ha|]. intros p H. injection H as <-. exact Hst.
    + split.
      * intros a H. destruct (negb r); cbn in H; injection H as <-; exact Hst.
      * intros p H. apply Hp.
        destruct (negb r); [cbn [set_expiry mfa_user_id] in H|];
          now apply (login_pending s u).
  - specialize (Hmfa request now eq_refl).
    unfold MFAVerifyView_post.
    destruct (mfa_user_id s) as [uid|] eqn:Hm; [|rewrite <- Hm in Hkeep; exact Hkeep].
    rewrite <- Hm in Hkeep.
    destruct (MFAVerificationForm request) as [[token ub]|]; [|exact Hkeep].
    destruct (get_user w uid) as [user|] eqn:Hu; [|exact Hkeep].
    destruct (check_token user token ub now w) as [[[[] user'] w1]|] eqn:Hc;
      cbn [fst snd]; [|exact Hkeep|exact Hkeep].
    apply check_token_user in Hc. apply get_user_id in Hu.
    split.
    + intros a H.
      assert (Ea : a = uid).
      { match type of H with
        | auth_user_id (if ?b then _ else _) = _ => destruct b
        end; cbn in H; congruence. }
      rewrite Ea. apply Hmfa, Hp. reflexivity.
    + intros p H. exfalso.
      match type of H with
      | mfa_user_id (if ?b then _ else _) = _ => destruct b
      end;
        [cbn [set_expiry mfa_user_id] in H|];
        apply login_pending in H; discriminate H.
Qed.

Lemma auth_steps_invariant (Ca Cp : Z -> Prop) (sts : list AuthStep) :
  forall (s : Session) (w : World),
    (forall a, auth_user_id s = Some a -> Ca a) ->
    (forall p, mfa_user_id s = Some p -> Cp p) ->
    (forall u r req, In (LoginStep (FormValid u r) req) sts ->
       if mfa_enabled u then Cp (user_id u) else Ca (user_id u)) ->
    (forall req now, In (MfaStep req now) sts -> forall p, Cp p -> Ca p) ->
    forall a, auth_user_id (fst (auth_steps sts s w)) = Some a -> Ca a.
Proof.
  induction sts as [|st rest IH]; intros s w Ha Hp Hst Hmfa; [exact Ha|].
  cbn [auth_steps].
  destruct (auth_step_invariant Ca Cp st s w Ha Hp) as [Ha' Hp'].
  { intros u r req ->. apply (Hst u r req). now left. }
  { intros req now ->. apply (Hmfa req now). now left. }
  destruct (auth_step st s w) as [s' w']. cbn [fst] in Ha', Hp'.
  apply IH; [assumption | assumption | |].
  - intros u r req Hin. apply (Hst u r req). now right.
  - intros req now Hin. apply (Hmfa req now). now right.
Qed.

(** X22. Nobody is signed in without a password check: starting from
    an anonymous session, after any sequence of submissions to the login
    and MFA views, if the session is signed in as an account, then one
    of the login submissions passed the credential check for that very
    account. *)
Theorem X22_sessions_come_from_credentials :
  forall (sts : list AuthStep) (w : World) (uid : Z),
    auth_user_id (fst (auth_steps sts anonymous_session w)) = Some uid ->
    exists user remember request,
      In (LoginStep (FormValid user remember) request) sts
      /\ user_id user = uid.
Proof.
  intros sts w uid H.
  set (C := fun a => exists user remember request,
                       In (LoginStep (FormValid user remember) request) sts
                       /\ user_id user = a).
  apply (auth_steps_invariant C C sts anonymous_session w);
    try assumption; try discriminate.
  - intros u r req Hin.
    assert (C (user_id u)) by (now exists u, r, req).
    destruct (mfa_enabled u); assumption.
  - auto.
Qed.

Lemma X22_sessions_come_from_credentials_witness :
  auth_user_id (fst (auth_steps [LoginStep (FormValid user_no_secret true)
                                           sample_request]
                                anonymous_session sample_mfa_world)) = Some 2
  /\ exists user remember request,
       In (LoginStep (FormValid user remember) request)
          [LoginStep (FormValid user_no_secret true) sample_request]
       /\ user_id user = 2.
Proof.
  split; [reflexivity|].
  exact (X22_sessions_come_from_credentials
           [LoginStep (FormValid user_no_secret true) sample_request]
           sample_mfa_world 2 eq_refl).
Defined.

(** X23. The login view alone never signs in an account that has MFA
    on: starting from an anonymous session, as long as nothing is
    submitted to the MFA view, a session is signed in only as an account
    for which a credential check found MFA off. *)
Theorem X23_login_alone_never_skips_mfa :
  forall (sts : list AuthStep) (w : World) (uid : Z),
    (forall request now, ~ In (MfaStep request now) sts) ->
    auth_user_id (fst (auth_steps sts anonymous_session w)) = Some uid ->
    exists user remember request,
      In (LoginStep (FormValid user remember) request) sts
      /\ user_id user = uid
      /\ mfa_enabled user = false.
Proof.
  intros sts w uid Hno H.
  set (C := fun a => exists user remember request,
                       In (LoginStep (FormValid user remember) request) sts
                       /\ user_id user = a /\ mfa_enabled user = false).
  apply (auth_steps_invariant C (fun _ => True) sts anonymous_session w);
    try assumption; try discriminate.
  - intros u r req Hin. destruct (mfa_enabled u) eqn:Hm; [exact I|].
    now exists u, r, req.
  - intros req now Hin. exfalso. exact (Hno req now Hin).
Qed.

Lemma X23_login_alone_never_skips_mfa_witness :
  (forall request now,
      ~ In (MfaStep request now)
           [LoginStep (FormValid user_two_codes true) sample_request;
            LoginStep (FormValid user_no_secret true) sample_request])
  /\ auth_user_id
       (fst (auth_steps [LoginStep (FormValid user_two_codes true) sample_request;
                         LoginStep (FormValid user_no_secret true) sample_request]
                        anonymous_session sample_mfa_world)) = Some 2
  /\ exists user, user_id user = 2 /\ mfa_enabled user = false.
Proof.
  assert (Hno : forall request now,
             ~ In (MfaStep request now)
                  [LoginStep (FormValid user_two_codes true) sample_request;
                   LoginStep (FormValid user_no_secret true) sample_request]).
  { intros request now [H|[H|[]]]; discriminate H. }
  split; [exact Hno|]. split; [reflexivity|].
  destruct (X23_login_alone_never_skips_mfa _ sample_mfa_world 2 Hno eq_refl)
    as [user [_ [_ [_ [Hid Hm]]]]].
  exists user. split; assumption.
Defined.


Lemma request_user_active (s : Session) (w : World) (u : CustomUser) :
  request_user s w = Some u ->
  auth_user_id s = Some (user_id u) /\ is_active u = true.
Proof.
  unfold request_user. destruct (auth_user_id s) as [uid|]; [|discriminate].
  destruct (get_user w uid) as [v|] eqn:Hv; [|discriminate].
  destruct (is_active v) eqn:Ha; [|discriminate]. intros [= <-].
  now rewrite (proj2 (get_user_In _ _ _ Hv)).
Qed.

(** X24. The setup page provisions a secret once: [MFASetupView.get]
    stores the freshly generated secret only when the account has none
    and otherwise shows the stored one untouched; either way the secret
    shown is the one stored afterwards, and loading the page again shows
    the same secret and changes nothing. *)
Theorem X24_mfa_setup_get_provisions_once :
  forall (fresh fresh' : string) (s : Session) (w : World) (user : CustomUser),
    request_user s w = Some user ->
    fresh <> EmptyString ->
    let r := MFASetupView_get fresh s w in
    let shown := snd (fst r) in
    shown <> EmptyString
    /\ (mfa_secret user <> EmptyString ->
          shown = mfa_secret user /\ snd r = w)
    /\ (mfa_secret user = EmptyString -> shown = fresh)
    /\ (exists user', get_user (snd r) (user_id user) = Some user'
                      /\ mfa_secret user' = shown)
    /\ MFASetupView_get fresh' s (snd r)
       = (Render "accounts/mfa_setup.html", shown, snd r).
Proof.
  intros fresh fresh' s w user Hu Hfresh r shown.
  pose proof (request_user_Some s w user Hu) as Hget.
  destruct (request_user_active s w user Hu) as [Hauth Hact].
  destruct (mfa_secret user) as [|c t] eqn:Hs.
  - set (user' := set_mfa_secret user fresh).
    assert (Hr : r = (Render "accounts/mfa_setup.html", fresh,
                      save_user w user')).
    { subst r. unfold MFASetupView_get. rewrite Hu, Hs. reflexivity. }
    subst shown. rewrite Hr. cbn [fst snd].
    assert (Hget' : get_user (save_user w user') (user_id user) = Some user')
      by (apply (get_user_save_user w (user_id user) user);
          [assumption | reflexivity]).
    assert (Hu' : request_user s (save_user w user') = Some user').
    { unfold request_user. rewrite Hauth, Hget'. subst user'.
      cbn [is_active set_mfa_secret]. now rewrite Hact. }
    split; [exact Hfresh|]. split; [congruence|]. split; [reflexivity|].
    split; [exists user'; split; [exact Hget' | reflexivity]|].
    unfold MFASetupView_get. rewrite Hu'.
    subst user'. cbn [mfa_secret set_mfa_secret].
    destruct fresh as [|c t]; [congruence | reflexivity].
  - assert (Hr : r = (Render "accounts/mfa_setup.html", String c t, w)).
    { subst r. unfold MFASetupView_get. rewrite Hu, Hs. reflexivity. }
    subst shown. rewrite Hr. cbn [fst snd].
    split; [discriminate|]. split; [intros _; split; reflexivity|].
    split; [discriminate|].
    split; [exists user; split; [exact Hget | exact Hs]|].
    unfold MFASetupView_get. rewrite Hu, Hs. reflexivity.
Qed.

Lemma X24_mfa_setup_get_provisions_once_witness :
  request_user (mkSession (Some 2) None None None) sample_mfa_world
    = Some user_no_secret
  /\ snd (fst (MFASetupView_get "JBSWY3DPEHPK3PXP"
                 (mkSession (Some 2) None None None) sample_mfa_world))
     = "JBSWY3DPEHPK3PXP".
Proof.
  split; [reflexivity|].
  exact (proj1 (proj2 (proj2 (X24_mfa_setup_get_provisions_once
                                "JBSWY3DPEHPK3PXP" "OTHERSECRETVALUE"
                                (mkSession (Some 2) None None None)
                                sample_mfa_world user_no_secret eq_refl
                                ltac:(discriminate))))
           eq_refl).
Defined.

End AccountsMoreFacts.

(** ** pdfapp: log rows, views and generated markup *)
Module PdfappViewsFacts.
Import PyStr PyStrFacts Accounts Pdfapp PdfappFacts PdfappViews.

Lemma new_logs_app (d0 d1 : PDFDocument) (l0 l : list ConversionLog) :
  new_logs (d0, l0) (d1, (l0 ++ l)%list) = l.
Proof.
  unfold new_logs. cbn [snd].
  rewrite skipn_app, skipn_all, Nat.sub_diag. reflexivity.
Qed.

(** X12. The rows one run of [process_document] appends: the rows of
    earlier runs are kept; 'start' comes first; then at most one PDF row
    ('pdf_success' or 'pdf_error'), then at most one HTML row
    ('html_success' or 'html_error'); and one closing row comes last,
    'complete' exactly when the run returns [True], 'error' otherwise. *)
Theorem X12_process_document_log_rows :
  forall (env : Env) (st : St),
    let r := process_document env st in
    exists l pdf_rows html_rows terminal,
      snd (snd r) = (snd st ++ l)%list
      /\ actions l = ("start" :: pdf_rows ++ html_rows ++ [terminal])%list
      /\ In pdf_rows [[]; ["pdf_success"]; ["pdf_error"]]
      /\ In html_rows [[]; ["html_success"]; ["html_error"]]
      /\ (terminal = "complete" /\ fst r = true
          \/ terminal = "error" /\ fst r = false).
Proof.
  intros env [d logs]. cbn zeta.
  pipeline_cases;
    (eexists; cbn [fst snd]; normalize_logs;
     match goal with
     | |- exists p h t, (_ ++ ?l)%list = _ /\ _ =>
         exists (filter (String.prefix "pdf") (actions l)),
                (filter (String.prefix "html") (actions l)),
                (last (actions l) EmptyString)
     end;
     split; [reflexivity|];
     cbn [actions map action filter String.prefix last app];
     split; [reflexivity|]; cbn [In]; tauto).
Qed.

(** X13. When the calls of the orchestration return, a run logs
    'pdf_success' exactly when the PDF step has a file to store and
    'pdf_error' exactly when it has none and the converter's error text
    is not empty; likewise for the HTML step.  A failure with an empty
    error text leaves no row. *)
Theorem X13_conversion_rows :
  forall (env : Env) (st : St),
    orchestration_calls_return env (fst st) = true ->
    let acts := actions (new_logs st (snd (process_document env st))) in
    (In "pdf_success" acts <-> pdf_converted env (fst st) = true)
    /\ (In "pdf_error" acts <->
          pdf_converted env (fst st) = false
          /\ pdf_error_text env (fst st) = true)
    /\ (In "html_success" acts <-> html_converted env (fst st) = true)
    /\ (In "html_error" acts <->
          html_converted env (fst st) = false
          /\ html_error_text env (fst st) = true).
Proof.
  intros env [d logs]. cbn [fst]. intros Hret.
  unfold orchestration_calls_return, returns in Hret.
  repeat (apply andb_true_iff in Hret as [Hret ?]).
  cbn zeta. unfold pdf_converted, html_converted, pdf_error_text, html_error_text.
  change (source_file_path env d)
    with (source_file_path env (set_status "processing" d)).
  pipeline_cases;
    try (exfalso; use_equations; try discriminate;
         unfold source_file_path in *; cbn [source_file set_status] in *;
         use_equations; discriminate);
    normalize_logs;
    match goal with
    | |- context [new_logs (?d0, ?l0) (?d1, (?l0 ++ ?l)%list)] =>
        rewrite (new_logs_app d0 d1 l0 l)
    end;
    cbn [actions map action In];
    use_equations;
    repeat match goal with
           | |- _ /\ _ => split
           | |- _ <-> _ => split
           end;
    try tauto; try congruence;
    try (intros [Ha|Ha]; repeat (destruct Ha as [Ha|Ha]); try discriminate;
         try contradiction);
    try (intros [? ?]; congruence).
Qed.

Lemma X13_conversion_rows_witness :
  orchestration_calls_return env_pdf_timeout uploaded = true
  /\ In "pdf_error"
        (actions (new_logs (uploaded, [])
                    (snd (process_document env_pdf_timeout (uploaded, []))))).
Proof.
  split; [reflexivity|].
  apply (proj1 (proj2 (X13_conversion_rows env_pdf_timeout (uploaded, [])
                         eq_refl))).
  split; reflexivity.
Defined.

(** *** The views *)

Lemma get_object_or_404_Some rows k u r :
  get_object_or_404 rows k u = Some r -> In r rows /\ pk r = k /\ owner r = u.
Proof.
  unfold get_object_or_404. intros H. apply find_some in H as [Hin H].
  apply andb_true_iff in H as [Hk Ho].
  apply Z.eqb_eq in Hk. apply Z.eqb_eq in Ho. auto.
Qed.

Lemma get_object_or_404_None rows k u :
  (forall r, In r rows -> pk r = k -> owner r <> u) ->
  get_object_or_404 rows k u = None.
Proof.
  intros H. unfold get_object_or_404.
  destruct (find _ rows) as [r|] eqn:Hf; [|reflexivity].
  apply find_some in Hf as [Hin Hb].
  apply andb_true_iff in Hb as [Hk Ho].
  apply Z.eqb_eq in Hk. apply Z.eqb_eq in Ho.
  exfalso. exact (H r Hin Hk Ho).
Qed.

(** X14. Documents are private to their owner: for a signed-in visitor
    who owns no document with the requested key, [view_pdf],
    [view_html] and [export_html] answer 404, the reprocess view answers
    404 without running the pipeline, and the detail page finds nothing
    and counts no view; an anonymous visitor is sent to the login page
    and changes nothing either. *)
Theorem X14_documents_are_private :
  forall (env : Env) (rows : list Row) (k u : Z) (readable : bool),
    (forall r, In r rows -> pk r = k -> owner r <> u) ->
    view_pdf (Some u) k rows readable = NotFound EmptyString
    /\ view_html (Some u) k rows readable = NotFound EmptyString
    /\ export_html (Some u) k rows readable = NotFound EmptyString
    /\ reprocess_view env (Some u) k rows = (NotFound EmptyString, None, rows)
    /\ detail_get_object (Some u) k rows = (None, rows)
    /\ view_pdf None k rows readable = RedirectTo "accounts:login"
    /\ view_html None k rows readable = RedirectTo "accounts:login"
    /\ export_html None k rows readable = RedirectTo "accounts:login"
    /\ reprocess_view env None k rows
        = (RedirectTo "accounts:login", None, rows)
    /\ detail_get_object None k rows = (None, rows).
Proof.
  intros env rows k u readable H.
  apply get_object_or_404_None in H.
  unfold view_pdf, view_html, export_html, reprocess_view, detail_get_object.
  rewrite H. repeat split.
Qed.

Lemma X14_documents_are_private_witness :
  (forall r, In r sample_rows -> pk r = 8 -> owner r <> 1)
  /\ view_html (Some 1) 8 sample_rows true = NotFound EmptyString.
Proof.
  assert (H : forall r, In r sample_rows -> pk r = 8 -> owner r <> 1).
  { intros r [<-|[<-|[]]]; cbn; intros; discriminate. }
  split; [exact H|].
  exact (proj1 (proj2 (X14_documents_are_private env_ok sample_rows 8 1 true H))).
Defined.

Lemma get_object_or_404_save rows k u r r' :
  get_object_or_404 rows k u = Some r ->
  pk r' = k -> owner r' = u ->
  get_object_or_404 (save_row rows r') k u = Some r'.
Proof.
  unfold get_object_or_404, save_row. intros H Hk Ho.
  induction rows as [|x rest IH]; [discriminate|].
  cbn [map find] in *.
  destruct (Z.eqb_spec (pk x) (pk r')) as [E|N].
  - rewrite Hk, Ho, !Z.eqb_refl. reflexivity.
  - destruct (Z.eqb_spec (pk x) k) as [E'|N']; [congruence|].
    cbn [andb] in *. now apply IH.
Qed.

Lemma save_row_others rows r' x :
  In x rows -> pk x <> pk r' -> In x (save_row rows r').
Proof.
  intros Hin Hne. unfold save_row. apply in_map_iff. exists x.
  split; [|assumption].
  destruct (Z.eqb_spec (pk x) (pk r')); [contradiction | reflexivity].
Qed.

(** What a run never writes. *)
Lemma process_document_keeps (env : Env) (st : St) :
  let d' := fst (snd (process_document env st)) in
  title d' = title (fst st)
  /\ source_file d' = source_file (fst st)
  /\ view_count d' = view_count (fst st).
Proof.
  destruct st as [d logs]. cbn zeta.
  pipeline_cases; cbn; repeat split.
Qed.

(** X15. Reprocessing the visitor's own document runs the pipeline on
    the stored row and saves the result under the same key and owner:
    the row then holds what [process_document] returned, its earlier log
    rows are still there in front of the new ones, title, source file
    and view counter are as before, and the rows of other documents are
    untouched.  The message reports success exactly when the status is
    'completed'. *)
Theorem X15_reprocess_view :
  forall (env : Env) (rows : list Row) (k u : Z) (r : Row),
    get_object_or_404 rows k u = Some r ->
    let out := reprocess_view env (Some u) k rows in
    let st' := snd (process_document env (document r, logs r)) in
    get_object_or_404 (snd out) k u = Some (mkRow k u (fst st') (snd st'))
    /\ (exists l, snd st' = (logs r ++ l)%list /\ l <> [])
    /\ title (fst st') = title (document r)
    /\ source_file (fst st') = source_file (document r)
    /\ view_count (fst st') = view_count (document r)
    /\ (forall x, In x rows -> pk x <> k -> In x (snd out))
    /\ (status (fst st') = "completed" <->
          snd (fst out)
          = Some (AccountsViews.Success, "Document reprocessed successfully!")).
Proof.
  intros env rows k u r Hr out st'.
  destruct (get_object_or_404_Some _ _ _ _ Hr) as [Hin [Hk Ho]].
  assert (Hout : out = (RedirectTo "pdfapp:detail",
                        Some (fst (reprocess_document env (document r, logs r))),
                        save_row rows (mkRow k u (fst st') (snd st')))).
  { subst out st'. unfold reprocess_view. rewrite Hr.
    unfold reprocess_document.
    destruct (process_document env (document r, logs r)) as [b [d' l']].
    cbn [fst snd]. rewrite Hk, Ho.
    destruct (String.eqb (status d') "completed"); reflexivity. }
  rewrite Hout. cbn [fst snd].
  destruct (process_document_keeps env (document r, logs r)) as [Ht [Hs Hv]].
  cbn [fst] in Ht, Hs, Hv. fold st' in Ht, Hs, Hv.
  split; [|split; [|split; [|split; [|split; [|split]]]]]; try assumption.
  - apply (get_object_or_404_save rows k u r); [assumption | reflexivity..].
  - destruct (process_document_logs_shape env (document r, logs r))
      as [l [m [t [Hl [Ha _]]]]].
    cbn [snd] in Hl. exists l. split; [exact Hl|].
    intros ->. discriminate Ha.
  - intros x Hx Hne. now apply save_row_others.
  - unfold reprocess_document. fold st'.
    destruct (process_document env (document r, logs r)) as [b st2].
    cbn [snd] in st'. subst st'.
    destruct (String.eqb_spec (status (fst st2)) "completed") as [E|N];
      cbn [fst]; split; intros H; try assumption; try reflexivity;
      try contradiction; discriminate H.
Qed.

Lemma X15_reprocess_view_witness :
  get_object_or_404 sample_rows 7 1 = Some (mkRow 7 1 uploaded [])
  /\ exists row,
       get_object_or_404 (snd (reprocess_view env_ok (Some 1) 7 sample_rows)) 7 1
         = Some row
       /\ status (document row) = "completed".
Proof.
  split; [reflexivity|].
  eexists. split.
  - exact (proj1 (X15_reprocess_view env_ok sample_rows 7 1
                    (mkRow 7 1 uploaded []) eq_refl)).
  - vm_compute. reflexivity.
Defined.

Lemma truthy_text_of (o : option string) :
  is_some_truthy o = true -> truthy (text_of o) = true.
Proof. destruct o as [[|c r]|]; cbn; congruence. Qed.

Lemma html_step_result (env : Env) (st : St) :
  orchestration_calls_return env (fst st) = true ->
  html_converted env (fst st) = true ->
  let d' := fst (snd (process_document env st)) in
  status d' = "completed"
  /\ html_content d' = text_of (fst (html_result env (fst st)))
  /\ truthy (html_content d') = true.
Proof.
  destruct st as [d logs]. cbn [fst]. intros Hret Hc.
  unfold orchestration_calls_return, returns in Hret.
  repeat (apply andb_true_iff in Hret as [Hret ?]).
  unfold html_converted in Hc. cbn zeta.
  assert (Ht : truthy (text_of (fst (html_result env d))) = true)
    by now apply truthy_text_of.
  revert Hc Ht.
  pipeline_cases;
    try (exfalso; use_equations; try discriminate;
         unfold source_file_path in *; cbn [source_file set_status] in *;
         use_equations; discriminate);
    intros Hc Ht;
    cbn [status html_content set_processed_at set_status set_html_file
         set_html_content set_pdf_file fst snd];
    repeat match goal with
           | E : context [html_result env (set_pdf_file ?f ?d0)] |- _ =>
               rewrite (html_result_source env (set_pdf_file f d0) d0) in E
                 by reflexivity
           | E : context [html_result env (set_status ?v ?d0)] |- _ =>
               rewrite (html_result_source env (set_status v d0) d0) in E
                 by reflexivity
           end;
    try congruence;
    rewrite ?(html_result_source env (set_pdf_file _ (set_status "processing" d)) d),
            ?(html_result_source env (set_status "processing" d) d) by reflexivity;
    (split; [reflexivity | split; [reflexivity | exact Ht]]).
Qed.

(** X16. After a run whose orchestration calls return and whose HTML
    step converted, the stored document is 'completed' and both HTML
    views serve exactly the converter's output from [html_content],
    whether or not the stored file is readable; the export names the
    download after the source file. *)
Theorem X16_converted_html_is_served :
  forall (env : Env) (st : St) (rows : list Row) (k u : Z) (readable : bool),
    orchestration_calls_return env (fst st) = true ->
    html_converted env (fst st) = true ->
    let st' := snd (process_document env st) in
    get_object_or_404 rows k u = Some (mkRow k u (fst st') (snd st')) ->
    let html := text_of (fst (html_result env (fst st))) in
    status (fst st') = "completed"
    /\ view_html (Some u) k rows readable = Ok200 "text/html" None html
    /\ export_html (Some u) k rows readable
       = Ok200 "text/html"
               (Some ("attachment; filename="
                        ++ quoted (fst (splitext (basename (source_file (fst st))))
                                     ++ ".html")))
               html.
Proof.
  intros env st rows k u readable Hret Hc st' Hrow html.
  destruct (html_step_result env st Hret Hc) as [Hs [Hh Ht]].
  destruct (process_document_keeps env st) as [_ [Hsrc _]].
  fold st' in Hs, Hh, Ht, Hsrc. subst html.
  split; [exact Hs|].
  unfold view_html, export_html. rewrite Hrow. cbn [document].
  rewrite Ht, Hh, Hsrc. split; reflexivity.
Qed.

Lemma X16_converted_html_is_served_witness :
  orchestration_calls_return env_pdf_timeout uploaded = true
  /\ html_converted env_pdf_timeout uploaded = true
  /\ exists body,
       view_html (Some 1) 7
         (snd (reprocess_view env_pdf_timeout (Some 1) 7 sample_rows)) false
       = Ok200 "text/html" None body.
Proof.
  assert (Hc : html_converted env_pdf_timeout uploaded = true)
    by (vm_compute; reflexivity).
  assert (Hrow : get_object_or_404
                   (snd (reprocess_view env_pdf_timeout (Some 1) 7 sample_rows))
                   7 1
                 = Some (mkRow 7 1
                           (fst (snd (process_document env_pdf_timeout
                                        (uploaded, []))))
                           (snd (snd (process_document env_pdf_timeout
                                        (uploaded, []))))))
    by (vm_compute; reflexivity).
  split; [reflexivity|]. split; [exact Hc|].
  eexists.
  exact (proj1 (proj2 (X16_converted_html_is_served env_pdf_timeout
                         (uploaded, [])
                         (snd (reprocess_view env_pdf_timeout (Some 1) 7
                                              sample_rows))
                         7 1 false eq_refl Hc Hrow))).
Defined.

Lemma process_document_flag (env : Env) (st : St) :
  let r := process_document env st in
  (fst r = true -> status (fst (snd r)) = "completed")
  /\ (fst r = false ->
      status (fst (snd r)) = "failed"
      /\ exists e, error_message (fst (snd r)) = e
                   /\ process_body env (started st) = (Raised e, snd (process_body env (started st)))).
Proof.
  cbn zeta. unfold process_document.
  destruct (process_body env (started st)) as [[b|e] st2] eqn:Hb.
  - cbn [fst snd]. revert Hb. destruct st as [d logs].
    pipeline_cases; intros Hb; inversion Hb; subst; cbn;
      split; try reflexivity; discriminate.
  - cbn [fst snd]. split; [discriminate|]. intros _. split; [reflexivity|].
    exists e. split; reflexivity.
Qed.

(** X17. The notice after an upload follows the status alone: it is the
    success notice exactly when [process_document] returned [True],
    which is the case whenever the orchestration calls return, also when
    neither a PDF nor HTML was produced; otherwise it is the warning
    with the message of the exception that escaped. *)
Theorem X17_upload_notice :
  forall (env : Env) (st : St),
    let notice := fst (form_valid_notice env st) in
    let r := process_document env st in
    snd (form_valid_notice env st) = snd r
    /\ (fst r = true ->
          notice = ("success", "Document converted successfully!"))
    /\ (fst r = false ->
          notice = ("warning",
                    "Conversion completed with issues: "
                      ++ error_message (fst (snd r))))
    /\ (orchestration_calls_return env (fst st) = true ->
          notice = ("success", "Document converted successfully!")).
Proof.
  intros env st notice r.
  destruct (process_document_flag env st) as [Htrue Hfalse].
  fold r in Htrue, Hfalse.
  assert (Hn : form_valid_notice env st =
               (if String.eqb (status (fst (snd r))) "completed"
                then ("success", "Document converted successfully!")
                else ("warning",
                      "Conversion completed with issues: "
                        ++ error_message (fst (snd r))), snd r)).
  { unfold form_valid_notice. subst r.
    destruct (process_document env st) as [b st']. cbn [fst snd].
    destruct (String.eqb (status (fst st')) "completed"); reflexivity. }
  subst notice. rewrite Hn. cbn [fst snd].
  split; [reflexivity|]. split; [|split].
  - intros H. rewrite (Htrue H). reflexivity.
  - intros H. destruct (Hfalse H) as [Hs _]. rewrite Hs. reflexivity.
  - intros Hret.
    assert (Hflag : fst r = true).
    { destruct (fst r) eqn:Hf; [reflexivity|].
      destruct (Hfalse eq_refl) as [Hs _]. exfalso.
      revert Hs. subst r. destruct st as [d logs]. cbn [fst] in Hret.
      unfold orchestration_calls_return, returns in Hret.
      repeat (apply andb_true_iff in Hret as [Hret ?]).
      clear Hn Hf Htrue Hfalse.
      pipeline_cases; cbn; try discriminate; intros _;
        unfold source_file_path in *; cbn [source_file set_status] in *;
        use_equations; discriminate. }
    rewrite (Htrue Hflag). reflexivity.
Qed.

Lemma X17_upload_notice_witness :
  orchestration_calls_return env_both_fail uploaded = true
  /\ fst (form_valid_notice env_both_fail (uploaded, []))
     = ("success", "Document converted successfully!").
Proof.
  split; [reflexivity|].
  exact (proj2 (proj2 (proj2 (X17_upload_notice env_both_fail (uploaded, []))))
           eq_refl).
Defined.

End PdfappViewsFacts.

(** ** pdfapp: view counter, stored names and generated markup *)
Module PdfappMarkupFacts.
Import PyStr PyStrFacts Accounts Pdfapp PdfappFacts PdfappViews
       PdfappViewsFacts.

(** *** The view counter *)




(** *** Text inside text *)

Lemma append_assoc (a b c : string) : (a ++ b) ++ c = a ++ (b ++ c).
Proof. induction a as [|x a IH]; simpl; congruence. Qed.

Lemma append_nil_r (a : string) : a ++ EmptyString = a.
Proof. induction a as [|x a IH]; simpl; congruence. Qed.

Lemma occurs_refl (x : string) : occurs x x.
Proof. exists EmptyString, EmptyString. now rewrite append_nil_r. Qed.

Lemma occurs_between (a x b : string) : occurs x (a ++ x ++ b).
Proof. now exists a, b. Qed.

Lemma occurs_trans (x y z : string) : occurs x y -> occurs y z -> occurs x z.
Proof.
  intros [a [b ->]] [c [d ->]]. exists (c ++ a), (b ++ d).
  now rewrite !append_assoc.
Qed.

Lemma occurs_app_l (x s t : string) : occurs x s -> occurs x (s ++ t).
Proof.
  intros [a [b ->]]. exists a, (b ++ t). now rewrite !append_assoc.
Qed.

Lemma occurs_app_r (x s t : string) : occurs x t -> occurs x (s ++ t).
Proof.
  intros [a [b ->]]. exists (s ++ a), b. now rewrite !append_assoc.
Qed.

Lemma occurs_join (sep x : string) (l : list string) :
  In x l -> occurs x (join sep l).
Proof.
  induction l as [|y r IH]; [intros []|].
  intros [->|Hin].
  - destruct r; [apply occurs_refl|].
    cbn [join]. apply occurs_app_l, occurs_refl.
  - destruct r as [|z r']; [destruct Hin|].
    change (join sep (y :: z :: r')) with (y ++ sep ++ join sep (z :: r')).
    apply occurs_app_r, occurs_app_r, IH, Hin.
Qed.

Lemma occurs_in_line (sep x line : string) (l : list string) :
  In line l -> occurs x line -> occurs x (join sep l).
Proof.
  intros Hin Hx. eapply occurs_trans; [exact Hx | now apply occurs_join].
Qed.

Lemma run_html_text (r : Run) :
  run_text r <> EmptyString ->
  exists piece, run_html r = [piece] /\ occurs (run_text r) piece.
Proof.
  intros Hne. unfold run_html.
  destruct (run_text r) as [|c t] eqn:Ht; [congruence|]. cbn [truthy negb].
  eexists. split; [reflexivity|].
  destruct (is_set (underline r)); destruct (is_set (italic r));
    destruct (is_set (bold r));
    repeat first [apply occurs_refl
                 | apply occurs_between
                 | (eapply occurs_trans; [|apply occurs_between])].
Qed.

(** X19. The converters copy document text into the markup as it is,
    without escaping: the text of every table cell of a word document
    occurs between [<td>] and [</td>], the text of every non-empty run
    of a paragraph that is not blank occurs in the output, and so does
    the text of every table cell of a presentation. *)
Theorem X19_text_is_not_escaped :
  forall (doc : DocxDocument) (prs : Presentation),
    exists html phtml,
      convert_docx_to_html (Returned doc) = (Some html, None)
      /\ convert_pptx_to_html (Returned prs) = (Some phtml, None)
      /\ (forall t row cell,
            In t (tables doc) -> In row t -> In cell row ->
            occurs ("<td>" ++ cell ++ "</td>") html)
      /\ (forall para r,
            In para (paragraphs doc) -> In r (runs para) ->
            run_text r <> EmptyString ->
            strip (para_text para) <> EmptyString ->
            occurs (run_text r) html)
      /\ (forall slide id t row cell,
            In slide prs -> In (TableShape id t) (shapes slide) ->
            In row t -> In cell row ->
            occurs ("<td>" ++ cell ++ "</td>") phtml).
Proof.
  intros doc prs. unfold convert_docx_to_html, convert_pptx_to_html.
  eexists. eexists. split; [reflexivity|]. split; [reflexivity|].
  assert (Hcell : forall (t : Table) row cell,
            In row t -> In cell row ->
            In ("<td>" ++ cell ++ "</td>") (table_html t)).
  { intros t row cell Hrow Hcell. unfold table_html.
    apply in_or_app. right. apply in_or_app. left.
    apply in_flat_map. exists row. split; [assumption|].
    unfold row_html. apply in_or_app. right. apply in_or_app. left.
    apply in_map_iff. exists cell. split; [reflexivity | assumption]. }
  split; [|split].
  - intros t row cell Ht Hrow Hc. apply occurs_join.
    apply in_or_app. right. apply in_or_app. right. apply in_or_app. left.
    apply in_flat_map. exists t. split; [assumption|].
    now apply (Hcell t row cell).
  - intros para r Hp Hr Hne Hblank.
    apply (occurs_in_line nl (run_text r) (paragraph_html para)).
    + apply in_or_app. right. apply in_or_app. left. now apply in_map.
    + unfold paragraph_html.
      destruct (strip (para_text para)) as [|c s] eqn:Hs; [congruence|].
      cbn [truthy negb].
      destruct (run_html_text r Hne) as [piece [Hpiece Hocc]].
      apply occurs_app_r, occurs_app_r, occurs_app_r, occurs_app_r,
            occurs_app_l.
      eapply occurs_trans; [exact Hocc|]. apply occurs_join.
      apply in_flat_map. exists r. split; [assumption|].
      rewrite Hpiece. now left.
  - intros slide id t row cell Hs Hsh Hrow Hc. apply occurs_join.
    apply in_or_app. right. apply in_or_app. left.
    assert (Hgen : forall n slides,
              In slide slides ->
              In ("<td>" ++ cell ++ "</td>") (slides_html n slides)).
    { intros n slides. revert n.
      induction slides as [|s0 rest IH]; intros n; [intros []|].
      intros [->|Hin]; cbn [slides_html]; apply in_or_app.
      - left. unfold slide_html. apply in_or_app. right. apply in_or_app. left.
        apply in_flat_map. exists (TableShape id t). split; [assumption|].
        cbn [shape_html]. now apply (Hcell t row cell).
      - right. now apply IH. }
    now apply Hgen.
Qed.

Lemma X19_text_is_not_escaped_witness :
  exists html,
    convert_docx_to_html (Returned docx_with_markup) = (Some html, None)
    /\ occurs "<script>alert(1)</script>" html
    /\ occurs "<td><img src=x></td>" html.
Proof.
  destruct (X19_text_is_not_escaped docx_with_markup two_slides)
    as [html [phtml [Hd [_ [Hcell [Hrun _]]]]]].
  exists html. split; [exact Hd|]. split.
  - apply (Hrun (mkParagraph None None
                   [mkRun "<script>alert(1)</script>" None None None])
                (mkRun "<script>alert(1)</script>" None None None));
      [left; reflexivity | left; reflexivity | discriminate
      | vm_compute; discriminate].
  - apply (Hcell [["<img src=x>"]] ["<img src=x>"] "<img src=x>");
      left; reflexivity.
Defined.

(** *** Slide numbers *)

Lemma slides_html_number (slides : list Slide) :
  forall (first : Z) (i : nat) (slide : Slide),
    nth_error slides i = Some slide ->
    In ("<div class=" ++ dq ++ "slide-number" ++ dq ++ ">Slide "
          ++ str_of_int (first + Z.of_nat i) ++ "</div>")
       (slides_html first slides).
Proof.
  induction slides as [|s0 rest IH]; intros first i slide Hn.
  - destruct i; discriminate.
  - cbn [slides_html]. apply in_or_app. destruct i as [|i].
    + left. unfold slide_html. rewrite Z.add_0_r.
      apply in_or_app. left. right. left. reflexivity.
    + right. cbn [nth_error] in Hn.
      replace (first + Z.of_nat (S i)) with ((first + 1) + Z.of_nat i) by lia.
      now apply (IH (first + 1) i slide).
Qed.

(** X20. [convert_pptx_to_html] always succeeds on an opened
    presentation and numbers the slides from 1 in their order: for the
    slide at position [i] (counting from 0) the output has the line
    [<div class="slide-number">Slide i+1</div>]. *)
Theorem X20_slides_are_numbered :
  forall (prs : Presentation),
  exists html,
    convert_pptx_to_html (Returned prs) = (Some html, None)
    /\ forall (i : nat) (slide : Slide),
         nth_error prs i = Some slide ->
         occurs ("<div class=" ++ dq ++ "slide-number" ++ dq ++ ">Slide "
                   ++ str_of_int (Z.of_nat i + 1) ++ "</div>")
                html.
Proof.
  intros prs. unfold convert_pptx_to_html. eexists. split; [reflexivity|].
  intros i slide Hn. apply occurs_join.
  apply in_or_app. right. apply in_or_app. left.
  replace (Z.of_nat i + 1) with (1 + Z.of_nat i) by lia.
  now apply (slides_html_number prs 1 i slide).
Qed.

Lemma X20_slides_are_numbered_witness :
  exists html,
    convert_pptx_to_html (Returned two_slides) = (Some html, None)
    /\ occurs ("<div class=" ++ dq ++ "slide-number" ++ dq ++ ">Slide 2</div>")
              html.
Proof.
  destruct (X20_slides_are_numbered two_slides) as [html [Hc Hn]].
  exists html. split; [exact Hc|].
  exact (Hn 1%nat _ eq_refl).
Defined.

(** *** Names of the stored artifacts *)








End PdfappMarkupFacts.
